(** * FCU hybrid-consensus ledger: a shallow embedding of the Python sources

    The development follows the layout of the repository: [core] (ledger),
    [consensus] (difficulty control, council block approval, lottery),
    [governance] (proposal life cycle), [network] (gossip layer) and
    [node] (block production).  Each Python class is a sub-module holding
    a record [t] and the methods as functions that take the object and
    return the updated object next to the method's result.

    Modelling conventions.
    - Python [float] amounts, capacities and times are exact rationals [Q];
      comparisons are the boolean ones of [Q].  The statements made about
      them are about signs, comparisons of stored values and which parts
      of the state a call touches, none of which depends on rounding.
    - Where a result is decided by rounded arithmetic (the mean block time
      of the difficulty controller) the floats are binary64 floats
      ([PrimFloat.float]) with the IEEE 754 operations; the builtin [sum]
      is the operation of the class [FloatSum].
    - [int] values are [Z].
    - A [dict] whose iteration order is never observed is a stdpp [gmap];
      a [dict] that is iterated in insertion order is an association list.
    - [hashlib.sha256] and [json.dumps] are library code: they are the two
      operations of the class [Hashlib].
    - The wall clock ([time.time()]) is an explicit argument [now]: one
      reading per modelled call, used for every timestamp the call sets. *)

From Stdlib Require Import PrimFloat.
From Stdlib Require Import ZArith QArith Qround List String Ascii Bool Lia Lqa.
From Stdlib Require Import DecimalString.
From Stdlib Require Uint63.
From stdpp Require Import base gmap sets list strings.

Local Open Scope Z_scope.

(** ** Python runtime helpers *)

Module py.

(** [a >= b], [a < b], [a > b] and [a <= b] on floats. *)
Definition ge (a b : Q) : bool := Qle_bool b a.
Definition lt (a b : Q) : bool := negb (Qle_bool b a).
Definition gt (a b : Q) : bool := negb (Qle_bool a b).
Definition le (a b : Q) : bool := Qle_bool a b.

(** [int(x)] on a float truncates towards zero. *)
Definition int (x : Q) : Z := Z.quot (Qnum x) (Zpos (Qden x)).

(** [max(a, b)] and [min(a, b)] on floats: Python returns the first
    argument unless the second is strictly greater (resp. smaller). *)
Definition maxq (a b : Q) : Q := if gt b a then b else a.
Definition minq (a b : Q) : Q := if lt b a then b else a.

(** Values that can be stored in a [Dict] payload and serialised. *)
#[warnings="-register-all"]
Inductive value : Type :=
| VNone
| VBool (b : bool)
| VInt (n : Z)
| VFloat (x : Q)
| VStr (s : string)
| VList (l : list value)
| VDict (d : list (string * value)).

(** [d.get(k)] on an insertion-ordered dictionary. *)
Fixpoint dict_get {A} (k : string) (d : list (string * A)) : option A :=
  match d with
  | [] => None
  | (k', v) :: rest => if String.eqb k k' then Some v else dict_get k rest
  end.

(** [d[k] = v]: an existing key keeps its position, a new key goes last. *)
Fixpoint dict_set {A} (k : string) (v : A) (d : list (string * A))
  : list (string * A) :=
  match d with
  | [] => [(k, v)]
  | (k', v') :: rest =>
      if String.eqb k k' then (k, v) :: rest else (k', v') :: dict_set k v rest
  end.

(** Truthiness of a value, as tested by [if v:]. *)
Definition truthy (v : value) : bool :=
  match v with
  | VNone => false
  | VBool b => b
  | VInt n => negb (n =? 0)
  | VFloat x => negb (Qeq_bool x 0)
  | VStr s => negb (String.eqb s "")
  | VList l => match l with [] => false | _ => true end
  | VDict d => match d with [] => false | _ => true end
  end.

(** [sum(l)] on floats: left to right from [0]. *)
Definition sum (l : list Q) : Q := fold_left Qplus l 0%Q.

(** [float(n)] for a length [n]; exact below [2^53]. *)
Definition float_of_nat (n : nat) : float :=
  PrimFloat.of_uint63 (Uint63.of_Z (Z.of_nat n)).

(** A call either returns or raises; [Raised] carries the exception name. *)
Inductive result (A : Type) : Type :=
| Returned (a : A)
| Raised (exn : string).
Arguments Returned {A} a.
Arguments Raised {A} exn.

(** The number held by a value, if it holds one ([bool] is a subclass of
    [int]). *)
Definition as_number (v : value) : option Q :=
  match v with
  | VFloat x => Some x
  | VInt n => Some (inject_Z n)
  | VBool b => Some (if b then 1%Q else 0%Q)
  | _ => None
  end.

(** [l[start:]] with Python's treatment of a negative start. *)
Definition slice_from {A} (start : Z) (l : list A) : list A :=
  if start <? 0
  then drop (Z.to_nat (Z.max 0 (Z.of_nat (length l) + start))) l
  else drop (Z.to_nat start) l.

(** [sorted(l)] on strings: insertion sort by code-point order. *)
Fixpoint insert_sorted (s : string) (l : list string) : list string :=
  match l with
  | [] => [s]
  | x :: rest => if String.leb s x then s :: l else x :: insert_sorted s rest
  end.
Definition sorted (l : list string) : list string :=
  fold_right insert_sorted [] l.

(** [int(s, 16)] on a string of hexadecimal digits; [None] stands for
    the [ValueError] raised on anything else. *)
Definition hex_digit (c : ascii) : option Z :=
  let n := Z.of_nat (nat_of_ascii c) in
  if (48 <=? n) && (n <=? 57) then Some (n - 48)
  else if (97 <=? n) && (n <=? 102) then Some (n - 87)
  else if (65 <=? n) && (n <=? 70) then Some (n - 55)
  else None.

Fixpoint int_hex_acc (acc : Z) (s : string) : option Z :=
  match s with
  | EmptyString => Some acc
  | String c rest =>
      match hex_digit c with
      | Some d => int_hex_acc (16 * acc + d) rest
      | None => None
      end
  end.

Definition int_hex (s : string) : option Z :=
  match s with
  | EmptyString => None
  | _ => int_hex_acc 0 s
  end.

(** [s[:n]] on a string. *)
Fixpoint str_take (n : nat) (s : string) : string :=
  match n, s with
  | S n', String c rest => String c (str_take n' rest)
  | _, _ => EmptyString
  end.

(** [str(n)] on an integer. *)
Definition str_int (n : Z) : string := NilEmpty.string_of_int (Z.to_int n).

(** [s * n] on a string: the empty string when [n <= 0]. *)
Fixpoint str_repeat_nat (s : string) (n : nat) : string :=
  match n with
  | O => EmptyString
  | S n' => s +:+ str_repeat_nat s n'
  end.
Definition str_repeat (s : string) (n : Z) : string :=
  str_repeat_nat s (Z.to_nat n).

(** [s.startswith(p)] *)
Fixpoint startswith (s p : string) : bool :=
  match p with
  | EmptyString => true
  | String c p' =>
      match s with
      | EmptyString => false
      | String d s' => Ascii.eqb c d && startswith s' p'
      end
  end.

(** [del d[k]] on an insertion-ordered dictionary. *)
Fixpoint dict_del {A} (k : string) (d : list (string * A)) : list (string * A) :=
  match d with
  | [] => []
  | (k', v) :: rest =>
      if String.eqb k k' then dict_del k rest else (k', v) :: dict_del k rest
  end.

(** [l[:stop]] with Python's treatment of a negative stop. *)
Definition slice_to {A} (stop : Z) (l : list A) : list A :=
  if stop <? 0
  then take (Z.to_nat (Z.max 0 (Z.of_nat (length l) + stop))) l
  else take (Z.to_nat stop) l.

(** Keys of dictionaries and sets that are indexed by arbitrary payload
    values.  Python compares keys by value, so [1], [1.0] and [True] are
    one key; lists and dictionaries are not hashable. *)
Inductive key : Type :=
| KNone
| KNum (x : Q)
| KStr (s : string).

Definition key_eqb (a b : key) : bool :=
  match a, b with
  | KNone, KNone => true
  | KNum x, KNum y => Qeq_bool x y
  | KStr s, KStr t => String.eqb s t
  | _, _ => false
  end.

(** [None] stands for the [TypeError: unhashable type]. *)
Definition hashable (v : value) : option key :=
  match v with
  | VNone => Some KNone
  | VBool b => Some (KNum (if b then 1%Q else 0%Q))
  | VInt n => Some (KNum (inject_Z n))
  | VFloat x => Some (KNum x)
  | VStr s => Some (KStr s)
  | VList _ | VDict _ => None
  end.

Fixpoint kdict_get {A} (k : key) (d : list (key * A)) : option A :=
  match d with
  | [] => None
  | (k', v) :: rest => if key_eqb k k' then Some v else kdict_get k rest
  end.

(** [d[k] = v]: an existing key keeps its position and its key object. *)
Fixpoint kdict_set {A} (k : key) (v : A) (d : list (key * A)) : list (key * A) :=
  match d with
  | [] => [(k, v)]
  | (k', v') :: rest =>
      if key_eqb k k' then (k', v) :: rest else (k', v') :: kdict_set k v rest
  end.

Fixpoint kdict_del {A} (k : key) (d : list (key * A)) : list (key * A) :=
  match d with
  | [] => []
  | (k', v) :: rest =>
      if key_eqb k k' then kdict_del k rest else (k', v) :: kdict_del k rest
  end.

(** [k in s] and [s.add(k)] on a set kept as a list without repetitions. *)
Definition kset_mem (k : key) (s : list key) : bool := existsb (key_eqb k) s.

Definition kset_add (k : key) (s : list key) : list key :=
  if kset_mem k s then s else s ++ [k].

End py.

(** ** Library operations the sources rely on *)

(** [sha256_hexdigest s] is [hashlib.sha256(s.encode()).hexdigest()];
    [json_dumps v] is [json.dumps(v, sort_keys=True, default=str)]. *)
Class Hashlib := {
  sha256_hexdigest : string -> string;
  json_dumps : py.value -> string
}.

(** The process-wide generator of the [random] module: [random_seed] is
    [random.seed(n)], which overwrites the whole generator state, and
    [random_below g n] draws the index used by [random.choice] on a
    sequence of length [n], returning the advanced generator. *)
Class PyRandom := {
  generator : Type;
  random_seed : Z -> generator;
  random_below : generator -> nat -> nat * generator;
  random_below_lt : forall g n, (0 < n)%nat -> (fst (random_below g n) < n)%nat
}.

(** Iteration order of a [set] of strings, which Python leaves
    unspecified: any enumeration of the elements. *)
Class SetOrder := {
  set_iter : gset string -> list string;
  set_iter_perm : forall s, set_iter s ≡ₚ elements s
}.

(** [float_sum l] is the builtin [sum(l)] on a list of floats.  CPython
    adds left to right from [0], rounding each addition, up to version
    3.11, and carries a compensation term from 3.12 on; the two agree
    whenever no addition rounds. *)
Class FloatSum := {
  float_sum : list float -> float
}.

(** [str_float x] is the text an f-string writes for the float [x]. *)
Class PyFormat := {
  str_float : Q -> string
}.

(** The readings of [time.time()] during one call: [clock k] is the
    [k]-th reading, counted from zero. *)
Definition clock : Type := nat -> Q.

(** ** core.py: transactions, blocks and the ledger *)

Module core.

Inductive TransactionType : Type :=
| TRANSFER
| STAKE_DEPOSIT
| STAKE_WITHDRAW
| STORAGE_PLEDGE
| STORAGE_REVOKE
| GOVERNANCE_VOTE.

Definition TransactionType_value (k : TransactionType) : string :=
  match k with
  | TRANSFER => "transfer"
  | STAKE_DEPOSIT => "stake_deposit"
  | STAKE_WITHDRAW => "stake_withdraw"
  | STORAGE_PLEDGE => "storage_pledge"
  | STORAGE_REVOKE => "storage_revoke"
  | GOVERNANCE_VOTE => "governance_vote"
  end.

Definition opt_str (o : option string) : py.value :=
  match o with Some s => py.VStr s | None => py.VNone end.

Module Transaction.

Record t : Type := mk {
  tx_id : string;
  timestamp : Q;
  sender : string;
  receiver : string;
  amount : Q;
  tx_type : TransactionType;
  nonce : Z;
  signature : option string;
  data : list (string * py.value)
}.

Definition to_dict (self : t) : py.value :=
  py.VDict
    [ ("tx_id", py.VStr (tx_id self));
      ("timestamp", py.VFloat (timestamp self));
      ("sender", py.VStr (sender self));
      ("receiver", py.VStr (receiver self));
      ("amount", py.VFloat (amount self));
      ("tx_type", py.VStr (TransactionType_value (tx_type self)));
      ("nonce", py.VInt (nonce self));
      ("signature", opt_str (signature self));
      ("data", py.VDict (data self)) ].

Definition hash `{Hashlib} (self : t) : string :=
  sha256_hexdigest (json_dumps (to_dict self)).

Definition create_genesis_tx (now : Q) : t :=
  {| tx_id := "GENESIS_SIMCOIN";
     timestamp := now;
     sender := "SYSTEM";
     receiver := "FCU_TREASURY";
     amount := 1000000%Q;
     tx_type := TRANSFER;
     nonce := 0;
     signature := None;
     data := [("note", py.VStr "Genesis - Simcoin donation to FCU Treasury")] |}.

End Transaction.

Module StoragePledge.

(** [capacity_gb] and [proof_hash] hold whatever the transaction's data
    dictionary holds under these keys. *)
Record t : Type := mk {
  pledger : string;
  capacity_gb : py.value;
  timestamp : Q;
  proof_hash : py.value;
  challenge_response : option string;
  is_active : bool
}.

End StoragePledge.

Module PoSStake.

Record t : Type := mk {
  validator : string;
  amount : Q;
  lock_time : Z;
  timestamp : Q;
  delegated_from : option string;
  is_active : bool
}.

End PoSStake.

Module Block.

Record t : Type := mk {
  index : Z;
  previous_hash : string;
  timestamp : Q;
  transactions : list Transaction.t;
  miner : string;
  validators : list string;
  poc_difficulty : Z;
  pow_lottery_winner : option string;
  nonce : Z;
  merkle_root : string;
  state_root : option string;
  hash : string
}.

(** One pass of the [while] loop of [calculate_merkle_root]: pad an odd
    level with its last hash, then hash the pairs. *)
Fixpoint pair_up `{Hashlib} (l : list string) : list string :=
  match l with
  | a :: b :: rest => sha256_hexdigest (a +:+ b) :: pair_up rest
  | _ => []
  end.

Definition merkle_level `{Hashlib} (l : list string) : list string :=
  let padded := if Nat.odd (length l) then l ++ [List.last l ""] else l in
  pair_up padded.

(** The loop runs while more than one hash is left; every pass at least
    halves the level, so [length] passes are always enough
    ([merkle_loop_single] below). *)
Fixpoint merkle_loop `{Hashlib} (fuel : nat) (l : list string) : list string :=
  match fuel with
  | O => l
  | S fuel' =>
      if (1 <? length l)%nat then merkle_loop fuel' (merkle_level l) else l
  end.

Definition calculate_merkle_root `{Hashlib} (txs : list Transaction.t) : string :=
  match txs with
  | [] => sha256_hexdigest ""
  | _ =>
      let tx_hashes := map Transaction.hash txs in
      List.hd "" (merkle_loop (length tx_hashes) tx_hashes)
  end.

(** The dictionary that [calculate_hash] serialises.  It holds the nine
    header fields and nothing else: neither the transaction list nor the
    lottery winner nor the stored hash. *)
Definition block_data (self : t) : py.value :=
  py.VDict
    [ ("index", py.VInt (index self));
      ("previous_hash", py.VStr (previous_hash self));
      ("timestamp", py.VFloat (timestamp self));
      ("merkle_root", py.VStr (merkle_root self));
      ("miner", py.VStr (miner self));
      ("validators", py.VList (map py.VStr (py.sorted (validators self))));
      ("poc_difficulty", py.VInt (poc_difficulty self));
      ("nonce", py.VInt (nonce self));
      ("state_root", opt_str (state_root self)) ].

Definition calculate_hash `{Hashlib} (self : t) : string :=
  sha256_hexdigest (json_dumps (block_data self)).

Definition set_hash (h : string) (self : t) : t :=
  {| index := index self; previous_hash := previous_hash self;
     timestamp := timestamp self; transactions := transactions self;
     miner := miner self; validators := validators self;
     poc_difficulty := poc_difficulty self;
     pow_lottery_winner := pow_lottery_winner self; nonce := nonce self;
     merkle_root := merkle_root self; state_root := state_root self;
     hash := h |}.

(** [Block.__init__]: the merkle root is computed unless a non-empty one
    is passed in ([merkle_root or ...]); the hash is computed last. *)
Definition init `{Hashlib} (index : Z) (previous_hash : string) (timestamp : Q)
    (transactions : list Transaction.t) (miner : string)
    (validators : list string) (poc_difficulty : Z)
    (pow_lottery_winner : option string) (nonce : Z)
    (merkle_root : option string) (state_root : option string) : t :=
  let root :=
    match merkle_root with
    | Some r => if String.eqb r "" then calculate_merkle_root transactions else r
    | None => calculate_merkle_root transactions
    end in
  let self :=
    mk index previous_hash timestamp transactions miner validators
       poc_difficulty pow_lottery_winner nonce root state_root "" in
  set_hash (calculate_hash self) self.

End Block.

Module Blockchain.

Record t : Type := mk {
  chain_id : string;
  chain : list Block.t;
  state : gmap string Q;
  storage_pledges : gmap string StoragePledge.t;
  pos_stakes : gmap string (list PoSStake.t);
  pending_transactions : list Transaction.t
}.

Definition set_state (s : gmap string Q) (self : t) : t :=
  mk (chain_id self) (chain self) s (storage_pledges self) (pos_stakes self)
     (pending_transactions self).

Definition set_chain (c : list Block.t) (self : t) : t :=
  mk (chain_id self) c (state self) (storage_pledges self) (pos_stakes self)
     (pending_transactions self).

Definition set_storage_pledges (p : gmap string StoragePledge.t) (self : t) : t :=
  mk (chain_id self) (chain self) (state self) p (pos_stakes self)
     (pending_transactions self).

Definition set_pos_stakes (p : gmap string (list PoSStake.t)) (self : t) : t :=
  mk (chain_id self) (chain self) (state self) (storage_pledges self) p
     (pending_transactions self).

Definition set_pending_transactions (p : list Transaction.t) (self : t) : t :=
  mk (chain_id self) (chain self) (state self) (storage_pledges self)
     (pos_stakes self) p.

(** [Blockchain.__init__] with [_create_genesis_block]. *)
Definition init `{Hashlib} (chain_id : string) (now : Q) : t :=
  let genesis_tx := Transaction.create_genesis_tx now in
  let genesis_block :=
    Block.init 0 "0" now [genesis_tx] "GENESIS_SYSTEM" ["GENESIS_SYSTEM"] 1
               None 0 None None in
  {| chain_id := chain_id;
     chain := [genesis_block];
     state := <[Transaction.receiver genesis_tx := Transaction.amount genesis_tx]> ∅;
     storage_pledges := ∅;
     pos_stakes := ∅;
     pending_transactions := [] |}.

(** [self.chain[-1]]; [None] stands for the [IndexError] on an empty chain. *)
Definition get_latest_block (self : t) : option Block.t :=
  last (chain self).

Definition get_balance (self : t) (address : string) : Q :=
  default 0%Q (state self !! address).

Definition add_transaction (self : t) (transaction : Transaction.t) : bool * t :=
  if py.ge (get_balance self (Transaction.sender transaction))
           (Transaction.amount transaction)
  then (true,
        set_pending_transactions
          (pending_transactions self ++ [transaction]) self)
  else (false, self).

(** The body of the [for] loop of [process_transactions]. *)
Definition process_transaction (now : Q) (self : t) (tx : Transaction.t) : t :=
  match Transaction.tx_type tx with
  | TRANSFER =>
      let sender_bal := default 0%Q (state self !! Transaction.sender tx) in
      if py.ge sender_bal (Transaction.amount tx) then
        let s1 :=
          <[Transaction.sender tx := (sender_bal - Transaction.amount tx)%Q]>
            (state self) in
        let s2 :=
          <[Transaction.receiver tx :=
              (default 0%Q (s1 !! Transaction.receiver tx)
               + Transaction.amount tx)%Q]> s1 in
        set_state s2 self
      else self
  | STAKE_DEPOSIT =>
      let stake :=
        PoSStake.mk (Transaction.sender tx) (Transaction.amount tx) 0 now
                    None true in
      let stakes :=
        match pos_stakes self !! Transaction.sender tx with
        | Some l => <[Transaction.sender tx := l ++ [stake]]> (pos_stakes self)
        | None => <[Transaction.sender tx := [stake]]> (pos_stakes self)
        end in
      let self1 := set_pos_stakes stakes self in
      set_state
        (<[Transaction.sender tx :=
             (default 0%Q (state self1 !! Transaction.sender tx)
              - Transaction.amount tx)%Q]> (state self1))
        self1
  | STORAGE_PLEDGE =>
      let pledge :=
        StoragePledge.mk
          (Transaction.sender tx)
          (default (py.VFloat 32%Q)
                   (py.dict_get "capacity_gb" (Transaction.data tx)))
          now
          (default py.VNone (py.dict_get "proof_hash" (Transaction.data tx)))
          None true in
      set_storage_pledges
        (<[Transaction.sender tx := pledge]> (storage_pledges self)) self
  | _ => self
  end.

Definition process_transactions (now : Q) (self : t)
    (transactions : list Transaction.t) : t :=
  fold_left (process_transaction now) transactions self.

(** The body of the [for] loop of [validate_chain] at index [i], [true]
    when neither [return False] is taken. *)
Definition check_block_at `{Hashlib} (c : list Block.t) (i : nat) : bool :=
  match c !! i, c !! (i - 1)%nat with
  | Some block, Some previous_block =>
      if negb (String.eqb (Block.hash block) (Block.calculate_hash block))
      then false
      else if negb (String.eqb (Block.previous_hash block)
                               (Block.hash previous_block))
      then false
      else true
  | _, _ => true
  end.

(** [for i in range(1, len(self.chain))]: the result is [True] exactly
    when no index takes a [return False]. *)
Definition validate_chain `{Hashlib} (self : t) : bool :=
  forallb (check_block_at (chain self)) (seq 1 (length (chain self) - 1)).

Definition get_chain_length (self : t) : nat := length (chain self).

End Blockchain.

End core.

(** [sum(1 for v in votes.values() if v is b)]: the number of ballots
    equal to [b] in a [voter -> ballot] dictionary. *)
Definition count_ballots (b : bool) (votes : gmap string bool) : nat :=
  size (filter (λ kv : string * bool, kv.2 = b) votes).

(** ** consensus.py: difficulty control, council block approval, lottery *)

Module consensus.

Module PoCDifficulty.

Definition INITIAL_DIFFICULTY : Z := 4.
Definition TARGET_BLOCK_TIME : float := 22.5%float.
Definition DIFFICULTY_ADJUSTMENT_BLOCKS : nat := 50.

(** The block times are binary64 floats: the mean is their [sum] divided
    by the length, rounded, and it is compared with the rounded products
    [TARGET_BLOCK_TIME * 0.8] and [TARGET_BLOCK_TIME * 1.2]
    ([avg > x] is [x < avg]). *)
#[warnings="-inexact-float"]
Definition calculate_new_difficulty `{FloatSum} (current_difficulty : Z)
    (actual_block_times : list float) (network_capacity_gb : float) : Z :=
  if (length actual_block_times <? 2)%nat then current_difficulty
  else
    let avg_time :=
      PrimFloat.div (float_sum actual_block_times)
                    (py.float_of_nat (length actual_block_times)) in
    if PrimFloat.ltb avg_time (PrimFloat.mul TARGET_BLOCK_TIME 0.8%float)
    then Z.min (current_difficulty + 1) 32
    else if PrimFloat.ltb (PrimFloat.mul TARGET_BLOCK_TIME 1.2%float) avg_time
    then Z.max (current_difficulty - 1) 1
    else current_difficulty.

(** [max(1, int(difficulty / 2))] *)
Definition required_leading_zeros (difficulty : Z) : Z :=
  Z.max 1 (py.int (inject_Z difficulty / 2)%Q).

Definition verify_pow_solution `{Hashlib} `{PyFormat} (previous_hash : string)
    (storage_capacity_gb : Q) (nonce difficulty : Z) : bool :=
  let block_data :=
    previous_hash +:+ ":" +:+ str_float storage_capacity_gb +:+ ":"
                  +:+ py.str_int nonce in
  let result_hash := sha256_hexdigest block_data in
  py.startswith result_hash
                (py.str_repeat "0" (required_leading_zeros difficulty)).

End PoCDifficulty.

Module PoCMiner.

Record t : Type := mk {
  miner_id : string;
  storage_capacity_gb : Q;
  total_blocks_mined : Z;
  last_mine_time : Q
}.

(** [PoCMiner.__init__]: the declared capacity is raised to 32 GB. *)
Definition init (miner_id : string) (storage_capacity_gb : Q) (now : Q) : t :=
  mk miner_id (py.maxq 32%Q storage_capacity_gb) 0 now.


(** The [while] loop of [mine_block].  [k] is the number of clock
    readings taken so far; each turn reads the clock once, a success
    reads it twice more and a timeout once more.  [fuel] bounds the
    number of turns; [None] means the bound was reached before the loop
    ended. *)
Fixpoint mine_loop `{Hashlib} `{PyFormat} (fuel : nat) (time : clock) (k : nat)
    (start_time : Q) (self : t) (previous_hash : string) (difficulty : Z)
    (timeout : Q) (nonce : Z) : option (option Z * Q * t) :=
  match fuel with
  | O => None
  | S fuel' =>
      if py.lt (time k - start_time)%Q timeout then
        if PoCDifficulty.verify_pow_solution previous_hash
             (storage_capacity_gb self) nonce difficulty
        then
          Some (Some nonce, (time (S k) - start_time)%Q,
                mk (miner_id self) (storage_capacity_gb self)
                   (total_blocks_mined self + 1) (time (S (S k))))
        else
          mine_loop fuel' time (S k) start_time self previous_hash difficulty
                    timeout (nonce + 1)
      else Some (None, (time (S k) - start_time)%Q, self)
  end.

Definition mine_block `{Hashlib} `{PyFormat} (fuel : nat) (time : clock)
    (self : t) (previous_hash : string) (difficulty : Z) (timeout : Q)
  : option (option Z * Q * t) :=
  mine_loop fuel time 1 (time 0%nat) self previous_hash difficulty timeout 0.

End PoCMiner.

Module PoSValidator.

Definition ROLE_TREASURER : string := "treasurer".
Definition ROLE_COUNCIL : string := "council".
Definition ROLE_VALIDATOR : string := "validator".

Record t : Type := mk {
  validator_id : string;
  role : string;
  min_stake : Q;
  total_staked : Q;
  blocks_validated : Z;
  slashing_count : Z
}.

Definition init (validator_id role : string) (min_stake : Q) : t :=
  mk validator_id role min_stake 0%Q 0 0.





Definition validate_block (self : t) (block_hash : string) : bool * t :=
  (true,
   mk (validator_id self) (role self) (min_stake self) (total_staked self)
      (blocks_validated self + 1) (slashing_count self)).

End PoSValidator.

Module PoSConsensus.

(** An entry of [pending_proposals]. *)
Record proposal : Type := mk_proposal {
  data : py.value;
  proposer : string;
  votes : gmap string bool;
  timestamp : Q
}.

Record t : Type := mk {
  treasurer : PoSValidator.t;
  council : gmap string PoSValidator.t;
  min_council_approval : nat;
  pending_proposals : gmap string proposal
}.

Definition init (treasurer : PoSValidator.t) : t := mk treasurer ∅ 3%nat ∅.

Definition set_council (c : gmap string PoSValidator.t) (self : t) : t :=
  mk (treasurer self) c (min_council_approval self) (pending_proposals self).

Definition set_pending_proposals (p : gmap string proposal) (self : t) : t :=
  mk (treasurer self) (council self) (min_council_approval self) p.

Definition add_council_member (self : t) (member_id : string)
    (validator : PoSValidator.t) : bool * t :=
  if (5 <=? size (council self))%nat then (false, self)
  else
    match council self !! member_id with
    | None => (true, set_council (<[member_id := validator]> (council self)) self)
    | Some _ => (false, self)
    end.

Definition remove_council_member (self : t) (member_id : string) : bool * t :=
  match council self !! member_id with
  | Some _ => (true, set_council (delete member_id (council self)) self)
  | None => (false, self)
  end.

Definition propose_block (self : t) (block_hash : string) (block_data : py.value)
    (proposer_id : string) (now : Q) : bool * t :=
  if String.eqb proposer_id (PoSValidator.validator_id (treasurer self))
  then (true,
        set_pending_proposals
          (<[block_hash := mk_proposal block_data proposer_id ∅ now]>
             (pending_proposals self)) self)
  else (false, self).

Definition vote_on_proposal (self : t) (block_hash voter_id : string)
    (vote : bool) : bool * t :=
  match pending_proposals self !! block_hash with
  | None => (false, self)
  | Some p =>
      if bool_decide (council self !! voter_id = None)
         && negb (String.eqb voter_id (PoSValidator.validator_id (treasurer self)))
      then (false, self)
      else
        let p' := mk_proposal (data p) (proposer p)
                              (<[voter_id := vote]> (votes p)) (timestamp p) in
        (true,
         set_pending_proposals (<[block_hash := p']> (pending_proposals self)) self)
  end.

Definition count_votes (self : t) (block_hash : string) : nat * nat * nat :=
  match pending_proposals self !! block_hash with
  | None => (0, 0, 0)%nat
  | Some p =>
      (count_ballots true (votes p), count_ballots false (votes p),
       (size (council self) + 1)%nat)
  end.

Definition is_proposal_approved (self : t) (block_hash : string) : bool :=
  let '(yes_votes, _, _) := count_votes self block_hash in
  (min_council_approval self <=? yes_votes)%nat.

End PoSConsensus.

Module PoWLottery.

(** The per-participant dictionary stored in [participants]. *)
Record participant : Type := mk_participant {
  storage_gb : Q;
  entries : Z;
  wins : Z;
  last_entry_block : Z
}.

(** [participants] is iterated by [select_winner], so it keeps the
    insertion order of the Python dictionary. *)
Record t : Type := mk {
  block_time : Z;
  lottery_difficulty : Z;
  participants : list (string * participant);
  winners : list string
}.

Definition init (block_time : Z) : t := mk block_time 4 [] [].

Definition set_participants (p : list (string * participant)) (self : t) : t :=
  mk (block_time self) (lottery_difficulty self) p (winners self).

Definition set_winners (w : list string) (self : t) : t :=
  mk (block_time self) (lottery_difficulty self) (participants self) w.

Definition register_participant (self : t) (participant_id : string)
    (storage_gb : Q) : t :=
  set_participants
    (py.dict_set participant_id (mk_participant storage_gb 0 0 0)
                 (participants self)) self.

(** [max(1, int(capacity / 32.0))] *)
Definition tickets_for (capacity : Q) : Z :=
  Z.max 1 (py.int (capacity / 32)%Q).

Definition add_lottery_ticket (self : t) (participant_id : string)
    (block_height : Z) : Z * t :=
  match py.dict_get participant_id (participants self) with
  | None => (0, self)
  | Some p =>
      let tickets := tickets_for (storage_gb p) in
      let p' := mk_participant (storage_gb p) (entries p + tickets) (wins p)
                               block_height in
      (tickets,
       set_participants (py.dict_set participant_id p' (participants self)) self)
  end.

(** The weighted pool built by the [for] loop of [select_winner]. *)
Definition pool (ps : list (string * participant)) : list string :=
  flat_map
    (λ kv : string * participant,
       replicate (Z.to_nat (tickets_for (storage_gb kv.2))) kv.1)
    ps.

(** [select_winner] reads and overwrites the process-wide generator [g];
    it returns the winner, the updated lottery and the generator it
    leaves behind. *)
Definition select_winner `{Hashlib} `{PyRandom} (g : generator) (self : t)
    (block_hash : string) (block_height : Z)
  : py.result (option string * t * generator) :=
  match participants self with
  | [] => py.Returned (None, self, g)
  | _ =>
      let hash_seed := sha256_hexdigest block_hash in
      match py.int_hex (py.str_take 16 hash_seed) with
      | None => py.Raised "ValueError"
      | Some seed =>
          let g1 := random_seed seed in
          let pool := pool (participants self) in
          match pool with
          | [] => py.Returned (None, self, g1)
          | _ =>
              let '(i, g2) := random_below g1 (length pool) in
              match pool !! i with
              | None => py.Raised "IndexError"
              | Some winner =>
                  let self1 :=
                    if bool_decide (winner ∈ winners self) then self
                    else set_winners (winners self ++ [winner]) self in
                  match py.dict_get winner (participants self1) with
                  | None => py.Raised "KeyError"
                  | Some p =>
                      let p' := mk_participant (storage_gb p) (entries p)
                                               (wins p + 1) (last_entry_block p) in
                      py.Returned
                        (Some winner,
                         set_participants
                           (py.dict_set winner p' (participants self1)) self1,
                         g2)
                  end
              end
          end
      end
  end.

Definition verify_pow_solution `{Hashlib} (self : t) (participant_id : string)
    (nonce difficulty : Z) : bool :=
  match py.dict_get participant_id (participants self) with
  | None => false
  | Some _ =>
      let result :=
        sha256_hexdigest (participant_id +:+ ":" +:+ py.str_int nonce) in
      py.startswith result (py.str_repeat "0" difficulty)
  end.

End PoWLottery.

End consensus.

(** ** governance.py: proposals, treasury and the council *)

Module governance.

Inductive ProposalType : Type :=
| REWARD_ADJUSTMENT
| DIFFICULTY_TUNING
| PARAMETER_CHANGE
| TREASURY_SPENDING
| VALIDATOR_REMOVAL
| STORAGE_REQUIREMENT.

Inductive ProposalStatus : Type :=
| PROPOSED
| VOTING
| APPROVED
| REJECTED
| EXECUTED
| EXPIRED.

#[global] Instance ProposalStatus_eq_dec : EqDecision ProposalStatus.
Proof. solve_decision. Defined.

Module Proposal.

Record t : Type := mk {
  proposal_id : string;
  proposal_type : ProposalType;
  proposer : string;
  description : string;
  proposed_changes : list (string * py.value);
  timestamp : Q;
  voting_deadline : Q;
  status : ProposalStatus;
  votes : gmap string bool;
  execution_time : option Q
}.

Definition set_status (s : ProposalStatus) (self : t) : t :=
  mk (proposal_id self) (proposal_type self) (proposer self) (description self)
     (proposed_changes self) (timestamp self) (voting_deadline self) s
     (votes self) (execution_time self).

Definition set_votes (v : gmap string bool) (self : t) : t :=
  mk (proposal_id self) (proposal_type self) (proposer self) (description self)
     (proposed_changes self) (timestamp self) (voting_deadline self)
     (status self) v (execution_time self).

Definition set_execution_time (e : option Q) (self : t) : t :=
  mk (proposal_id self) (proposal_type self) (proposer self) (description self)
     (proposed_changes self) (timestamp self) (voting_deadline self)
     (status self) (votes self) e.

Definition is_voting_active (now : Q) (self : t) : bool :=
  py.lt now (voting_deadline self) && bool_decide (status self = VOTING).

Definition get_vote_count (self : t) : nat * nat :=
  (count_ballots true (votes self), count_ballots false (votes self)).

Definition is_approved (self : t) (min_approval : nat) : bool :=
  let '(yes, _) := get_vote_count self in
  (min_approval <=? yes)%nat.

End Proposal.

Module RewardConfiguration.

(** [setattr] may store any value in a field, so the fields hold values. *)
Record t : Type := mk {
  poc_miner_reward : py.value;
  pos_validator_reward : py.value;
  pow_lottery_reward : py.value;
  storage_reward_per_gb : py.value;
  base_transaction_fee : py.value;
  timestamp : py.value;
  activated_block : py.value
}.

Definition init (now : Q) : t :=
  mk (py.VFloat 10%Q) (py.VFloat 5%Q) (py.VFloat 2%Q) (py.VFloat 0.1%Q)
     (py.VFloat 0.01%Q) (py.VFloat now) (py.VInt 0).

(** [if hasattr(cfg, key): setattr(cfg, key, value)] for a key that is
    one of the seven data fields or names no attribute of the object at
    all.  The object has other attributes, the method [to_dict] and the
    names that start with an underscore, on which [setattr] replaces the
    method or raises; such keys are outside the model, and the
    statements about reward changes exclude them ([plain_key]). *)
Definition setattr_if_present (self : t) (key : string) (v : py.value) : t :=
  if String.eqb key "poc_miner_reward" then
    mk v (pos_validator_reward self) (pow_lottery_reward self)
       (storage_reward_per_gb self) (base_transaction_fee self)
       (timestamp self) (activated_block self)
  else if String.eqb key "pos_validator_reward" then
    mk (poc_miner_reward self) v (pow_lottery_reward self)
       (storage_reward_per_gb self) (base_transaction_fee self)
       (timestamp self) (activated_block self)
  else if String.eqb key "pow_lottery_reward" then
    mk (poc_miner_reward self) (pos_validator_reward self) v
       (storage_reward_per_gb self) (base_transaction_fee self)
       (timestamp self) (activated_block self)
  else if String.eqb key "storage_reward_per_gb" then
    mk (poc_miner_reward self) (pos_validator_reward self)
       (pow_lottery_reward self) v (base_transaction_fee self)
       (timestamp self) (activated_block self)
  else if String.eqb key "base_transaction_fee" then
    mk (poc_miner_reward self) (pos_validator_reward self)
       (pow_lottery_reward self) (storage_reward_per_gb self) v
       (timestamp self) (activated_block self)
  else if String.eqb key "timestamp" then
    mk (poc_miner_reward self) (pos_validator_reward self)
       (pow_lottery_reward self) (storage_reward_per_gb self)
       (base_transaction_fee self) v (activated_block self)
  else if String.eqb key "activated_block" then
    mk (poc_miner_reward self) (pos_validator_reward self)
       (pow_lottery_reward self) (storage_reward_per_gb self)
       (base_transaction_fee self) (timestamp self) v
  else self.

Definition to_dict (self : t) : list (string * py.value) :=
  [("poc_miner_reward", poc_miner_reward self);
   ("pos_validator_reward", pos_validator_reward self);
   ("pow_lottery_reward", pow_lottery_reward self);
   ("storage_reward_per_gb", storage_reward_per_gb self);
   ("base_transaction_fee", base_transaction_fee self);
   ("timestamp", timestamp self);
   ("activated_block", activated_block self)].

End RewardConfiguration.

Module Treasury.

Record t : Type := mk {
  balance : Q;
  transactions : list py.value;
  allocations : gmap string Q;
  spending_history : list py.value
}.

Definition init (initial_balance : Q) : t := mk initial_balance [] ∅ [].


Definition spend_from_allocation (self : t) (purpose : string) (amount : Q)
    (recipient : string) (now : Q) : bool * t :=
  match allocations self !! purpose with
  | None => (false, self)
  | Some allocated =>
      if py.lt allocated amount then (false, self)
      else
        (true,
         mk (balance self)
            (transactions self ++
               [py.VDict [("type", py.VStr "spending"); ("purpose", py.VStr purpose);
                          ("amount", py.VFloat amount);
                          ("recipient", py.VStr recipient);
                          ("timestamp", py.VFloat now)]])
            (<[purpose := (allocated - amount)%Q]> (allocations self))
            (spending_history self ++
               [py.VDict [("purpose", py.VStr purpose); ("amount", py.VFloat amount);
                          ("recipient", py.VStr recipient);
                          ("timestamp", py.VFloat now)]]))
  end.


Definition get_balance (self : t) : Q := balance self.

End Treasury.

Module GovernanceCouncil.

Record t : Type := mk {
  treasurer_id : string;
  council_members : list string;
  proposals : gmap string Proposal.t;
  treasury : Treasury.t;
  reward_config : RewardConfiguration.t;
  proposal_counter : Z;
  parameter_history : list py.value
}.

Definition set_proposals (p : gmap string Proposal.t) (self : t) : t :=
  mk (treasurer_id self) (council_members self) p (treasury self)
     (reward_config self) (proposal_counter self) (parameter_history self).

Definition set_treasury (x : Treasury.t) (self : t) : t :=
  mk (treasurer_id self) (council_members self) (proposals self) x
     (reward_config self) (proposal_counter self) (parameter_history self).

Definition set_reward_config (x : RewardConfiguration.t) (self : t) : t :=
  mk (treasurer_id self) (council_members self) (proposals self) (treasury self)
     x (proposal_counter self) (parameter_history self).

Definition set_proposal_counter (x : Z) (self : t) : t :=
  mk (treasurer_id self) (council_members self) (proposals self) (treasury self)
     (reward_config self) x (parameter_history self).

Definition set_parameter_history (x : list py.value) (self : t) : t :=
  mk (treasurer_id self) (council_members self) (proposals self) (treasury self)
     (reward_config self) (proposal_counter self) x.

(** [GovernanceCouncil.__init__]: at most five members are kept. *)
Definition init (treasurer_id : string) (council_members : list string)
    (now : Q) : t :=
  mk treasurer_id (take 5 council_members) ∅ (Treasury.init 1000000%Q)
     (RewardConfiguration.init now) 0 [].

(** [f"PROP_{n:06d}"] for a non-negative counter. *)
Definition format_proposal_id (n : Z) : string :=
  let digits := NilEmpty.string_of_uint (N.to_uint (Z.to_N n)) in
  let digits := if String.eqb digits "" then "0"%string else digits in
  "PROP_" +:+ String.concat "" (replicate (6 - String.length digits) "0"%string)
          +:+ digits.

Definition create_proposal (self : t) (proposal_type : ProposalType)
    (description : string) (proposed_changes : list (string * py.value))
    (voting_period_hours : Z) (now : Q) : string * t :=
  let self1 := set_proposal_counter (proposal_counter self + 1) self in
  let proposal_id := format_proposal_id (proposal_counter self1) in
  let proposal :=
    Proposal.mk proposal_id proposal_type (treasurer_id self1) description
                proposed_changes now
                (now + inject_Z (voting_period_hours * 3600))%Q
                PROPOSED ∅ None in
  let proposal := Proposal.set_status VOTING proposal in
  (proposal_id, set_proposals (<[proposal_id := proposal]> (proposals self1)) self1).

Definition _apply_reward_changes (self : t) (changes : list (string * py.value))
    (now : Q) : t :=
  let cfg :=
    fold_left (λ cfg (kv : string * py.value),
                 RewardConfiguration.setattr_if_present cfg kv.1 kv.2)
              changes (reward_config self) in
  set_parameter_history
    (parameter_history self ++
       [py.VDict [("type", py.VStr "reward_adjustment");
                  ("changes", py.VDict changes);
                  ("timestamp", py.VFloat now)]])
    (set_reward_config cfg self).

(** The treasury is called when recipient and amount are truthy.  The
    model covers a string purpose, a numeric amount and a string
    recipient.  On other shapes the code can raise [TypeError] (a list
    as purpose, a text as amount of an allocated purpose) or spend with
    a recipient that is not a string; these are outside the model, where
    they leave the treasury as it is, and the statements about executed
    proposals exclude them ([well_formed_changes]). *)
Definition _apply_treasury_spending (self : t)
    (changes : list (string * py.value)) (now : Q) : t :=
  let recipient := default py.VNone (py.dict_get "recipient" changes) in
  let amount := default py.VNone (py.dict_get "amount" changes) in
  let purpose :=
    default (py.VStr "governance_approved") (py.dict_get "purpose" changes) in
  if py.truthy recipient && py.truthy amount then
    match purpose, py.as_number amount, recipient with
    | py.VStr p, Some a, py.VStr r =>
        set_treasury (Treasury.spend_from_allocation (treasury self) p a r now).2
                     self
    | _, _, _ => self
    end
  else self.

Definition _apply_parameter_changes (self : t)
    (changes : list (string * py.value)) (now : Q) : t :=
  set_parameter_history
    (parameter_history self ++
       [py.VDict [("type", py.VStr "parameter_change");
                  ("changes", py.VDict changes);
                  ("timestamp", py.VFloat now)]])
    self.

(** In-place update of the proposal object stored under [proposal_id]. *)
Definition update_proposal (proposal_id : string) (f : Proposal.t -> Proposal.t)
    (self : t) : t :=
  set_proposals (alter f proposal_id (proposals self)) self.

Definition _execute_proposal (self : t) (proposal_id : string) (now : Q) : t :=
  match proposals self !! proposal_id with
  | None => self
  | Some proposal =>
      let self1 :=
        update_proposal proposal_id (Proposal.set_execution_time (Some now)) self in
      let changes := Proposal.proposed_changes proposal in
      let self2 :=
        match Proposal.proposal_type proposal with
        | REWARD_ADJUSTMENT => _apply_reward_changes self1 changes now
        | TREASURY_SPENDING => _apply_treasury_spending self1 changes now
        | PARAMETER_CHANGE => _apply_parameter_changes self1 changes now
        | _ => self1
        end in
      update_proposal proposal_id (Proposal.set_status EXECUTED) self2
  end.

Definition _finalize_proposal (self : t) (proposal_id : string) (now : Q) : t :=
  match proposals self !! proposal_id with
  | None => self
  | Some proposal =>
      if Proposal.is_approved proposal 3 then
        _execute_proposal
          (update_proposal proposal_id (Proposal.set_status APPROVED) self)
          proposal_id now
      else update_proposal proposal_id (Proposal.set_status REJECTED) self
  end.

Definition vote_on_proposal (self : t) (proposal_id voter_id : string)
    (vote : bool) (now : Q) : bool * t :=
  match proposals self !! proposal_id with
  | None => (false, self)
  | Some proposal =>
      if negb (bool_decide (voter_id ∈ council_members self)) then (false, self)
      else if negb (Proposal.is_voting_active now proposal) then (false, self)
      else
        let votes := <[voter_id := vote]> (Proposal.votes proposal) in
        let self1 := update_proposal proposal_id (Proposal.set_votes votes) self in
        let self2 :=
          if (length (council_members self1) <=? size votes)%nat
          then _finalize_proposal self1 proposal_id now
          else self1 in
        (true, self2)
  end.

(** [distribute_block_rewards]: the rewards dictionary is filled in the
    order miner, validators, lottery winner, a later entry replacing an
    earlier one for the same address; [if lottery_winner:] skips [None]
    and the empty string. *)
Definition distribute_block_rewards (self : t) (miner : string)
    (validators : list string) (lottery_winner : option string) (now : Q)
  : list (string * py.value) * t :=
  let rewards_given :=
    py.dict_set miner (RewardConfiguration.poc_miner_reward (reward_config self))
                [] in
  let rewards_given :=
    fold_left
      (λ rewards validator,
         py.dict_set validator
           (RewardConfiguration.pos_validator_reward (reward_config self)) rewards)
      validators rewards_given in
  let rewards_given :=
    match lottery_winner with
    | Some w =>
        if String.eqb w "" then rewards_given
        else py.dict_set w
               (RewardConfiguration.pow_lottery_reward (reward_config self))
               rewards_given
    | None => rewards_given
    end in
  (rewards_given,
   set_parameter_history
     (parameter_history self ++
        [py.VDict [("type", py.VStr "reward_distribution");
                   ("block_height", py.VInt 0);
                   ("rewards", py.VDict rewards_given);
                   ("timestamp", py.VFloat now)]])
     self).

(** [adjust_difficulty]: the governance-side clamp of the difficulty. *)
Definition adjust_difficulty (self : t) (current_difficulty adjustment : Z)
    (now : Q) : Z * t :=
  let new_difficulty := Z.max 1 (Z.min 32 (current_difficulty + adjustment)) in
  if new_difficulty =? current_difficulty then (new_difficulty, self)
  else
    (new_difficulty,
     set_parameter_history
       (parameter_history self ++
          [py.VDict [("type", py.VStr "difficulty_adjustment");
                     ("old_difficulty", py.VInt current_difficulty);
                     ("new_difficulty", py.VInt new_difficulty);
                     ("timestamp", py.VFloat now)]])
       self).

End GovernanceCouncil.

End governance.

(** ** network.py: messages and the gossip layer *)

Module network.

Inductive MessageType : Type :=
| PEER_HELLO
| PEER_DISCOVERY
| BLOCK_ANNOUNCE
| BLOCK_REQUEST
| BLOCK_RESPONSE
| TRANSACTION
| SYNC_REQUEST
| SYNC_RESPONSE
| VOTE_MESSAGE
| STORAGE_PLEDGE
| PING
| PONG.

Definition MessageType_value (k : MessageType) : string :=
  match k with
  | PEER_HELLO => "peer_hello"
  | PEER_DISCOVERY => "peer_discovery"
  | BLOCK_ANNOUNCE => "block_announce"
  | BLOCK_REQUEST => "block_request"
  | BLOCK_RESPONSE => "block_response"
  | TRANSACTION => "transaction"
  | SYNC_REQUEST => "sync_request"
  | SYNC_RESPONSE => "sync_response"
  | VOTE_MESSAGE => "vote_message"
  | STORAGE_PLEDGE => "storage_pledge"
  | PING => "ping"
  | PONG => "pong"
  end.

Module Message.

Record t : Type := mk {
  message_id : string;
  message_type : MessageType;
  sender_id : string;
  timestamp : Q;
  payload : list (string * py.value);
  ttl : Z
}.

(** The deduplication key: a digest of sender, type, timestamp and the
    digest of the payload. *)
Definition hash `{Hashlib} (self : t) : string :=
  let data :=
    py.VDict
      [ ("sender_id", py.VStr (sender_id self));
        ("message_type", py.VStr (MessageType_value (message_type self)));
        ("timestamp", py.VFloat (timestamp self));
        ("payload_hash",
         py.VStr (sha256_hexdigest (json_dumps (py.VDict (payload self))))) ] in
  sha256_hexdigest (json_dumps data).

Definition set_ttl (n : Z) (self : t) : t :=
  mk (message_id self) (message_type self) (sender_id self) (timestamp self)
     (payload self) n.

End Message.

Module GossipProtocol.

Record t : Type := mk {
  max_fanout : Z;
  message_history : gset string;
  max_history : Z;
  message_queue : list Message.t
}.

Definition init (max_fanout max_history : Z) : t := mk max_fanout ∅ max_history [].

Definition set_message_history (h : gset string) (self : t) : t :=
  mk (max_fanout self) h (max_history self) (message_queue self).

Definition set_message_queue (q : list Message.t) (self : t) : t :=
  mk (max_fanout self) (message_history self) (max_history self) q.

Definition should_propagate `{Hashlib} (self : t) (message : Message.t) : bool :=
  let msg_hash := Message.hash message in
  if bool_decide (msg_hash ∈ message_history self) then false
  else if Message.ttl message <=? 0 then false
  else true.

(** Past the bound the history is rebuilt from the tail of the set's
    iteration order: [set(list(history)[-max_history:])]. *)
Definition add_to_history `{Hashlib} `{SetOrder} (self : t) (message : Message.t)
  : t :=
  let msg_hash := Message.hash message in
  let history := {[msg_hash]} ∪ message_history self in
  if max_history self <? Z.of_nat (size history)
  then set_message_history
         (list_to_set (py.slice_from (- max_history self) (set_iter history)))
         self
  else set_message_history history self.

Definition add_message `{Hashlib} `{SetOrder} (self : t) (message : Message.t)
  : t :=
  if should_propagate self message
  then add_to_history
         (set_message_queue (message_queue self ++ [message]) self) message
  else self.


End GossipProtocol.

Module PeerInfo.

Record t : Type := mk {
  peer_id : string;
  host : string;
  port : Z;
  node_type : string;
  last_seen : Q;
  reputation : Q;
  blocks_shared : Z;
  failed_messages : Z;
  version : string
}.

(** [PeerInfo(peer_id, host, port, node_type)] created at time [now]. *)
Definition init (peer_id host : string) (port : Z) (node_type : string) (now : Q)
  : t :=
  mk peer_id host port node_type now 1%Q 0 0 "1.0".

Definition is_alive (now : Q) (self : t) (timeout : Q) : bool :=
  py.lt (now - last_seen self) timeout.

(** [f"{host}:{port}"], the key of [peer_index]. *)
Definition address (self : t) : string :=
  host self +:+ ":" +:+ py.str_int (port self).

End PeerInfo.

Module PeerDiscovery.

(** [known_peers] keeps insertion order, which the list-returning
    queries follow.  The peer objects are stored by value; a caller that
    keeps the object it passed to [add_peer] shares it with the table. *)
Record t : Type := mk {
  bootstrap_peers : list (string * Z);
  known_peers : list (string * PeerInfo.t);
  peer_index : list (string * string)
}.

(** [bootstrap_peers or [...]]: [None] and the empty list give the two
    default bootstrap nodes. *)
Definition init (bootstrap_peers : option (list (string * Z))) : t :=
  let peers :=
    match bootstrap_peers with
    | Some (p :: rest) => p :: rest
    | _ => [("127.0.0.1"%string, 8000); ("127.0.0.1"%string, 8001)]
    end in
  mk peers [] [].

Definition add_peer (self : t) (peer_info : PeerInfo.t) : bool * t :=
  match py.dict_get (PeerInfo.peer_id peer_info) (known_peers self) with
  | None =>
      (true,
       mk (bootstrap_peers self)
          (py.dict_set (PeerInfo.peer_id peer_info) peer_info (known_peers self))
          (py.dict_set (PeerInfo.address peer_info) (PeerInfo.peer_id peer_info)
                       (peer_index self)))
  | Some _ =>
      (false,
       mk (bootstrap_peers self)
          (py.dict_set (PeerInfo.peer_id peer_info) peer_info (known_peers self))
          (peer_index self))
  end.

Definition remove_peer (self : t) (peer_id : string) : bool * t :=
  match py.dict_get peer_id (known_peers self) with
  | Some peer =>
      let key := PeerInfo.address peer in
      let index :=
        match py.dict_get key (peer_index self) with
        | Some _ => py.dict_del key (peer_index self)
        | None => peer_index self
        end in
      (true, mk (bootstrap_peers self) (py.dict_del peer_id (known_peers self)) index)
  | None => (false, self)
  end.

Definition get_healthy_peers (self : t) (now : Q) : list PeerInfo.t :=
  filter (λ peer, PeerInfo.is_alive now peer 300
                  && py.gt (PeerInfo.reputation peer) 0.5%Q = true)
         (map snd (known_peers self)).

Definition update_peer_reputation (self : t) (peer_id : string) (success : bool)
    (now : Q) : t :=
  match py.dict_get peer_id (known_peers self) with
  | None => self
  | Some peer =>
      let peer' :=
        if success then
          PeerInfo.mk (PeerInfo.peer_id peer) (PeerInfo.host peer)
                      (PeerInfo.port peer) (PeerInfo.node_type peer) now
                      (py.minq 1%Q (PeerInfo.reputation peer + 0.05)%Q)
                      (PeerInfo.blocks_shared peer + 1)
                      (PeerInfo.failed_messages peer) (PeerInfo.version peer)
        else
          PeerInfo.mk (PeerInfo.peer_id peer) (PeerInfo.host peer)
                      (PeerInfo.port peer) (PeerInfo.node_type peer) now
                      (py.maxq 0%Q (PeerInfo.reputation peer - 0.1)%Q)
                      (PeerInfo.blocks_shared peer)
                      (PeerInfo.failed_messages peer + 1) (PeerInfo.version peer) in
      mk (bootstrap_peers self) (py.dict_set peer_id peer' (known_peers self))
         (peer_index self)
  end.

Definition get_peer_count (self : t) : nat := length (known_peers self).

Definition get_peers_by_type (self : t) (node_type : string) : list PeerInfo.t :=
  filter (λ peer, String.eqb (PeerInfo.node_type peer) node_type = true)
         (map snd (known_peers self)).

End PeerDiscovery.

Module MemoryPool.

(** The pools are indexed by whatever the payload holds under ['tx_id']
    or ['hash'], hence by [py.key]. *)
Record t : Type := mk {
  max_size : Z;
  pending_transactions : list (py.key * list (string * py.value));
  pending_blocks : list (py.key * list (string * py.value));
  tx_index : list (string * string);
  received_hashes : list py.key
}.

Definition init (max_size : Z) : t := mk max_size [] [] [] [].

Definition add_transaction (self : t) (tx_data : list (string * py.value))
  : py.result (bool * t) :=
  if max_size self <=? Z.of_nat (length (pending_transactions self))
  then py.Returned (false, self)
  else
    match py.hashable (default py.VNone (py.dict_get "tx_id" tx_data)) with
    | None => py.Raised "TypeError"
    | Some tx_id =>
        match py.kdict_get tx_id (pending_transactions self) with
        | Some _ => py.Returned (false, self)
        | None =>
            py.Returned
              (true,
               mk (max_size self)
                  (py.kdict_set tx_id tx_data (pending_transactions self))
                  (pending_blocks self) (tx_index self)
                  (py.kset_add tx_id (received_hashes self)))
        end
    end.

Definition add_block (self : t) (block_data : list (string * py.value))
  : py.result (bool * t) :=
  match py.hashable (default py.VNone (py.dict_get "hash" block_data)) with
  | None => py.Raised "TypeError"
  | Some block_hash =>
      match py.kdict_get block_hash (pending_blocks self) with
      | Some _ => py.Returned (false, self)
      | None =>
          py.Returned
            (true,
             mk (max_size self) (pending_transactions self)
                (py.kdict_set block_hash block_data (pending_blocks self))
                (tx_index self)
                (py.kset_add block_hash (received_hashes self)))
      end
  end.

Definition get_pending_transactions (self : t) (limit : Z)
  : list (list (string * py.value)) :=
  py.slice_to limit (map snd (pending_transactions self)).

Definition remove_transaction (self : t) (tx_id : py.value)
  : py.result (bool * t) :=
  match py.hashable tx_id with
  | None => py.Raised "TypeError"
  | Some k =>
      match py.kdict_get k (pending_transactions self) with
      | Some _ =>
          py.Returned
            (true,
             mk (max_size self) (py.kdict_del k (pending_transactions self))
                (pending_blocks self) (tx_index self) (received_hashes self))
      | None => py.Returned (false, self)
      end
  end.

Definition has_seen (self : t) (item_hash : py.value) : py.result bool :=
  match py.hashable item_hash with
  | None => py.Raised "TypeError"
  | Some k => py.Returned (py.kset_mem k (received_hashes self))
  end.

End MemoryPool.

End network.

(** ** node.py: block production *)

Module node.

Import core.

(** The chain extension of [PoCMinerNode.mine_block] once the miner has
    returned [nonce]: a block is built on the current tip and appended.
    The node passes an empty transaction list and no validators; both
    are arguments here so that blocks with content are covered too.
    [None] stands for the [IndexError] of [get_latest_block] on an empty
    chain. *)
Definition append_block `{Hashlib} (blockchain : Blockchain.t) (now : Q)
    (transactions : list Transaction.t) (miner_id : string)
    (validators : list string) (mining_difficulty nonce : Z)
  : option Blockchain.t :=
  match Blockchain.get_latest_block blockchain with
  | None => None
  | Some latest_block =>
      let new_block :=
        Block.init (Block.index latest_block + 1) (Block.hash latest_block) now
                   transactions miner_id validators mining_difficulty None nonce
                   None None in
      Some (Blockchain.set_chain (Blockchain.chain blockchain ++ [new_block])
                                 blockchain)
  end.

(** [FCUNode.receive_message] on the gossip state of the node and on
    the message object, whose [ttl] the call decrements in place.  The
    re-broadcast goes through [broadcast_message], which queues the
    message with [add_message]; the choice of targets that follows only
    yields a count, which [receive_message] drops. *)
Definition receive_message `{Hashlib} `{SetOrder}
    (gossip : network.GossipProtocol.t) (message : network.Message.t)
  : bool * network.GossipProtocol.t * network.Message.t :=
  if negb (network.GossipProtocol.should_propagate gossip message)
  then (false, gossip, message)
  else
    let gossip1 := network.GossipProtocol.add_to_history gossip message in
    let message1 :=
      network.Message.set_ttl (network.Message.ttl message - 1) message in
    let gossip2 :=
      if 0 <? network.Message.ttl message1
      then network.GossipProtocol.add_message gossip1 message1
      else gossip1 in
    (true, gossip2, message1).

End node.

(** ** Stand-ins for the library operations

    The theorems below hold for every [Hashlib], [PyRandom], [SetOrder],
    [PyFormat] and [FloatSum].  The instances here are used to run the model on concrete
    inputs: the digest is the serialisation itself (so distinct values
    never collide), the generator is a counter, and a set is iterated in
    the order of [elements] or in the reverse order. *)

Module standin.

Definition show_Z (n : Z) : string := NilEmpty.string_of_int (Z.to_int n).

Definition quote (s : string) : string := "'" +:+ s +:+ "'".

Fixpoint show (v : py.value) : string :=
  match v with
  | py.VNone => "null"
  | py.VBool b => if b then "true" else "false"
  | py.VInt n => show_Z n
  | py.VFloat x => show_Z (Qnum x) +:+ "/" +:+ show_Z (Zpos (Qden x))
  | py.VStr s => quote s
  | py.VList l => "[" +:+ String.concat "," (map show l) +:+ "]"
  | py.VDict d =>
      "{" +:+ String.concat ","
                (map (λ kv, match kv with (k, x) => quote k +:+ ":" +:+ show x end) d)
          +:+ "}"
  end.

Definition hashlib : Hashlib :=
  {| sha256_hexdigest := λ s, s; json_dumps := show |}.

(** A digest made of hexadecimal digits only, for the lottery seed. *)
Definition hex_hashlib : Hashlib :=
  {| sha256_hexdigest := λ s, "00000000000000" +:+ show_Z (Z.of_nat (String.length s));
     json_dumps := show |}.

Definition counter_below (g : Z) (n : nat) : nat * Z :=
  (Z.to_nat (g mod Z.of_nat n), g + 1).

Definition random : PyRandom.
Proof.
  refine {| generator := Z;
            random_seed := λ z, z;
            random_below := counter_below;
            random_below_lt := _ |}.
  intros g n Hn. unfold counter_below. simpl.
  pose proof (Z.mod_pos_bound g (Z.of_nat n)). lia.
Defined.

Definition set_order : SetOrder :=
  {| set_iter := elements; set_iter_perm := λ s, reflexivity (elements s) |}.

Definition reversed_set_order : SetOrder :=
  {| set_iter := λ s, reverse (elements s);
     set_iter_perm := λ s, reverse_Permutation (elements s) |}.

Definition format : PyFormat :=
  {| str_float := λ x, show_Z (Qnum x) +:+ "/" +:+ show_Z (Zpos (Qden x)) |}.

Fixpoint last_char (s : string) : option ascii :=
  match s with
  | EmptyString => None
  | String c EmptyString => Some c
  | String _ rest => last_char rest
  end.

(** A digest for running the mining loop: texts that end in the digit 3
    hash to a string with four leading zeros, all others to one with
    none. *)
Definition mining_hashlib : Hashlib :=
  {| sha256_hexdigest :=
       λ s, match last_char s with
            | Some c => if Ascii.eqb c "3" then "0000a1" else "f00d00"
            | None => "f00d00"
            end;
     json_dumps := show |}.

(** The sum of CPython up to 3.11: left to right from [0], each addition
    rounded to nearest. *)
Definition plain_sum : FloatSum :=
  {| float_sum := λ l, fold_left PrimFloat.add l 0%float |}.

(** A clock that advances by one second per reading. *)
Definition ticking : clock := λ k, inject_Z (Z.of_nat k).

End standin.

(** ** Inputs of the worked scenarios *)

Module scenario.

Import core.

Definition transfer (id sender receiver : string) (amount : Q) : Transaction.t :=
  Transaction.mk id 0 sender receiver amount TRANSFER 0 None [].

Definition stake_deposit (id sender : string) (amount : Q) : Transaction.t :=
  Transaction.mk id 0 sender sender amount STAKE_DEPOSIT 0 None [].

Definition storage_pledge (id sender : string) (capacity_gb : Q) : Transaction.t :=
  Transaction.mk id 0 sender sender 0 STORAGE_PLEDGE 0 None
                 [("capacity_gb", py.VFloat capacity_gb)].

(** The ledger right after construction: the genesis block credits
    [FCU_TREASURY] with 1,000,000. *)
Definition ledger `{Hashlib} : Blockchain.t := Blockchain.init "FCU_MAINNET" 0.

Definition to_farmer_a : Transaction.t :=
  transfer "tx1" "FCU_TREASURY" "Farmer_A" 500000.

Definition from_farmer_a : Transaction.t :=
  transfer "tx2" "Farmer_A" "Farmer_B" 600000.

Definition first_stake : Transaction.t :=
  stake_deposit "stake1" "FCU_TREASURY" 1000000.

Definition second_stake : Transaction.t :=
  stake_deposit "stake2" "FCU_TREASURY" 1000000.

Definition small_pledge : Transaction.t := storage_pledge "pledge1" "Farmer_B" 10.

End scenario.

(** ** Predicates used in the statements *)




Module lottery_scenario.

Import consensus.

(** Two farmers registered with 512 GB and 64 GB. *)
Definition fresh : PoWLottery.t :=
  PoWLottery.register_participant
    (PoWLottery.register_participant (PoWLottery.init 22) "Farmer_A" 512)
    "Farmer_B" 64.



End lottery_scenario.

Module pledge_scenario.

Import consensus.

(** A lottery participant with tickets issued and a win recorded. *)
Definition veteran : PoWLottery.t :=
  PoWLottery.mk 22 4
    [("Farmer_A", PoWLottery.mk_participant 512 48 3 9);
     ("Farmer_B", PoWLottery.mk_participant 64 6 1 9)]
    ["Farmer_A"; "Farmer_B"].

End pledge_scenario.

(** The trailing mean block time, as [calculate_new_difficulty] computes
    it: [sum(times) / len(times)]. *)
Definition mean `{FloatSum} (times : list float) : float :=
  PrimFloat.div (float_sum times) (py.float_of_nat (length times)).

(** The two thresholds as the code computes them. *)
#[warnings="-inexact-float"]
Definition fast_threshold : float :=
  PrimFloat.mul consensus.PoCDifficulty.TARGET_BLOCK_TIME 0.8%float.
#[warnings="-inexact-float"]
Definition slow_threshold : float :=
  PrimFloat.mul consensus.PoCDifficulty.TARGET_BLOCK_TIME 1.2%float.

(** [n] samples all equal to [sample] add up to [n * sample] without
    rounding: what the builtin [sum] returns for them, plain or
    compensated, when [n * sample] and the partial sums before it are
    binary64 floats. *)
Definition sums_exactly `{FloatSum} (n : nat) (sample : float) : Prop :=
  float_sum (replicate n sample) = PrimFloat.mul (py.float_of_nat n) sample.

(** The quotient of [n * sample] by [n] is below the fast threshold,
    above the slow one, or between the two, for every [n] from 2 to
    [hi]. *)
Definition quotient (n : nat) (sample : float) : float :=
  PrimFloat.div (PrimFloat.mul (py.float_of_nat n) sample) (py.float_of_nat n).

Definition windows_fast (sample : float) (hi : nat) : bool :=
  forallb (λ n, PrimFloat.ltb (quotient n sample) fast_threshold)
          (seq 2 (hi - 1)).

Definition windows_slow (sample : float) (hi : nat) : bool :=
  forallb (λ n, negb (PrimFloat.ltb (quotient n sample) fast_threshold)
                && PrimFloat.ltb slow_threshold (quotient n sample))
          (seq 2 (hi - 1)).

Definition windows_on_target (sample : float) (hi : nat) : bool :=
  forallb (λ n, negb (PrimFloat.ltb (quotient n sample) fast_threshold)
                && negb (PrimFloat.ltb slow_threshold (quotient n sample)))
          (seq 2 (hi - 1)).

(** A ballot: voter, vote and the time at which it is cast. *)
Definition ballot : Type := string * bool * Q.

(** Casting a sequence of ballots on one proposal, one call of
    [vote_on_proposal] each. *)
Definition cast_votes (gc : governance.GovernanceCouncil.t) (proposal_id : string)
    (ballots : list ballot) : governance.GovernanceCouncil.t :=
  fold_left
    (λ gc (b : ballot),
       (governance.GovernanceCouncil.vote_on_proposal gc proposal_id b.1.1 b.1.2 b.2).2)
    ballots gc.

Definition status_of (gc : governance.GovernanceCouncil.t) (proposal_id : string)
  : option governance.ProposalStatus :=
  governance.Proposal.status
    <$> (governance.GovernanceCouncil.proposals gc !! proposal_id).

(** The voters of a sequence of ballots, in order. *)
Definition voters (ballots : list ballot) : list string :=
  map (λ b : ballot, b.1.1) ballots.

(** Number of yes ballots in a sequence. *)
Definition yes_count (ballots : list ballot) : nat :=
  length (filter (λ b : ballot, b.1.2 = true) ballots).

(** The votes dictionary after recording a sequence of ballots. *)
Definition tally (m : gmap string bool) (ballots : list ballot) : gmap string bool :=
  fold_left (λ m (b : ballot), <[b.1.1 := b.1.2]> m) ballots m.

(** A key that names no attribute of a [RewardConfiguration] object
    other than, possibly, one of its seven fields: not the method
    [to_dict] and no name that starts with an underscore.  For such a
    key [hasattr] holds exactly when the key is a field. *)
Definition plain_key (key : string) : Prop :=
  key <> "to_dict"%string /\ py.startswith key "_" = false.

(** The proposals whose execution raises nothing and is covered by the
    model: a reward adjustment with plain keys; a treasury spending
    that, when recipient and amount are truthy, names a string
    recipient, a float amount and a string purpose (or none, for the
    default one).  The other proposal types execute without reading the
    changes. *)
Definition well_formed_changes (p : governance.Proposal.t) : Prop :=
  let changes := governance.Proposal.proposed_changes p in
  match governance.Proposal.proposal_type p with
  | governance.REWARD_ADJUSTMENT =>
      Forall (λ kv : string * py.value, plain_key kv.1) changes
  | governance.TREASURY_SPENDING =>
      let recipient := default py.VNone (py.dict_get "recipient" changes) in
      let amount := default py.VNone (py.dict_get "amount" changes) in
      let purpose :=
        default (py.VStr "governance_approved") (py.dict_get "purpose" changes) in
      py.truthy recipient && py.truthy amount = true ->
      (exists r, recipient = py.VStr r)
      /\ (exists a, amount = py.VFloat a)
      /\ (exists q, purpose = py.VStr q)
  | _ => True
  end.

Module council_scenario.

Import governance.

Definition members : list string :=
  ["COUNCIL_Bob"; "COUNCIL_Charlie"; "COUNCIL_Diana"; "COUNCIL_Eve";
   "COUNCIL_Frank"].

Definition council : GovernanceCouncil.t :=
  GovernanceCouncil.init "TREASURER_Alice" members 0.

(** The treasurer's proposal, open for 24 hours from time 0. *)
Definition opened : string * GovernanceCouncil.t :=
  GovernanceCouncil.create_proposal
    council REWARD_ADJUSTMENT "Increase PoC miner reward from 10 to 12 FCU"
    [("poc_miner_reward", py.VFloat 12)] 24 0.

Definition three_yes_two_no : list ballot :=
  [("COUNCIL_Eve", false, 10%Q); ("COUNCIL_Bob", true, 20%Q);
   ("COUNCIL_Frank", true, 30%Q); ("COUNCIL_Charlie", false, 40%Q);
   ("COUNCIL_Diana", true, 50%Q)].

Definition two_yes_three_no : list ballot :=
  [("COUNCIL_Eve", false, 10%Q); ("COUNCIL_Bob", true, 20%Q);
   ("COUNCIL_Frank", false, 30%Q); ("COUNCIL_Charlie", false, 40%Q);
   ("COUNCIL_Diana", true, 50%Q)].

Definition three_yes_two_unvoted : list ballot :=
  [("COUNCIL_Bob", true, 20%Q); ("COUNCIL_Frank", true, 30%Q);
   ("COUNCIL_Diana", true, 50%Q)].

(** A council whose member list names Bob twice, with an open proposal,
    and one ballot from each of its two distinct members. *)
Definition repeated_member : string * GovernanceCouncil.t :=
  GovernanceCouncil.create_proposal
    (GovernanceCouncil.init "TREASURER_Alice"
       ["COUNCIL_Bob"; "COUNCIL_Bob"; "COUNCIL_Charlie"] 0)
    PARAMETER_CHANGE "Lower the base fee" [] 24 0.

Definition both_yes : list ballot :=
  [("COUNCIL_Bob", true, 10%Q); ("COUNCIL_Charlie", true, 20%Q)].

(** The block-approval layer of consensus.py with the same treasurer and
    one pending block proposal. *)
Definition block_council : consensus.PoSConsensus.t :=
  (consensus.PoSConsensus.propose_block
     (consensus.PoSConsensus.init
        (consensus.PoSValidator.init "TREASURER_Alice"
           consensus.PoSValidator.ROLE_TREASURER 1000))
     "block_1" py.VNone "TREASURER_Alice" 0).2.

End council_scenario.

Module gossip_scenario.

Import network.

Definition announce : Message.t :=
  Message.mk "blk_1" BLOCK_ANNOUNCE "Miner_A" 100 [("block", py.VInt 1)] 64.

Definition other : Message.t :=
  Message.mk "tx_9" TRANSACTION "Node_B" 101 [("tx_id", py.VStr "9")] 64.

(** The copy of [announce] seen again after one relay. *)
Definition announce_relayed : Message.t := Message.set_ttl 63 announce.

Definition fresh_gossip : GossipProtocol.t := GossipProtocol.init 5 1000.

(** A gossip layer whose history is bounded to one entry. *)
Definition tight_gossip : GossipProtocol.t := GossipProtocol.init 5 1.

End gossip_scenario.

(** ** Chains and tampering *)

(** The contents of a mined block, as handed to [node.append_block]. *)
Record mined : Type := mk_mined {
  mined_at : Q;
  mined_transactions : list core.Transaction.t;
  mined_by : string;
  mined_validators : list string;
  mined_difficulty : Z;
  mined_nonce : Z
}.

(** Appending a sequence of mined blocks, one after the other. *)
Definition extend `{Hashlib} (bc : core.Blockchain.t) (blocks : list mined)
  : option core.Blockchain.t :=
  fold_left
    (λ (o : option core.Blockchain.t) (b : mined),
       match o with
       | Some bc =>
           node.append_block bc (mined_at b) (mined_transactions b) (mined_by b)
                             (mined_validators b) (mined_difficulty b)
                             (mined_nonce b)
       | None => None
       end)
    blocks (Some bc).

(** Overwriting the block stored at index [i]. *)
Definition store_block (i : nat) (b : core.Block.t) (bc : core.Blockchain.t)
  : core.Blockchain.t :=
  core.Blockchain.set_chain (<[i := b]> (core.Blockchain.chain bc)) bc.

(** A stored block with its transaction list, lottery winner or nonce
    replaced, every other attribute (the stored hash included) kept. *)
Definition with_transactions (txs : list core.Transaction.t) (b : core.Block.t)
  : core.Block.t :=
  core.Block.mk (core.Block.index b) (core.Block.previous_hash b)
    (core.Block.timestamp b) txs (core.Block.miner b) (core.Block.validators b)
    (core.Block.poc_difficulty b) (core.Block.pow_lottery_winner b)
    (core.Block.nonce b) (core.Block.merkle_root b) (core.Block.state_root b)
    (core.Block.hash b).

Definition with_pow_lottery_winner (w : option string) (b : core.Block.t)
  : core.Block.t :=
  core.Block.mk (core.Block.index b) (core.Block.previous_hash b)
    (core.Block.timestamp b) (core.Block.transactions b) (core.Block.miner b)
    (core.Block.validators b) (core.Block.poc_difficulty b) w
    (core.Block.nonce b) (core.Block.merkle_root b) (core.Block.state_root b)
    (core.Block.hash b).

Definition with_nonce (n : Z) (b : core.Block.t) : core.Block.t :=
  core.Block.mk (core.Block.index b) (core.Block.previous_hash b)
    (core.Block.timestamp b) (core.Block.transactions b) (core.Block.miner b)
    (core.Block.validators b) (core.Block.poc_difficulty b)
    (core.Block.pow_lottery_winner b) n (core.Block.merkle_root b)
    (core.Block.state_root b) (core.Block.hash b).

(** The digest does not send the two serialised values to the same
    string unless they are the same value. *)
Definition no_collision `{Hashlib} (d d' : py.value) : Prop :=
  sha256_hexdigest (json_dumps d) = sha256_hexdigest (json_dumps d') -> d = d'.

Module block_scenario.

Import core.

(** Genesis followed by one mined block that carries the transfer of
    500,000 to Farmer_A. *)
Definition mined_chain `{Hashlib} : Blockchain.t :=
  default scenario.ledger
    (extend scenario.ledger
       [mk_mined 30 [scenario.to_farmer_a] "Miner_A" ["COUNCIL_Bob"] 4 17]).

Definition forged_transfer : Transaction.t :=
  scenario.transfer "tx1" "FCU_TREASURY" "Farmer_A" 900000.

(** Block 1 with the amount of its transaction changed in place. *)
Definition forged_transaction_chain `{Hashlib} : Blockchain.t :=
  match Blockchain.chain mined_chain !! 1%nat with
  | Some b => store_block 1 (with_transactions [forged_transfer] b) mined_chain
  | None => mined_chain
  end.

(** Block 1 with its nonce changed in place. *)
Definition forged_nonce_chain `{Hashlib} : Blockchain.t :=
  match Blockchain.chain mined_chain !! 1%nat with
  | Some b => store_block 1 (with_nonce 18 b) mined_chain
  | None => mined_chain
  end.

End block_scenario.

(** ** Sequences of operations *)

(** Membership changes of the block-approval council. *)
Inductive council_op : Type :=
| AddMember (member_id : string) (validator : consensus.PoSValidator.t)
| RemoveMember (member_id : string).

Definition run_council_op (pc : consensus.PoSConsensus.t) (op : council_op)
  : consensus.PoSConsensus.t :=
  match op with
  | AddMember member_id validator =>
      (consensus.PoSConsensus.add_council_member pc member_id validator).2
  | RemoveMember member_id =>
      (consensus.PoSConsensus.remove_council_member pc member_id).2
  end.

Definition run_council_ops (pc : consensus.PoSConsensus.t) (ops : list council_op)
  : consensus.PoSConsensus.t :=
  fold_left run_council_op ops pc.


Module block_vote_scenario.

Import consensus.

(** The pending block proposal of [council_scenario.block_council] with
    one council member seated, and with that member's yes vote cast. *)
Definition seated : PoSConsensus.t :=
  (PoSConsensus.add_council_member council_scenario.block_council "COUNCIL_Bob"
     (PoSValidator.init "COUNCIL_Bob" PoSValidator.ROLE_COUNCIL 100)).2.

Definition voted : PoSConsensus.t :=
  (PoSConsensus.vote_on_proposal seated "block_1" "COUNCIL_Bob" true).2.

End block_vote_scenario.







(** Every known peer has a reputation between 0 and 1. *)
Definition reputations_in_range (pd : network.PeerDiscovery.t) : Prop :=
  Forall (λ kv : string * network.PeerInfo.t,
            (0 <= network.PeerInfo.reputation kv.2)%Q
            /\ (network.PeerInfo.reputation kv.2 <= 1)%Q)
         (network.PeerDiscovery.known_peers pd).

(** A sequence of reported interactions: peer, outcome, time. *)
Definition report_interactions (pd : network.PeerDiscovery.t)
    (reports : list (string * bool * Q)) : network.PeerDiscovery.t :=
  fold_left
    (λ pd (r : string * bool * Q),
       network.PeerDiscovery.update_peer_reputation pd r.1.1 r.1.2 r.2)
    reports pd.

Module peer_scenario.

Import network.

Definition miner_at_8000 : PeerInfo.t :=
  PeerInfo.init "Miner_A" "10.0.0.1" 8000 "poc_miner" 0.

(** The same peer announcing itself again from another port. *)
Definition miner_at_9000 : PeerInfo.t :=
  PeerInfo.init "Miner_A" "10.0.0.1" 9000 "poc_miner" 60.

Definition discovery : PeerDiscovery.t :=
  (PeerDiscovery.add_peer (PeerDiscovery.init None)
     (PeerInfo.init "Node_B" "10.0.0.2" 8000 "full_node" 0)).2.

End peer_scenario.

Module mempool_scenario.

Import network.

Definition payment : list (string * py.value) :=
  [("tx_id", py.VStr "tx_1"); ("sender", py.VStr "Alice");
   ("receiver", py.VStr "Bob"); ("amount", py.VFloat 5)].

Definition pool : MemoryPool.t := MemoryPool.init 2.

End mempool_scenario.

(** Closed decidable statements are settled by evaluating their decision
    procedure. *)
Ltac by_computation :=
  match goal with
  | |- ?P => exact (bool_decide_unpack P ltac:(vm_compute; exact I))
  end.

(** * Ledger: balances *)

Section Ledger.

Import core.

Lemma py_ge_true (a b : Q) : py.ge a b = true <-> (b <= a)%Q.
Proof. unfold py.ge. apply Qle_bool_iff. Qed.

Lemma py_ge_false (a b : Q) : py.ge a b = false <-> (a < b)%Q.
Proof.
  unfold py.ge. rewrite <- not_true_iff_false, Qle_bool_iff.
  split; [apply Qnot_le_lt | apply Qlt_not_le].
Qed.





(** C1. Two stake deposits of 1,000,000 from the treasury are each
    admitted by [add_transaction] against the balance of 1,000,000, and
    processing both leaves the treasury at -1,000,000: the stake-deposit
    branch debits the sender without the balance guard of the transfer
    branch, so the non-negativity of balances is broken. *)
Theorem C1_admitted_stake_deposits_overdraw `{Hashlib} :
  let bc1 := (Blockchain.add_transaction scenario.ledger scenario.first_stake).2 in
  let bc2 := (Blockchain.add_transaction bc1 scenario.second_stake).2 in
  (Blockchain.add_transaction scenario.ledger scenario.first_stake).1 = true
  /\ (Blockchain.add_transaction bc1 scenario.second_stake).1 = true
  /\ Blockchain.pending_transactions bc2
     = [scenario.first_stake; scenario.second_stake]
  /\ Blockchain.get_balance
       (Blockchain.process_transactions 0 bc2 (Blockchain.pending_transactions bc2))
       "FCU_TREASURY" = (-1000000)%Q
  /\ (Blockchain.get_balance
        (Blockchain.process_transactions 0 bc2 (Blockchain.pending_transactions bc2))
        "FCU_TREASURY" < 0)%Q.
Proof. vm_compute. repeat split; reflexivity. Qed.

(** C7, counterexample.  No error is raised for an uncovered transfer.
    After the treasury has sent 500,000 to Farmer_A, a transfer of
    600,000 out of Farmer_A is answered by [add_transaction] with the
    value [False]; and a batch that holds this transfer followed by a
    second 500,000 from the treasury is processed to its end, the
    uncovered transfer being passed over in silence: Farmer_A ends with
    1,000,000 and the treasury with nothing. *)
Lemma C7_uncovered_transfer_raises_nothing :
  let bc1 :=
    Blockchain.process_transactions 0 (scenario.ledger (H := standin.hashlib))
                                    [scenario.to_farmer_a] in
  let bc2 :=
    Blockchain.process_transactions
      0 bc1 [scenario.from_farmer_a; scenario.to_farmer_a] in
  (Blockchain.get_balance bc1 "Farmer_A" < Transaction.amount scenario.from_farmer_a)%Q
  /\ (Blockchain.add_transaction bc1 scenario.from_farmer_a).1 = false
  /\ Blockchain.get_balance bc2 "Farmer_A" = 1000000%Q
  /\ Blockchain.get_balance bc2 "FCU_TREASURY" = 0%Q
  /\ Blockchain.get_balance bc2 "Farmer_B" = 0%Q.
Proof. vm_compute. repeat split; reflexivity. Qed.

(** C7, as amended.  A transfer whose sender holds less than the amount
    is rejected at admission ([add_transaction] returns [False] and
    queues nothing) and passed over at application, which reports
    nothing and goes on with the transactions that follow: the ledger,
    hence every balance, is left exactly as it was by the uncovered
    transfer, alone or in front of further transactions. *)
Theorem C7_insufficient_transfer_is_noop (now : Q) (bc : Blockchain.t)
    (tx : Transaction.t) (rest : list Transaction.t) :
  Transaction.tx_type tx = TRANSFER ->
  (Blockchain.get_balance bc (Transaction.sender tx) < Transaction.amount tx)%Q ->
  Blockchain.add_transaction bc tx = (false, bc)
  /\ Blockchain.process_transactions now bc [tx] = bc
  /\ Blockchain.process_transactions now bc (tx :: rest)
     = Blockchain.process_transactions now bc rest.
Proof.
  intros Hty Hlt. apply py_ge_false in Hlt.
  assert (Blockchain.process_transaction now bc tx = bc) as Hstep.
  { unfold Blockchain.process_transaction. rewrite Hty.
    unfold Blockchain.get_balance in Hlt. by rewrite Hlt. }
  repeat split.
  - unfold Blockchain.add_transaction. by rewrite Hlt.
  - unfold Blockchain.process_transactions. simpl. exact Hstep.
  - unfold Blockchain.process_transactions. simpl. by rewrite Hstep.
Qed.

(** The end-to-end scenario: after the treasury has sent 500,000 to
    Farmer_A, both hold 500,000, and a transfer of 600,000 out of
    Farmer_A is refused and changes nothing. *)
Lemma C7_scenario :
  let bc1 :=
    Blockchain.process_transactions 0 (scenario.ledger (H := standin.hashlib))
                                    [scenario.to_farmer_a] in
  Blockchain.get_balance bc1 "FCU_TREASURY" = 500000%Q
  /\ Blockchain.get_balance bc1 "Farmer_A" = 500000%Q
  /\ Transaction.tx_type scenario.from_farmer_a = TRANSFER
  /\ (Blockchain.get_balance bc1 (Transaction.sender scenario.from_farmer_a)
      < Transaction.amount scenario.from_farmer_a)%Q
  /\ Blockchain.add_transaction bc1 scenario.from_farmer_a = (false, bc1)
  /\ Blockchain.process_transactions 0 bc1 [scenario.from_farmer_a] = bc1
  /\ Blockchain.process_transactions 0 bc1 [scenario.from_farmer_a; scenario.to_farmer_a]
     = Blockchain.process_transactions 0 bc1 [scenario.to_farmer_a].
Proof.
  intros bc1.
  assert (Blockchain.get_balance bc1 (Transaction.sender scenario.from_farmer_a)
          < Transaction.amount scenario.from_farmer_a)%Q as Hlt
    by (vm_compute; reflexivity).
  split; [vm_compute; reflexivity |].
  split; [vm_compute; reflexivity |].
  split; [reflexivity |].
  split; [exact Hlt |].
  exact (C7_insufficient_transfer_is_noop 0 bc1 scenario.from_farmer_a
           [scenario.to_farmer_a] eq_refl Hlt).
Defined.

End Ledger.

(** * Blocks: hashing and chain validation *)

Section Blocks.

Import core.

Context `{Hashlib}.

Lemma pair_up_length (l : list string) :
  length (Block.pair_up l) = Nat.div2 (length l)
  /\ forall a, length (Block.pair_up (a :: l)) = Nat.div2 (S (length l)).
Proof.
  induction l as [| b rest [IH1 IH2]]; [done |].
  split; [apply IH2 |]. intros a. simpl. by rewrite IH1.
Qed.

Lemma merkle_level_length (l : list string) :
  length (Block.merkle_level l) = Nat.div2 (S (length l)).
Proof.
  unfold Block.merkle_level.
  destruct (Nat.odd (length l)) eqn:Hodd.
  - rewrite (proj1 (pair_up_length _)), length_app. cbn [length].
    f_equal. lia.
  - rewrite (proj1 (pair_up_length _)).
    assert (Nat.even (length l) = true) as Heven
        by (rewrite <- Nat.negb_odd; by rewrite Hodd).
    apply Nat.even_spec in Heven as [k Hk]. rewrite Hk.
    by rewrite Nat.div2_double, Nat.div2_succ_double.
Qed.

(** The merkle loop is given enough passes: on a non-empty list of
    hashes it ends with a single root. *)
Lemma merkle_loop_single (fuel : nat) :
  forall l : list string,
    l <> [] -> (length l <= fuel)%nat ->
    length (Block.merkle_loop fuel l) = 1%nat.
Proof.
  induction fuel as [| fuel IH]; intros l Hne Hlen.
  { destruct l; [done | simpl in Hlen; lia]. }
  simpl. destruct (1 <? length l)%nat eqn:Hlt.
  - apply Nat.ltb_lt in Hlt.
    pose proof (merkle_level_length l) as Hlvl.
    pose proof (Nat.div2_odd (S (length l))) as Hdiv.
    assert (Nat.b2n (Nat.odd (S (length l))) <= 1)%nat as Hbit
        by (destruct (Nat.odd _); simpl; lia).
    apply IH.
    + intros Hnil. rewrite Hnil in Hlvl. cbn [length] in Hlvl. lia.
    + lia.
  - apply Nat.ltb_ge in Hlt. destruct l; [done | simpl in *; lia].
Qed.

(** A block built by the constructor carries the hash of its own
    header. *)
Lemma Block_init_hash index previous_hash timestamp transactions miner
    validators poc_difficulty pow_lottery_winner nonce merkle_root state_root :
  let b := Block.init index previous_hash timestamp transactions miner validators
                      poc_difficulty pow_lottery_winner nonce merkle_root
                      state_root in
  Block.hash b = Block.calculate_hash b
  /\ Block.previous_hash b = previous_hash.
Proof. done. Qed.

(** Without a merkle root passed in, the constructor stores the root of
    the block's own transactions. *)
Lemma Block_init_merkle_root index previous_hash timestamp transactions miner
    validators poc_difficulty pow_lottery_winner nonce state_root :
  let b := Block.init index previous_hash timestamp transactions miner validators
                      poc_difficulty pow_lottery_winner nonce None state_root in
  Block.merkle_root b = Block.calculate_merkle_root (Block.transactions b).
Proof. done. Qed.

(** The root of a non-empty transaction list is the one hash the loop
    ends with. *)
Lemma calculate_merkle_root_single (txs : list Transaction.t) :
  txs <> [] ->
  Block.merkle_loop (length txs) (map Transaction.hash txs)
  = [Block.calculate_merkle_root txs].
Proof.
  intros Hne.
  pose proof (merkle_loop_single (length txs) (map Transaction.hash txs)) as Hone.
  rewrite length_map in Hone.
  unfold Block.calculate_merkle_root. destruct txs as [| tx rest]; [done |].
  rewrite length_map.
  destruct (Block.merkle_loop _ _) as [| root [| x xs]]; simpl in *.
  - specialize (Hone ltac:(done) ltac:(lia)). done.
  - done.
  - specialize (Hone ltac:(done) ltac:(lia)). done.
Qed.

(** The header dictionary determines the nine hashed fields, the
    validators up to their order. *)
Lemma block_data_inj (b b' : Block.t) :
  Block.block_data b = Block.block_data b' <->
  Block.index b = Block.index b'
  /\ Block.previous_hash b = Block.previous_hash b'
  /\ Block.timestamp b = Block.timestamp b'
  /\ Block.merkle_root b = Block.merkle_root b'
  /\ Block.miner b = Block.miner b'
  /\ py.sorted (Block.validators b) = py.sorted (Block.validators b')
  /\ Block.poc_difficulty b = Block.poc_difficulty b'
  /\ Block.nonce b = Block.nonce b'
  /\ Block.state_root b = Block.state_root b'.
Proof.
  unfold Block.block_data. split.
  - intros Heq. injection Heq as Hi Hp Ht Hm Hmi Hv Hd Hn Hs.
    repeat split; try done.
    + clear -Hv. revert Hv. generalize (py.sorted (Block.validators b)).
      generalize (py.sorted (Block.validators b')).
      intros l' l. revert l'.
      induction l as [| x l IH]; intros [| y l'] Hv; simpl in Hv; try done.
      injection Hv as -> Hv. f_equal. by apply IH.
    + destruct (Block.state_root b), (Block.state_root b'); simpl in Hs;
        congruence.
  - intros (-> & -> & -> & -> & -> & -> & -> & -> & ->). done.
Qed.

Lemma forallb_seq_ext (f g : nat -> bool) (start len : nat) :
  (forall j, (start <= j < start + len)%nat -> f j = g j) ->
  forallb f (seq start len) = forallb g (seq start len).
Proof.
  revert start. induction len as [| len IH]; intros start Hfg; [done |].
  simpl. rewrite Hfg by lia. f_equal. apply IH. intros j Hj. apply Hfg. lia.
Qed.

(** The check at index [j >= 1] reads, of the block at [j], its stored
    hash, its previous hash and its header, and of the block at [j - 1]
    its stored hash only. *)
Lemma check_block_at_insert (c : list Block.t) (i j : nat) (b b' : Block.t) :
  c !! i = Some b ->
  Block.hash b' = Block.hash b ->
  (i <> 0%nat ->
   Block.previous_hash b' = Block.previous_hash b
   /\ Block.block_data b' = Block.block_data b) ->
  (1 <= j)%nat ->
  Blockchain.check_block_at (<[i := b']> c) j = Blockchain.check_block_at c j.
Proof.
  intros Hi Hhash Hrest Hj. unfold Blockchain.check_block_at.
  pose proof (lookup_lt_Some _ _ _ Hi) as Hlt.
  destruct (decide (j = i)) as [-> | Hji].
  - destruct (Hrest ltac:(lia)) as [Hprev Hdata].
    rewrite list_lookup_insert_eq by done.
    rewrite list_lookup_insert_ne by lia. rewrite Hi.
    unfold Block.calculate_hash. by rewrite Hhash, Hprev, Hdata.
  - rewrite (list_lookup_insert_ne c i j) by done.
    destruct (decide ((j - 1)%nat = i)) as [<- | Hpi].
    + rewrite list_lookup_insert_eq by done. rewrite Hi.
      destruct (c !! j); [| done]. by rewrite Hhash.
    + by rewrite list_lookup_insert_ne.
Qed.

Lemma validate_chain_store_block (bc : Blockchain.t) (i : nat) (b b' : Block.t) :
  Blockchain.chain bc !! i = Some b ->
  Block.hash b' = Block.hash b ->
  (i <> 0%nat ->
   Block.previous_hash b' = Block.previous_hash b
   /\ Block.block_data b' = Block.block_data b) ->
  Blockchain.validate_chain (store_block i b' bc) = Blockchain.validate_chain bc.
Proof.
  intros Hi Hhash Hrest. unfold Blockchain.validate_chain, store_block. simpl.
  rewrite length_insert. apply forallb_seq_ext.
  intros j Hj. apply (check_block_at_insert _ _ _ b); [done.. | lia].
Qed.

(** A stored block whose header was changed without a digest collision
    fails the hash check, and validation with it. *)
Lemma validate_chain_header_tamper (bc : Blockchain.t) (i : nat) (b b' : Block.t) :
  (1 <= i)%nat ->
  Blockchain.chain bc !! i = Some b ->
  Block.hash b = Block.calculate_hash b ->
  Block.hash b' = Block.hash b ->
  Block.block_data b' <> Block.block_data b ->
  no_collision (Block.block_data b') (Block.block_data b) ->
  Blockchain.validate_chain (store_block i b' bc) = false.
Proof.
  intros Hi Hb Hvalid Hkept Hdiff Hfree.
  pose proof (lookup_lt_Some _ _ _ Hb) as Hlt.
  apply not_true_is_false. intros Hval.
  unfold Blockchain.validate_chain, store_block in Hval. simpl in Hval.
  rewrite length_insert in Hval.
  rewrite forallb_forall in Hval.
  specialize (Hval i). rewrite in_seq in Hval. specialize (Hval ltac:(lia)).
  unfold Blockchain.check_block_at in Hval.
  rewrite list_lookup_insert_eq in Hval by done.
  rewrite list_lookup_insert_ne in Hval by lia.
  destruct (lookup_lt_is_Some_2 (Blockchain.chain bc) (i - 1) ltac:(lia))
    as [prev Hprev].
  rewrite Hprev in Hval.
  destruct (String.eqb (Block.hash b') (Block.calculate_hash b')) eqn:E;
    [| done].
  apply String.eqb_eq in E. apply Hdiff, Hfree.
  unfold Block.calculate_hash in *. congruence.
Qed.

Lemma append_block_valid (bc : Blockchain.t) (b : mined) :
  Blockchain.chain bc <> [] ->
  Blockchain.validate_chain bc = true ->
  exists bc',
    node.append_block bc (mined_at b) (mined_transactions b) (mined_by b)
                      (mined_validators b) (mined_difficulty b) (mined_nonce b)
    = Some bc'
    /\ Blockchain.validate_chain bc' = true
    /\ length (Blockchain.chain bc') = S (length (Blockchain.chain bc)).
Proof.
  intros Hne Hval. unfold node.append_block, Blockchain.get_latest_block.
  destruct (last (Blockchain.chain bc)) as [latest |] eqn:Hlast.
  2: { apply last_None in Hlast. done. }
  eexists. split; [reflexivity |].
  set (nb := Block.init _ _ _ _ _ _ _ _ _ _ _).
  destruct (Block_init_hash (Block.index latest + 1) (Block.hash latest)
              (mined_at b) (mined_transactions b) (mined_by b)
              (mined_validators b) (mined_difficulty b) None (mined_nonce b)
              None None) as [Hh Hp].
  fold nb in Hh, Hp.
  set (c := Blockchain.chain bc) in *.
  assert (1 <= length c)%nat as Hlen by (destruct c; [done | simpl; lia]).
  split; [| simpl; rewrite length_app; simpl; lia].
  unfold Blockchain.validate_chain in *. simpl. fold c in Hval |- *.
  rewrite length_app. simpl.
  replace (length c + 1 - 1)%nat with (S (length c - 1)) by lia.
  rewrite seq_S, forallb_app. apply andb_true_iff. split.
  - rewrite <- Hval. apply forallb_seq_ext. intros j Hj.
    unfold Blockchain.check_block_at.
    by rewrite !lookup_app_l by lia.
  - simpl. rewrite andb_true_r. unfold Blockchain.check_block_at.
    replace (S (length c - 1))%nat with (length c) by lia.
    rewrite (list_lookup_middle c [] nb (length c) eq_refl).
    rewrite lookup_app_l by lia.
    rewrite last_lookup in Hlast.
    replace (pred (length c)) with (length c - 1)%nat in Hlast by lia.
    rewrite Hlast, Hh, Hp, !String.eqb_refl. done.
Qed.

Lemma extend_valid (blocks : list mined) :
  forall bc : Blockchain.t,
    Blockchain.chain bc <> [] ->
    Blockchain.validate_chain bc = true ->
    exists bc',
      extend bc blocks = Some bc'
      /\ Blockchain.validate_chain bc' = true
      /\ length (Blockchain.chain bc')
         = (length (Blockchain.chain bc) + length blocks)%nat.
Proof.
  induction blocks as [| b rest IH]; intros bc Hne Hval.
  { exists bc. simpl. repeat split; [done | lia]. }
  destruct (append_block_valid bc b Hne Hval) as (bc1 & Happ & Hval1 & Hlen1).
  destruct (IH bc1) as (bc' & Hext & Hval' & Hlen'); [| done |].
  { intros Hnil. rewrite Hnil in Hlen1. done. }
  exists bc'. unfold extend in *. simpl. rewrite Happ.
  repeat split; [done.. |]. rewrite Hlen', Hlen1. simpl. lia.
Qed.

End Blocks.

Section BlockClaims.

Import core.

(** C2, counterexample.  In a chain of genesis plus one mined block, the
    amount of the stored transaction of block 1 is changed from 500,000
    to 900,000.  The block's recomputed hash still equals its stored
    hash and [validate_chain] still succeeds: the hash covers the stored
    merkle root, which validation never recomputes from the
    transactions. *)
Lemma C2_forged_transaction_passes_validation :
  let honest := block_scenario.mined_chain (H := standin.hashlib) in
  let forged := block_scenario.forged_transaction_chain (H := standin.hashlib) in
  Blockchain.validate_chain (H := standin.hashlib) honest = true
  /\ (Block.transactions <$> (Blockchain.chain forged !! 1%nat))
     <> (Block.transactions <$> (Blockchain.chain honest !! 1%nat))
  /\ (Block.calculate_hash (H := standin.hashlib)
        <$> (Blockchain.chain forged !! 1%nat))
     = (Block.hash <$> (Blockchain.chain forged !! 1%nat))
  /\ Blockchain.validate_chain (H := standin.hashlib) forged = true.
Proof. vm_compute. repeat split; try reflexivity. discriminate. Qed.

(** C2, as amended.  Every chain grown from the genesis block by
    appending blocks built on the tip passes [validate_chain].  In a
    stored block at index 1 or more whose stored hash is the hash of its
    header, changing the header (index, previous hash, timestamp, merkle
    root, miner, the sorted validators, difficulty, nonce, state root)
    while the stored hash stays makes [validate_chain] fail, provided the
    digest does not collide on the two headers.  Changing the transaction
    list or the lottery winner of a stored block changes neither its
    recomputed hash nor the result of [validate_chain], and the same goes
    for any change to the genesis block that keeps its stored hash. *)
Theorem C2_chain_integrity `{Hashlib} :
  (forall (chain_id : string) (now : Q) (blocks : list mined),
      exists bc,
        extend (Blockchain.init chain_id now) blocks = Some bc
        /\ Blockchain.validate_chain bc = true
        /\ length (Blockchain.chain bc) = S (length blocks))
  /\ (forall (bc : Blockchain.t) (i : nat) (b b' : Block.t),
         (1 <= i)%nat ->
         Blockchain.chain bc !! i = Some b ->
         Block.hash b = Block.calculate_hash b ->
         Block.hash b' = Block.hash b ->
         Block.block_data b' <> Block.block_data b ->
         no_collision (Block.block_data b') (Block.block_data b) ->
         Blockchain.validate_chain (store_block i b' bc) = false)
  /\ (forall (bc : Blockchain.t) (i : nat) (b : Block.t)
             (txs : list Transaction.t) (w : option string),
         Blockchain.chain bc !! i = Some b ->
         let b' := with_pow_lottery_winner w (with_transactions txs b) in
         Block.calculate_hash b' = Block.calculate_hash b
         /\ Blockchain.validate_chain (store_block i b' bc)
            = Blockchain.validate_chain bc)
  /\ (forall (bc : Blockchain.t) (b0 b0' : Block.t),
         Blockchain.chain bc !! 0%nat = Some b0 ->
         Block.hash b0' = Block.hash b0 ->
         Blockchain.validate_chain (store_block 0 b0' bc)
         = Blockchain.validate_chain bc).
Proof.
  split; [| split; [| split]].
  - intros chain_id now blocks.
    destruct (extend_valid blocks (Blockchain.init chain_id now))
      as (bc & Hext & Hval & Hlen); [done.. |].
    exists bc. repeat split; [done.. |]. rewrite Hlen. simpl. lia.
  - intros bc i b b'. apply validate_chain_header_tamper.
  - intros bc i b txs w Hb b'. split; [done |].
    by apply (validate_chain_store_block bc i b b').
  - intros bc b0 b0' Hb Hhash.
    by apply (validate_chain_store_block bc 0 b0 b0').
Qed.

(** Changing the nonce of the stored block 1 is detected. *)
Lemma C2_forged_nonce_fails_validation :
  Blockchain.validate_chain (H := standin.hashlib)
    (block_scenario.mined_chain (H := standin.hashlib)) = true
  /\ Blockchain.validate_chain (H := standin.hashlib)
       (block_scenario.forged_nonce_chain (H := standin.hashlib)) = false.
Proof.
  split; [vm_compute; reflexivity |].
  assert (exists b,
             Blockchain.chain (block_scenario.mined_chain (H := standin.hashlib))
               !! 1%nat = Some b) as [b Hb] by (vm_compute; eauto).
  unfold block_scenario.forged_nonce_chain. rewrite Hb.
  refine (proj1 (proj2 (C2_chain_integrity (H := standin.hashlib)))
            _ 1%nat b (with_nonce 18 b) _ Hb _ _ _ _).
  - lia.
  - vm_compute in Hb. injection Hb as <-. vm_compute. reflexivity.
  - reflexivity.
  - vm_compute in Hb. injection Hb as <-. vm_compute. discriminate.
  - vm_compute in Hb. injection Hb as <-. intros Hcol. vm_compute in Hcol.
    discriminate.
Defined.

End BlockClaims.

(** * Lottery *)

Section Lottery.

Import consensus.

Lemma dict_get_set_eq {A} (k : string) (v : A) (d : list (string * A)) :
  py.dict_get k (py.dict_set k v d) = Some v.
Proof.
  induction d as [| [k' v'] d IH]; simpl.
  - by rewrite String.eqb_refl.
  - destruct (String.eqb k k') eqn:E; simpl; rewrite ?String.eqb_refl, ?E; done.
Qed.

Lemma dict_get_set_ne {A} (k k' : string) (v : A) (d : list (string * A)) :
  k <> k' -> py.dict_get k' (py.dict_set k v d) = py.dict_get k' d.
Proof.
  intros Hne. induction d as [| [k0 v0] d IH]; simpl.
  - destruct (String.eqb k' k) eqn:E; [| done].
    apply String.eqb_eq in E. congruence.
  - destruct (String.eqb k k0) eqn:E; simpl.
    + apply String.eqb_eq in E. subst k0.
      destruct (String.eqb k' k) eqn:E'; [| done].
      apply String.eqb_eq in E'. congruence.
    + by rewrite IH.
Qed.




Lemma tickets_for_pos (c : Q) : 1 <= PoWLottery.tickets_for c.
Proof. unfold PoWLottery.tickets_for. lia. Qed.

Lemma pool_nonempty (d : list (string * PoWLottery.participant)) :
  d <> [] -> PoWLottery.pool d <> [].
Proof.
  destruct d as [| [k v] d]; [done |]. intros _. unfold PoWLottery.pool. simpl.
  pose proof (tickets_for_pos (PoWLottery.storage_gb v)) as Hpos.
  destruct (Z.to_nat (PoWLottery.tickets_for (PoWLottery.storage_gb v))) eqn:E;
    [lia | done].
Qed.







End Lottery.

(** * Storage pledges, tickets and registration *)

Section Pledges.

Import core consensus.

(** A storage pledge is never refused, and the capacity it records is
    the value found in the transaction, whatever it is. *)
Lemma process_storage_pledge_records (now : Q) (bc : Blockchain.t)
    (tx : Transaction.t) (v : py.value) :
  Transaction.tx_type tx = STORAGE_PLEDGE ->
  py.dict_get "capacity_gb" (Transaction.data tx) = Some v ->
  StoragePledge.capacity_gb
    <$> (Blockchain.storage_pledges (Blockchain.process_transaction now bc tx)
           !! Transaction.sender tx)
  = Some v.
Proof.
  intros Hty Hcap. unfold Blockchain.process_transaction. rewrite Hty, Hcap.
  simpl. by rewrite lookup_insert_eq.
Qed.


Example PoCMiner_init_10 (now : Q) :
  PoCMiner.storage_capacity_gb (PoCMiner.init "Farmer_B" 10 now) = 32%Q.
Proof. reflexivity. Qed.

(** Tickets are [max(1, floor(capacity / 32))]: 16 for 512 GB, and 1 for
    10 GB as for 32 GB. *)
Example tickets_for_512 : PoWLottery.tickets_for 512 = 16.
Proof. reflexivity. Qed.

Example tickets_for_10 : PoWLottery.tickets_for 10 = 1.
Proof. reflexivity. Qed.

Example tickets_for_32 : PoWLottery.tickets_for 32 = 1.
Proof. reflexivity. Qed.

(** Truncation and floor agree under [max(1, _)]. *)
Lemma tickets_for_floor (capacity : Q) :
  PoWLottery.tickets_for capacity = Z.max 1 (Qfloor (capacity / 32)).
Proof.
  unfold PoWLottery.tickets_for, py.int.
  destruct (capacity / 32)%Q as [n d]. simpl.
  destruct (Z_lt_le_dec n 0) as [Hneg | Hpos].
  - assert (Z.quot n (Z.pos d) <= 0) by (apply Z.quot_le_upper_bound; lia).
    assert (n / Z.pos d < 0) by (apply Z.div_lt_upper_bound; lia).
    lia.
  - by rewrite Z.quot_div_nonneg by lia.
Qed.

Lemma add_lottery_ticket_registered (l : PoWLottery.t) (pid : string)
    (capacity : Q) (height : Z) :
  (PoWLottery.add_lottery_ticket
     (PoWLottery.register_participant l pid capacity) pid height).1
  = Z.max 1 (py.int (capacity / 32)%Q).
Proof.
  unfold PoWLottery.add_lottery_ticket, PoWLottery.register_participant.
  simpl. by rewrite dict_get_set_eq.
Qed.

(** C3. A storage pledge that declares 10 GB is accepted, and the ledger
    records a capacity of 10 GB for the pledger: [process_transactions]
    stores the declared value as it is (32 GB is only the default for a
    missing key), whereas the miner constructor raises a capacity below
    32 GB to 32 GB.  The ticket count for such a pledge is 1 all the
    same, and 16 for 512 GB. *)
Theorem C3_pledge_below_floor_recorded_unclamped `{Hashlib} :
  let bc := Blockchain.process_transactions 0 scenario.ledger
                                            [scenario.small_pledge] in
  StoragePledge.capacity_gb <$> (Blockchain.storage_pledges bc !! "Farmer_B")
  = Some (py.VFloat 10)
  /\ StoragePledge.is_active <$> (Blockchain.storage_pledges bc !! "Farmer_B")
     = Some true
  /\ PoCMiner.storage_capacity_gb (PoCMiner.init "Farmer_B" 10 0) = 32%Q
  /\ PoWLottery.tickets_for 10 = 1
  /\ PoWLottery.tickets_for 512 = 16.
Proof. vm_compute. repeat split; reflexivity. Qed.

(** C10. [register_participant] stores a fresh record for the id, with
    the given capacity and with entries, wins and last entry block at
    zero, whether or not the id was registered before: a participant who
    registers again loses the accumulated entries and wins.  The other
    participants and the winners list are untouched. *)
Theorem C10_register_participant_resets_statistics (l : PoWLottery.t)
    (participant_id : string) (storage_gb : Q) :
  let l' := PoWLottery.register_participant l participant_id storage_gb in
  py.dict_get participant_id (PoWLottery.participants l')
  = Some (PoWLottery.mk_participant storage_gb 0 0 0)
  /\ (forall other, other <> participant_id ->
        py.dict_get other (PoWLottery.participants l')
        = py.dict_get other (PoWLottery.participants l))
  /\ PoWLottery.winners l' = PoWLottery.winners l.
Proof.
  simpl. split; [apply dict_get_set_eq |]. split; [| reflexivity].
  intros other Hne. apply dict_get_set_ne. congruence.
Qed.

(** Farmer_A, with 48 entries and 3 wins, registers again with the same
    capacity and is back at zero entries and zero wins. *)
Example reregistration_erases_history :
  py.dict_get "Farmer_A" (PoWLottery.participants pledge_scenario.veteran)
  = Some (PoWLottery.mk_participant 512 48 3 9)
  /\ py.dict_get "Farmer_A"
       (PoWLottery.participants
          (PoWLottery.register_participant pledge_scenario.veteran "Farmer_A" 512))
     = Some (PoWLottery.mk_participant 512 0 0 0).
Proof. split; reflexivity. Qed.

End Pledges.

(** * Difficulty control *)

Section Difficulty.

Import consensus.

Lemma py_lt_true (a b : Q) : py.lt a b = true <-> (a < b)%Q.
Proof.
  unfold py.lt. rewrite negb_true_iff, <- not_true_iff_false, Qle_bool_iff.
  split; [apply Qnot_le_lt | apply Qlt_not_le].
Qed.

Lemma py_lt_false (a b : Q) : py.lt a b = false <-> (b <= a)%Q.
Proof. unfold py.lt. rewrite negb_false_iff. apply Qle_bool_iff. Qed.



(** The three branches of the controller once two samples are present,
    in the order in which the code tests them. *)
Lemma calculate_new_difficulty_cases `{FloatSum} (current : Z)
    (times : list float) (capacity : float) :
  (2 <= length times)%nat ->
  (PrimFloat.ltb (mean times) fast_threshold = true ->
   PoCDifficulty.calculate_new_difficulty current times capacity
   = Z.min (current + 1) 32)
  /\ (PrimFloat.ltb (mean times) fast_threshold = false ->
      PrimFloat.ltb slow_threshold (mean times) = true ->
      PoCDifficulty.calculate_new_difficulty current times capacity
      = Z.max (current - 1) 1)
  /\ (PrimFloat.ltb (mean times) fast_threshold = false ->
      PrimFloat.ltb slow_threshold (mean times) = false ->
      PoCDifficulty.calculate_new_difficulty current times capacity = current).
Proof.
  intros Hlen. unfold PoCDifficulty.calculate_new_difficulty.
  assert ((length times <? 2)%nat = false) as -> by (apply Nat.ltb_ge; lia).
  fold (mean times). fold fast_threshold. fold slow_threshold.
  repeat split.
  - intros Hlow. by rewrite Hlow.
  - intros Hlow Hhigh. by rewrite Hlow, Hhigh.
  - intros Hlow Hhigh. by rewrite Hlow, Hhigh.
Qed.

(** The two thresholds are the floats 18 and 27. *)
Lemma thresholds : fast_threshold = 18%float /\ slow_threshold = 27%float.
Proof. split; reflexivity. Qed.

(** Half the target and twice the target are the floats 11.25 and 45. *)
Lemma samples_exact :
  PrimFloat.mul 0.5%float PoCDifficulty.TARGET_BLOCK_TIME = 11.25%float
  /\ PrimFloat.mul 2%float PoCDifficulty.TARGET_BLOCK_TIME = 45%float.
Proof. split; reflexivity. Qed.

Lemma windows_half_target : windows_fast 11.25%float 1000 = true.
Proof. vm_compute. reflexivity. Qed.

Lemma windows_twice_target : windows_slow 45%float 1000 = true.
Proof. vm_compute. reflexivity. Qed.

Lemma windows_target : windows_on_target 22.5%float 1000 = true.
Proof. vm_compute. reflexivity. Qed.

Lemma seq_window (n hi : nat) : (2 <= n <= hi)%nat -> n ∈ seq 2 (hi - 1).
Proof. intros Hn. apply elem_of_seq. lia. Qed.

Lemma mean_of_equal_samples `{FloatSum} (n : nat) (sample : float) :
  sums_exactly n sample -> mean (replicate n sample) = quotient n sample.
Proof.
  unfold sums_exactly, mean, quotient. intros ->. by rewrite length_replicate.
Qed.

(** The plain left-to-right sum adds up fifty equal samples of 11.25, 45
    or 22.5 seconds without rounding. *)
Lemma plain_sum_exact :
  sums_exactly (H := standin.plain_sum) 50 11.25%float
  /\ sums_exactly (H := standin.plain_sum) 50 45%float
  /\ sums_exactly (H := standin.plain_sum) 50 22.5%float.
Proof. repeat split; vm_compute; reflexivity. Qed.

(** Rounding decides at the thresholds.  Under the plain left-to-right
    sum, nine samples of 18.1 s and one of 17.1 s, whose exact mean 18
    is not below the fast threshold, have a rounded mean below it, and
    the difficulty goes up; the samples 17.999999999999996 and 18 have a
    mean below 18 that rounds to 18, and the difficulty stays. *)
#[warnings="-inexact-float"]
Example rounding_at_the_threshold :
  PoCDifficulty.calculate_new_difficulty (H := standin.plain_sum)
    4 (replicate 9 18.1%float ++ [17.1%float]) 1000%float = 5
  /\ PoCDifficulty.calculate_new_difficulty (H := standin.plain_sum)
       4 [17.999999999999996%float; 18%float] 1000%float = 4.
Proof. split; reflexivity. Qed.

(** C6, counterexample.  With a single trailing sample of one second the
    mean is far below 0.8 x target, yet the difficulty stays at 4 instead
    of moving to 5: fewer than two samples are ignored. *)
Lemma C6_single_sample_is_ignored :
  PrimFloat.ltb (mean (H := standin.plain_sum) [1%float]) fast_threshold = true
  /\ PoCDifficulty.calculate_new_difficulty (H := standin.plain_sum)
       4 [1%float] 1000%float = 4
  /\ PoCDifficulty.calculate_new_difficulty (H := standin.plain_sum)
       4 [1%float] 1000%float
     <> Z.min (4 + 1) 32.
Proof. repeat split. discriminate. Qed.

(** C6, as amended.  The block times are binary64 floats and the mean is
    the one the code computes: the builtin sum of the samples divided by
    their number, rounded.  With fewer than two trailing samples the
    difficulty is returned unchanged.  With at least two: a mean below
    the fast threshold (the float product of the target and 0.8, which
    is 18) gives [min(old + 1, 32)]; otherwise a mean above the slow
    threshold (the target times 1.2, which is 27) gives
    [max(old - 1, 1)]; otherwise the difficulty is unchanged.  In
    particular, for every window of 2 to 1000 samples that the sum adds
    up without rounding, samples all equal to 0.5 x target raise a
    difficulty below 32 strictly, without passing 32; samples all equal
    to 2 x target lower a difficulty above 1 strictly, without passing
    1; samples all equal to the target change nothing. *)
Theorem C6_difficulty_control `{FloatSum} (current : Z) (times : list float)
    (capacity : float) :
  let target := PoCDifficulty.TARGET_BLOCK_TIME in
  let new := PoCDifficulty.calculate_new_difficulty current times capacity in
  ((length times < 2)%nat -> new = current)
  /\ ((2 <= length times)%nat ->
      (PrimFloat.ltb (mean times) fast_threshold = true ->
       new = Z.min (current + 1) 32)
      /\ (PrimFloat.ltb (mean times) fast_threshold = false ->
          PrimFloat.ltb slow_threshold (mean times) = true ->
          new = Z.max (current - 1) 1)
      /\ (PrimFloat.ltb (mean times) fast_threshold = false ->
          PrimFloat.ltb slow_threshold (mean times) = false ->
          new = current))
  /\ (fast_threshold = 18%float /\ slow_threshold = 27%float)
  /\ (forall n sample,
        (2 <= n <= 1000)%nat ->
        times = replicate n sample ->
        sums_exactly n sample ->
        (sample = PrimFloat.mul 0.5%float target ->
         new = Z.min (current + 1) 32
         /\ (current < 32 -> current < new <= 32))
        /\ (sample = PrimFloat.mul 2%float target ->
            new = Z.max (current - 1) 1
            /\ (1 < current -> 1 <= new < current))
        /\ (sample = target -> new = current)).
Proof.
  intros target new. split; [| split; [| split; [exact thresholds |]]].
  - intros Hlen. unfold new, PoCDifficulty.calculate_new_difficulty.
    by apply Nat.ltb_lt in Hlen as ->.
  - intros Hlen.
    exact (calculate_new_difficulty_cases current times capacity Hlen).
  - intros n sample Hn Htimes Hsum.
    assert (2 <= length (replicate n sample))%nat as Hlen
        by (rewrite length_replicate; lia).
    destruct samples_exact as [Hhalf Htwice].
    unfold new, target. rewrite Hhalf, Htwice. clear new target.
    subst times.
    destruct (calculate_new_difficulty_cases
                current (replicate n sample) capacity Hlen)
      as (Hlow & Hhigh & Hmid).
    rewrite (mean_of_equal_samples n sample Hsum) in Hlow, Hhigh, Hmid.
    split; [| split]; intros ->.
    + rewrite Hlow; [split; [done | lia] |].
      exact (proj1 (forallb_forall _ _) windows_half_target n
               (proj1 (list_elem_of_In _ _) (seq_window n 1000 Hn))).
    + pose proof (proj1 (forallb_forall _ _) windows_twice_target n
                    (proj1 (list_elem_of_In _ _) (seq_window n 1000 Hn)))
        as Hwin.
      apply andb_true_iff in Hwin as [Hnot Hslow].
      apply negb_true_iff in Hnot.
      rewrite Hhigh by done. split; [done | lia].
    + pose proof (proj1 (forallb_forall _ _) windows_target n
                    (proj1 (list_elem_of_In _ _) (seq_window n 1000 Hn)))
        as Hwin.
      apply andb_true_iff in Hwin as [Hnot Hslow].
      apply negb_true_iff in Hnot, Hslow.
      by apply Hmid.
Qed.

(** Fifty samples of 11.25 s (half the target) move the difficulty from 4
    to 5. *)
Lemma C6_fifty_fast_blocks :
  (2 <= 50 <= 1000)%nat
  /\ sums_exactly (H := standin.plain_sum) 50 11.25%float
  /\ PoCDifficulty.calculate_new_difficulty (H := standin.plain_sum)
       4 (replicate 50 11.25%float) 768%float = 5.
Proof.
  assert (2 <= 50 <= 1000)%nat as Hn by lia.
  pose proof (proj1 plain_sum_exact) as Hsum.
  split; [exact Hn |]. split; [exact Hsum |].
  exact (proj1 (proj1 (proj2 (proj2 (proj2
           (C6_difficulty_control (H := standin.plain_sum)
              4 (replicate 50 11.25%float) 768%float)))
           50%nat 11.25%float Hn eq_refl Hsum) eq_refl)).
Defined.

End Difficulty.

(** * Governance: eligibility, quorum and finalization *)

Section Governance.

Import governance.

Lemma vote_on_proposal_refused_iff (gc : GovernanceCouncil.t)
    (proposal_id voter_id : string) (vote : bool) (now : Q) :
  (GovernanceCouncil.vote_on_proposal gc proposal_id voter_id vote now).1 = false
  <-> (GovernanceCouncil.proposals gc !! proposal_id = None
       \/ voter_id ∉ GovernanceCouncil.council_members gc
       \/ exists p, GovernanceCouncil.proposals gc !! proposal_id = Some p
                    /\ ((Proposal.voting_deadline p <= now)%Q
                        \/ Proposal.status p <> VOTING)).
Proof.
  unfold GovernanceCouncil.vote_on_proposal.
  destruct (GovernanceCouncil.proposals gc !! proposal_id) as [p |] eqn:Ep.
  2: { simpl. split; [by left | done]. }
  case_bool_decide as Hmem; simpl.
  2: { split; [by right; left | done]. }
  unfold Proposal.is_voting_active.
  destruct (py.lt now (Proposal.voting_deadline p)) eqn:Hlt; simpl.
  - case_bool_decide as Hst; simpl.
    + split; [done |]. intros [? | [? | (q & [= <-] & [Hd | Hs])]]; try done.
      apply py_lt_true in Hlt. by apply Qlt_not_le in Hlt.
    + split; [| done]. intros _. right; right. exists p. eauto.
  - split; [| done]. intros _. right; right. exists p. split; [done |].
    left. by apply py_lt_false.
Qed.

Lemma vote_on_proposal_refused_noop (gc : GovernanceCouncil.t)
    (proposal_id voter_id : string) (vote : bool) (now : Q) :
  (GovernanceCouncil.vote_on_proposal gc proposal_id voter_id vote now).1 = false ->
  (GovernanceCouncil.vote_on_proposal gc proposal_id voter_id vote now).2 = gc.
Proof.
  unfold GovernanceCouncil.vote_on_proposal.
  destruct (GovernanceCouncil.proposals gc !! proposal_id) as [p |]; [| done].
  destruct (negb (bool_decide _)); [done |].
  destruct (negb (Proposal.is_voting_active now p)); done.
Qed.





(** ** Counting ballots *)

Lemma count_ballots_insert_fresh (b v : bool) (k : string) (m : gmap string bool) :
  m !! k = None ->
  count_ballots b (<[k := v]> m)
  = ((if bool_decide (v = b) then 1 else 0) + count_ballots b m)%nat.
Proof.
  intros Hk. unfold count_ballots. case_bool_decide as Hv.
  - rewrite map_filter_insert_True by done.
    rewrite map_size_insert_None; [done |].
    apply map_lookup_filter_None. left. exact Hk.
  - rewrite map_filter_insert_False by done.
    by rewrite delete_id.
Qed.

Lemma tally_lookup_other (ballots : list ballot) :
  forall (m : gmap string bool) (v : string),
    v ∉ voters ballots -> tally m ballots !! v = m !! v.
Proof.
  induction ballots as [| b rest IH]; intros m v Hv; [done |].
  simpl in Hv. apply not_elem_of_cons in Hv as [Hne Hv].
  unfold tally. simpl. fold (tally (<[b.1.1 := b.1.2]> m) rest).
  rewrite IH by done. by rewrite lookup_insert_ne.
Qed.

Lemma tally_fresh (ballots : list ballot) :
  forall m : gmap string bool,
    NoDup (voters ballots) ->
    (forall v, v ∈ voters ballots -> m !! v = None) ->
    size (tally m ballots) = (size m + length ballots)%nat
    /\ count_ballots true (tally m ballots)
       = (count_ballots true m + yes_count ballots)%nat.
Proof.
  induction ballots as [| b rest IH]; intros m Hnd Hfresh.
  { simpl. unfold yes_count. simpl. lia. }
  simpl in Hnd. apply NoDup_cons in Hnd as [Hb Hnd].
  unfold tally. simpl. fold (tally (<[b.1.1 := b.1.2]> m) rest).
  assert (m !! b.1.1 = None) as Hnone by (apply Hfresh; simpl; left).
  destruct (IH (<[b.1.1 := b.1.2]> m) Hnd) as [Hsize Hyes].
  { intros v Hv. rewrite lookup_insert_ne; [apply Hfresh; simpl; by right |].
    intros Heq. apply Hb. by rewrite Heq. }
  rewrite Hsize, Hyes, map_size_insert_None, count_ballots_insert_fresh by done.
  unfold yes_count. rewrite filter_cons. simpl.
  case_bool_decide as Hv; case_decide; simpl; try done; lia.
Qed.

(** ** One vote *)

Lemma update_proposal_lookup (proposal_id : string) (f : Proposal.t -> Proposal.t)
    (gc : GovernanceCouncil.t) :
  GovernanceCouncil.proposals (GovernanceCouncil.update_proposal proposal_id f gc)
    !! proposal_id
  = f <$> (GovernanceCouncil.proposals gc !! proposal_id).
Proof. unfold GovernanceCouncil.update_proposal. simpl. apply lookup_alter_eq. Qed.

Lemma apply_treasury_spending_frame (gc : GovernanceCouncil.t)
    (changes : list (string * py.value)) (now : Q) :
  GovernanceCouncil.proposals
    (GovernanceCouncil._apply_treasury_spending gc changes now)
  = GovernanceCouncil.proposals gc
  /\ GovernanceCouncil.council_members
       (GovernanceCouncil._apply_treasury_spending gc changes now)
     = GovernanceCouncil.council_members gc.
Proof.
  unfold GovernanceCouncil._apply_treasury_spending.
  destruct (_ && _); [| done].
  repeat match goal with |- context [match ?x with _ => _ end] => destruct x end;
    done.
Qed.

(** Execution ends with the status [EXECUTED], whatever the proposal
    type, and leaves the list of council members alone. *)
Lemma execute_proposal_status (gc : GovernanceCouncil.t) (proposal_id : string)
    (now : Q) :
  is_Some (GovernanceCouncil.proposals gc !! proposal_id) ->
  status_of (GovernanceCouncil._execute_proposal gc proposal_id now) proposal_id
  = Some EXECUTED
  /\ GovernanceCouncil.council_members
       (GovernanceCouncil._execute_proposal gc proposal_id now)
     = GovernanceCouncil.council_members gc.
Proof.
  intros [q Hq]. unfold GovernanceCouncil._execute_proposal, status_of.
  rewrite Hq. rewrite update_proposal_lookup.
  remember (GovernanceCouncil.update_proposal proposal_id
              (Proposal.set_execution_time (Some now)) gc) as gc1 eqn:Egc1.
  assert (GovernanceCouncil.proposals gc1 !! proposal_id
          = Some (Proposal.set_execution_time (Some now) q)) as H1
      by (subst gc1; by rewrite update_proposal_lookup, Hq).
  assert (GovernanceCouncil.council_members gc1
          = GovernanceCouncil.council_members gc) as Hc1 by (by subst gc1).
  destruct (apply_treasury_spending_frame gc1 (Proposal.proposed_changes q) now)
    as [Hfp Hfc].
  destruct (Proposal.proposal_type q); simpl;
    rewrite ?Hfp, ?Hfc, H1, Hc1; done.
Qed.

Lemma vote_step (gc : GovernanceCouncil.t) (proposal_id : string) (p : Proposal.t)
    (v : string) (b : bool) (now : Q) :
  GovernanceCouncil.proposals gc !! proposal_id = Some p ->
  Proposal.status p = VOTING ->
  v ∈ GovernanceCouncil.council_members gc ->
  (now < Proposal.voting_deadline p)%Q ->
  let votes' := <[v := b]> (Proposal.votes p) in
  let r := GovernanceCouncil.vote_on_proposal gc proposal_id v b now in
  r.1 = true
  /\ GovernanceCouncil.council_members r.2 = GovernanceCouncil.council_members gc
  /\ ((size votes' < length (GovernanceCouncil.council_members gc))%nat ->
      GovernanceCouncil.proposals r.2 !! proposal_id
      = Some (Proposal.set_votes votes' p))
  /\ ((length (GovernanceCouncil.council_members gc) <= size votes')%nat ->
      status_of r.2 proposal_id
      = Some (if (3 <=? count_ballots true votes')%nat then EXECUTED else REJECTED)).
Proof.
  intros Hp Hst Hmem Hnow votes' r.
  remember (3 <=? count_ballots true votes')%nat as approved eqn:Happ.
  unfold r, GovernanceCouncil.vote_on_proposal.
  rewrite Hp. rewrite bool_decide_eq_true_2 by done. simpl.
  unfold Proposal.is_voting_active.
  apply py_lt_true in Hnow. rewrite Hnow, Hst. simpl.
  fold votes'.
  set (gc1 := GovernanceCouncil.update_proposal proposal_id
                (Proposal.set_votes votes') gc).
  assert (GovernanceCouncil.proposals gc1 !! proposal_id
          = Some (Proposal.set_votes votes' p)) as H1
      by (unfold gc1; by rewrite update_proposal_lookup, Hp).
  change (GovernanceCouncil.council_members gc1)
    with (GovernanceCouncil.council_members gc).
  destruct (length (GovernanceCouncil.council_members gc) <=? size votes')%nat
    eqn:Hall; cbn [fst snd].
  - apply Nat.leb_le in Hall.
    unfold GovernanceCouncil._finalize_proposal. rewrite H1.
    change (Proposal.is_approved (Proposal.set_votes votes' p) 3)
      with (3 <=? count_ballots true votes')%nat.
    rewrite <- Happ. destruct approved.
    + destruct (execute_proposal_status
                  (GovernanceCouncil.update_proposal proposal_id
                     (Proposal.set_status APPROVED) gc1) proposal_id now)
        as [Hs Hc].
      { rewrite update_proposal_lookup, H1. simpl. eauto. }
      repeat split; [exact Hc | lia | intros _; exact Hs].
    + repeat split; [lia |]. intros _. unfold status_of.
      by rewrite update_proposal_lookup, H1.
  - apply Nat.leb_gt in Hall. repeat split; [intros _; exact H1 | lia].
Qed.

(** ** Sequences of votes *)

(** As long as the ballots cast so far do not cover the council, every
    vote is recorded, the proposal stays open and nothing else happens
    to it. *)
Lemma cast_votes_open (proposal_id : string) (ballots : list ballot) :
  forall (gc : GovernanceCouncil.t) (p : Proposal.t),
    GovernanceCouncil.proposals gc !! proposal_id = Some p ->
    Proposal.status p = VOTING ->
    NoDup (voters ballots) ->
    (forall v, v ∈ voters ballots ->
               v ∈ GovernanceCouncil.council_members gc
               /\ Proposal.votes p !! v = None) ->
    Forall (λ b : ballot, (b.2 < Proposal.voting_deadline p)%Q) ballots ->
    (size (Proposal.votes p) + length ballots
     < length (GovernanceCouncil.council_members gc))%nat ->
    GovernanceCouncil.council_members (cast_votes gc proposal_id ballots)
    = GovernanceCouncil.council_members gc
    /\ GovernanceCouncil.proposals (cast_votes gc proposal_id ballots) !! proposal_id
       = Some (Proposal.set_votes (tally (Proposal.votes p) ballots) p).
Proof.
  induction ballots as [| b rest IH]; intros gc p Hp Hst Hnd Hv Ht Hsz.
  { simpl. split; [done |]. rewrite Hp. by destruct p. }
  simpl in Hnd. apply NoDup_cons in Hnd as [Hb Hnd].
  apply Forall_cons in Ht as [Htb Ht].
  destruct (Hv b.1.1) as [Hmem Hnone]; [simpl; left |].
  destruct (vote_step gc proposal_id p b.1.1 b.1.2 b.2 Hp Hst Hmem Htb)
    as (_ & Hc & Hopen & _).
  assert (size (<[b.1.1 := b.1.2]> (Proposal.votes p))
          = S (size (Proposal.votes p))) as Hsize
      by (by apply map_size_insert_None).
  simpl in Hsz.
  unfold cast_votes. simpl.
  set (gc1 := (GovernanceCouncil.vote_on_proposal gc proposal_id b.1.1 b.1.2 b.2).2)
    in *.
  fold (cast_votes gc1 proposal_id rest).
  destruct (IH gc1 (Proposal.set_votes (<[b.1.1 := b.1.2]> (Proposal.votes p)) p))
    as [Hc' Hp'].
  - apply Hopen. lia.
  - exact Hst.
  - exact Hnd.
  - intros v Hin. rewrite Hc. split; [apply Hv; simpl; by right |].
    simpl. rewrite lookup_insert_ne; [apply Hv; simpl; by right |].
    intros Heq. apply Hb. by rewrite Heq.
  - exact Ht.
  - rewrite Hc. simpl. lia.
  - split; [by rewrite Hc', Hc |]. rewrite Hp'. done.
Qed.

Lemma count_ballots_empty (b : bool) : count_ballots b ∅ = 0%nat.
Proof. unfold count_ballots. by rewrite map_filter_empty, map_size_empty. Qed.

Lemma voters_app (l1 l2 : list ballot) : voters (l1 ++ l2) = voters l1 ++ voters l2.
Proof. unfold voters. apply map_app. Qed.

Lemma cast_votes_app (gc : GovernanceCouncil.t) (proposal_id : string)
    (l1 l2 : list ballot) :
  cast_votes gc proposal_id (l1 ++ l2)
  = cast_votes (cast_votes gc proposal_id l1) proposal_id l2.
Proof. unfold cast_votes. apply fold_left_app. Qed.

(** The state reached after a proper prefix of the council has voted,
    and the acceptance of the next vote. *)
Lemma cast_votes_prefix (gc : GovernanceCouncil.t) (proposal_id : string)
    (p : Proposal.t) (done_ : list ballot) (b : ballot) (rest : list ballot) :
  GovernanceCouncil.proposals gc !! proposal_id = Some p ->
  Proposal.status p = VOTING ->
  Proposal.votes p = ∅ ->
  NoDup (GovernanceCouncil.council_members gc) ->
  voters (done_ ++ b :: rest) ≡ₚ GovernanceCouncil.council_members gc ->
  Forall (λ b : ballot, (b.2 < Proposal.voting_deadline p)%Q)
         (done_ ++ b :: rest) ->
  let gc' := cast_votes gc proposal_id done_ in
  GovernanceCouncil.council_members gc' = GovernanceCouncil.council_members gc
  /\ GovernanceCouncil.proposals gc' !! proposal_id
     = Some (Proposal.set_votes (tally ∅ done_) p)
  /\ tally ∅ done_ !! b.1.1 = None
  /\ size (tally ∅ done_) = length done_
  /\ count_ballots true (tally ∅ done_) = yes_count done_
  /\ b.1.1 ∈ GovernanceCouncil.council_members gc
  /\ (b.2 < Proposal.voting_deadline p)%Q.
Proof.
  intros Hp Hst Hvotes Hnd Hperm Ht gc'.
  assert (NoDup (voters (done_ ++ b :: rest))) as Hnd' by (by rewrite Hperm).
  rewrite voters_app in Hnd'. apply NoDup_app in Hnd' as (Hnd1 & Hdisj & Hnd2).
  assert (length (done_ ++ b :: rest)
          = length (GovernanceCouncil.council_members gc)) as Hlen.
  { rewrite <- Hperm. unfold voters. by rewrite length_map. }
  rewrite length_app in Hlen. simpl in Hlen.
  apply Forall_app in Ht as [Ht1 Ht2]. apply Forall_cons in Ht2 as [Htb _].
  destruct (cast_votes_open proposal_id done_ gc p Hp Hst Hnd1) as [Hc Hq].
  { intros v Hv. split; [| by rewrite Hvotes].
    rewrite <- Hperm, voters_app. apply elem_of_app. by left. }
  { exact Ht1. }
  { rewrite Hvotes, map_size_empty. lia. }
  rewrite Hvotes in Hq.
  destruct (tally_fresh done_ ∅ Hnd1) as [Hsize Hyes]; [done |].
  rewrite map_size_empty in Hsize. rewrite count_ballots_empty in Hyes.
  repeat split; try done.
  - rewrite tally_lookup_other; [done |]. intros Hin.
    apply (Hdisj _ Hin). simpl. left.
  - rewrite <- Hperm, voters_app. apply elem_of_app. right. simpl. left.
Qed.

(** C4, counterexample.  Five members vote, three of them yes: the
    proposal ends as [EXECUTED], not [APPROVED].  When only three members
    have voted, all yes, the proposal is still [VOTING] although
    [is_approved] already holds. *)
Lemma C4_three_yes_is_not_left_approved :
  let gc := council_scenario.opened.2 in
  let pid := council_scenario.opened.1 in
  yes_count council_scenario.three_yes_two_no = 3%nat
  /\ status_of (cast_votes gc pid council_scenario.three_yes_two_no) pid
     = Some EXECUTED
  /\ status_of (cast_votes gc pid council_scenario.three_yes_two_no) pid
     <> Some APPROVED
  /\ yes_count council_scenario.three_yes_two_unvoted = 3%nat
  /\ status_of (cast_votes gc pid council_scenario.three_yes_two_unvoted) pid
     = Some VOTING
  /\ (λ p, Proposal.is_approved p 3)
       <$> (GovernanceCouncil.proposals
              (cast_votes gc pid council_scenario.three_yes_two_unvoted) !! pid)
     = Some true.
Proof. vm_compute. repeat split; try reflexivity. discriminate. Qed.

(** C4, as amended.  Take an open proposal whose changes are well formed
    for its type, so that executing it raises nothing, and let every
    member of a council without repeated names vote exactly once on it,
    in any order, each before the deadline.  Every vote is accepted; the
    proposal stays in [VOTING] until the last member has voted and is
    finalized by that last vote, without waiting for the deadline: with
    at least three yes votes (exactly three, for instance) it is
    approved and executed in the same call and ends as [EXECUTED]; with
    fewer (exactly two, for instance) it ends as [REJECTED]. *)
Theorem C4_all_voted_finalizes (gc : GovernanceCouncil.t) (proposal_id : string)
    (p : Proposal.t) (ballots : list ballot) :
  GovernanceCouncil.proposals gc !! proposal_id = Some p ->
  well_formed_changes p ->
  Proposal.status p = VOTING ->
  Proposal.votes p = ∅ ->
  NoDup (GovernanceCouncil.council_members gc) ->
  GovernanceCouncil.council_members gc <> [] ->
  voters ballots ≡ₚ GovernanceCouncil.council_members gc ->
  Forall (λ b : ballot, (b.2 < Proposal.voting_deadline p)%Q) ballots ->
  (forall k b,
      ballots !! k = Some b ->
      status_of (cast_votes gc proposal_id (take k ballots)) proposal_id
      = Some VOTING
      /\ (GovernanceCouncil.vote_on_proposal
            (cast_votes gc proposal_id (take k ballots)) proposal_id
            b.1.1 b.1.2 b.2).1 = true)
  /\ status_of (cast_votes gc proposal_id ballots) proposal_id
     = Some (if (3 <=? yes_count ballots)%nat then EXECUTED else REJECTED)
  /\ (yes_count ballots = 3%nat ->
      status_of (cast_votes gc proposal_id ballots) proposal_id = Some EXECUTED)
  /\ (yes_count ballots = 2%nat ->
      status_of (cast_votes gc proposal_id ballots) proposal_id = Some REJECTED).
Proof.
  intros Hp _ Hst Hvotes Hnd Hne Hperm Ht.
  assert (forall k b,
             ballots !! k = Some b ->
             ballots = take k ballots ++ b :: drop (S k) ballots) as Hsplit.
  { intros k b Hk. rewrite <- (take_drop_middle ballots k b Hk) at 1. done. }
  assert (status_of (cast_votes gc proposal_id ballots) proposal_id
          = Some (if (3 <=? yes_count ballots)%nat then EXECUTED else REJECTED))
    as Hfinal.
  { assert (length ballots = length (GovernanceCouncil.council_members gc)) as Hlen.
    { rewrite <- Hperm. unfold voters. by rewrite length_map. }
    assert (exists init b, ballots = init ++ [b]) as (init & b & ->).
    { destruct ballots as [| b0 rest] using rev_ind.
      - destruct (GovernanceCouncil.council_members gc); [done | simpl in Hlen; lia].
      - eauto. }
    destruct (cast_votes_prefix gc proposal_id p init b [] Hp Hst Hvotes Hnd
                Hperm Ht) as (Hc & Hq & Hnone & Hsize & Hyes & Hmem & Htb).
    rewrite cast_votes_app. unfold cast_votes at 1. simpl.
    set (gc' := cast_votes gc proposal_id init) in *.
    rewrite <- Hc in Hmem.
    destruct (vote_step gc' proposal_id (Proposal.set_votes (tally ∅ init) p)
                b.1.1 b.1.2 b.2 Hq Hst Hmem Htb) as (_ & _ & _ & Hdone).
    simpl in Hdone. rewrite Hdone.
    - rewrite count_ballots_insert_fresh, Hyes by done.
      unfold yes_count. rewrite filter_app, length_app, filter_cons. simpl.
      replace (length (filter (λ b0 : ballot, b0.1.2 = true) init)
               + length (if decide (b.1.2 = true) then [b] else []))%nat
        with ((if bool_decide (b.1.2 = true) then 1 else 0)
              + length (filter (λ b0 : ballot, b0.1.2 = true) init))%nat.
      + done.
      + case_bool_decide; case_decide; simpl; try done; lia.
    - rewrite Hc, map_size_insert_None, Hsize by done.
      rewrite length_app in Hlen. simpl in Hlen. lia. }
  split; [| split; [exact Hfinal | split]].
  - intros k b Hk. specialize (Hsplit k b Hk).
    rewrite Hsplit in Hperm, Ht.
    destruct (cast_votes_prefix gc proposal_id p (take k ballots) b
                (drop (S k) ballots) Hp Hst Hvotes Hnd Hperm Ht)
      as (Hc & Hq & _ & _ & _ & Hmem & Htb).
    split; [unfold status_of; rewrite Hq; simpl; by rewrite Hst |].
    rewrite <- Hc in Hmem.
    by destruct (vote_step _ proposal_id _ b.1.1 b.1.2 b.2 Hq Hst Hmem Htb)
      as (Hacc & _).
  - intros Hy. by rewrite Hfinal, Hy.
  - intros Hy. by rewrite Hfinal, Hy.
Qed.

(** The five-member council of the demonstrations: three yes and two no
    in one order give [EXECUTED], two yes and three no give [REJECTED]. *)
Lemma C4_five_member_council :
  status_of (cast_votes council_scenario.opened.2 council_scenario.opened.1
               council_scenario.three_yes_two_no) council_scenario.opened.1
  = Some EXECUTED
  /\ status_of (cast_votes council_scenario.opened.2 council_scenario.opened.1
                  council_scenario.two_yes_three_no) council_scenario.opened.1
     = Some REJECTED.
Proof.
  set (gc := council_scenario.opened.2).
  set (pid := council_scenario.opened.1).
  assert (exists p, GovernanceCouncil.proposals gc !! pid = Some p
                    /\ Proposal.status p = VOTING
                    /\ Proposal.votes p = ∅
                    /\ Proposal.voting_deadline p = 86400%Q)
    as (p & Hp & Hst & Hvotes & Hdl) by (vm_compute; eauto).
  assert (NoDup (GovernanceCouncil.council_members gc)) as Hnd
      by by_computation.
  assert (GovernanceCouncil.council_members gc <> []) as Hne by (vm_compute; done).
  assert (well_formed_changes p) as Hwf.
  { assert (Proposal.proposal_type p = REWARD_ADJUSTMENT
            /\ Proposal.proposed_changes p
               = [("poc_miner_reward", py.VFloat 12)]) as [Hty Hch].
    { assert (Some p = Some (Proposal.mk "PROP_000001" REWARD_ADJUSTMENT
                               "TREASURER_Alice"
                               "Increase PoC miner reward from 10 to 12 FCU"
                               [("poc_miner_reward", py.VFloat 12)] 0 86400
                               VOTING ∅ None)) as Hsame
          by (rewrite <- Hp; reflexivity).
      injection Hsame as ->. done. }
    unfold well_formed_changes. rewrite Hty, Hch.
    repeat constructor. discriminate. }
  split.
  - refine (proj1 (proj2 (proj2
             (C4_all_voted_finalizes gc pid p council_scenario.three_yes_two_no
                Hp Hwf Hst Hvotes Hnd Hne _ _))) eq_refl).
    + by_computation.
    + rewrite Hdl. repeat constructor.
  - refine (proj2 (proj2 (proj2
             (C4_all_voted_finalizes gc pid p council_scenario.two_yes_three_no
                Hp Hwf Hst Hvotes Hnd Hne _ _))) eq_refl).
    + by_computation.
    + rewrite Hdl. repeat constructor.
Defined.

(** Finalization compares the number of recorded votes with the length
    of the member list, so a name listed twice keeps the proposal open
    even when every member has voted. *)
Example repeated_member_blocks_finalization :
  status_of (cast_votes council_scenario.repeated_member.2
               council_scenario.repeated_member.1 council_scenario.both_yes)
            council_scenario.repeated_member.1
  = Some VOTING.
Proof. vm_compute. reflexivity. Qed.

End Governance.

(** * Gossip: deduplication and hop budget *)

Section Gossip.

Import network.

(** The deduplication key does not read the hop budget or the message
    id. *)
Lemma Message_hash_ignores_ttl `{Hashlib} (m m' : Message.t) :
  Message.sender_id m' = Message.sender_id m ->
  Message.message_type m' = Message.message_type m ->
  Message.timestamp m' = Message.timestamp m ->
  Message.payload m' = Message.payload m ->
  Message.hash m' = Message.hash m.
Proof. intros Hs Hty Hts Hp. unfold Message.hash. by rewrite Hs, Hty, Hts, Hp. Qed.

Lemma should_propagate_seen `{Hashlib} (g : GossipProtocol.t) (m : Message.t) :
  Message.hash m ∈ GossipProtocol.message_history g ->
  GossipProtocol.should_propagate g m = false.
Proof.
  intros Hin. unfold GossipProtocol.should_propagate.
  by rewrite bool_decide_eq_true_2.
Qed.

Lemma should_propagate_expired `{Hashlib} (g : GossipProtocol.t) (m : Message.t) :
  Message.ttl m <= 0 -> GossipProtocol.should_propagate g m = false.
Proof.
  intros Httl. unfold GossipProtocol.should_propagate.
  destruct (bool_decide _); [done |].
  by apply Z.leb_le in Httl as ->.
Qed.

(** Below the bound the history simply grows by the new key. *)
Lemma add_to_history_room `{Hashlib} `{SetOrder} (g : GossipProtocol.t)
    (m : Message.t) :
  Message.hash m ∉ GossipProtocol.message_history g ->
  Z.of_nat (size (GossipProtocol.message_history g)) < GossipProtocol.max_history g ->
  GossipProtocol.add_to_history g m
  = GossipProtocol.set_message_history
      ({[Message.hash m]} ∪ GossipProtocol.message_history g) g.
Proof.
  intros Hfresh Hroom. unfold GossipProtocol.add_to_history.
  rewrite size_union by (by apply disjoint_singleton_l). rewrite size_singleton.
  assert ((GossipProtocol.max_history g
           <? Z.of_nat (1 + size (GossipProtocol.message_history g))) = false) as ->
      by (apply Z.ltb_ge; lia).
  done.
Qed.

Lemma should_propagate_true_iff `{Hashlib} (g : GossipProtocol.t) (m : Message.t) :
  GossipProtocol.should_propagate g m = true
  <-> (Message.hash m ∉ GossipProtocol.message_history g) /\ (0 < Message.ttl m).
Proof.
  unfold GossipProtocol.should_propagate. case_bool_decide as Hin.
  - split; [done | intros [? _]; done].
  - destruct (Message.ttl m <=? 0) eqn:Httl.
    + apply Z.leb_le in Httl. split; [done | lia].
    + apply Z.leb_gt in Httl. done.
Qed.

(** A fresh message with a positive hop budget, submitted below the
    bound, is appended to the queue and its key joins the history. *)
Lemma add_message_fresh `{Hashlib} `{SetOrder} (g : GossipProtocol.t)
    (m : Message.t) :
  0 < Message.ttl m ->
  Message.hash m ∉ GossipProtocol.message_history g ->
  Z.of_nat (size (GossipProtocol.message_history g)) < GossipProtocol.max_history g ->
  GossipProtocol.add_message g m
  = GossipProtocol.set_message_history
      ({[Message.hash m]} ∪ GossipProtocol.message_history g)
      (GossipProtocol.set_message_queue
         (GossipProtocol.message_queue g ++ [m]) g).
Proof.
  intros Httl Hfresh Hroom. unfold GossipProtocol.add_message.
  rewrite (proj2 (should_propagate_true_iff g m)) by done.
  by rewrite add_to_history_room.
Qed.

(** With a bound of one and one key in the history, a second key pushes
    the history past the bound; what survives is the last key of the
    set's iteration order, which may be either of the two. *)
Lemma add_message_tight `{Hashlib} `{SetOrder} (g : GossipProtocol.t)
    (m : Message.t) (seen : string) :
  GossipProtocol.max_history g = 1 ->
  GossipProtocol.message_history g = {[seen]} ->
  Message.hash m <> seen ->
  0 < Message.ttl m ->
  GossipProtocol.message_history (GossipProtocol.add_message g m) = {[seen]}
  \/ GossipProtocol.message_history (GossipProtocol.add_message g m)
     = {[Message.hash m]}.
Proof.
  intros Hmax Hhist Hne Httl. unfold GossipProtocol.add_message.
  assert (Message.hash m ∉ ({[seen]} : gset string)) as Hnotin
      by (by apply not_elem_of_singleton).
  rewrite (proj2 (should_propagate_true_iff g m)) by (by rewrite Hhist).
  unfold GossipProtocol.add_to_history. simpl. rewrite Hmax, Hhist.
  set (s := ({[Message.hash m]} ∪ {[seen]} : gset string)).
  assert (size s = 2%nat) as Hsize.
  { unfold s. rewrite size_union by (by apply disjoint_singleton_l).
    by rewrite !size_singleton. }
  rewrite Hsize. simpl.
  pose proof (set_iter_perm s) as Hperm.
  assert (length (set_iter s) = 2%nat) as Hlen.
  { rewrite Hperm. rewrite <- Hsize. done. }
  destruct (set_iter s) as [| a [| b [| c rest]]] eqn:Eiter; try done.
  assert (b ∈ s) as Hb.
  { apply elem_of_elements. rewrite <- Hperm. repeat constructor. }
  unfold py.slice_from. simpl. rewrite (right_id_L ∅ (∪)).
  unfold s in Hb. apply elem_of_union in Hb as [Hb | Hb];
    apply elem_of_singleton in Hb; subst b; [by right | by left].
Qed.

(** C9, counterexample.  A gossip layer bounded to one history entry
    receives [announce] and then [other].  Whatever order the set is
    iterated in, the history keeps only one of the two keys, so either a
    second submission of [other] or the copy of [announce] that differs
    only in its hop budget is propagated again: the two are never both
    dropped. *)
Lemma C9_bounded_history_forgets :
  ~ exists O : SetOrder,
      let g :=
        GossipProtocol.add_message (H := standin.hashlib)
          (GossipProtocol.add_message (H := standin.hashlib)
             gossip_scenario.tight_gossip gossip_scenario.announce)
          gossip_scenario.other in
      GossipProtocol.should_propagate (H := standin.hashlib) g
        gossip_scenario.other = false
      /\ GossipProtocol.should_propagate (H := standin.hashlib) g
           gossip_scenario.announce_relayed = false.
Proof.
  intros [O [Hother Hrelayed]].
  assert (Message.hash (H := standin.hashlib) gossip_scenario.other
          <> Message.hash (H := standin.hashlib) gossip_scenario.announce) as Hne
      by (vm_compute; discriminate).
  assert (GossipProtocol.add_message (H := standin.hashlib)
            gossip_scenario.tight_gossip gossip_scenario.announce
          = GossipProtocol.set_message_history
              ({[Message.hash (H := standin.hashlib) gossip_scenario.announce]} ∪ ∅)
              (GossipProtocol.set_message_queue
                 [gossip_scenario.announce] gossip_scenario.tight_gossip)) as Hg1.
  { apply (add_message_fresh (H := standin.hashlib));
      [reflexivity | apply not_elem_of_empty | reflexivity]. }
  rewrite Hg1 in Hother, Hrelayed. clear Hg1.
  set (g1 := GossipProtocol.set_message_history _ _) in *.
  destruct (add_message_tight (H := standin.hashlib) g1 gossip_scenario.other
              (Message.hash (H := standin.hashlib) gossip_scenario.announce))
    as [Hkept | Hkept]; [reflexivity | | exact Hne | reflexivity | |].
  - unfold g1. simpl. apply (right_id_L ∅ (∪)).
  - apply not_true_iff_false in Hother. apply Hother.
    apply should_propagate_true_iff. rewrite Hkept.
    split; [by apply not_elem_of_singleton | done].
  - apply not_true_iff_false in Hrelayed. apply Hrelayed.
    apply should_propagate_true_iff. rewrite Hkept. split; [| done].
    change (Message.hash (H := standin.hashlib) gossip_scenario.announce_relayed)
      with (Message.hash (H := standin.hashlib) gossip_scenario.announce).
    apply not_elem_of_singleton. congruence.
Qed.

(** C9, as amended.  A message whose hop budget is zero or less is never
    queued.  The deduplication key is a digest of sender, type, timestamp
    and payload, so copies that differ only in hop budget or message id
    share it.  A message with a positive hop budget whose key is not in
    the history, submitted while the history is below its bound, is
    queued once; its key is then in the history, and as long as it is,
    every message with that key is dropped, so that submitting the
    message a second time leaves exactly one entry in the queue. *)
Theorem C9_gossip_dedup `{Hashlib} `{SetOrder} (g : GossipProtocol.t)
    (m : Message.t) :
  (Message.ttl m <= 0 ->
   GossipProtocol.should_propagate g m = false
   /\ GossipProtocol.add_message g m = g)
  /\ (forall m',
         Message.sender_id m' = Message.sender_id m ->
         Message.message_type m' = Message.message_type m ->
         Message.timestamp m' = Message.timestamp m ->
         Message.payload m' = Message.payload m ->
         Message.hash m' = Message.hash m)
  /\ (forall g' m',
         Message.hash m' ∈ GossipProtocol.message_history g' ->
         GossipProtocol.should_propagate g' m' = false
         /\ GossipProtocol.add_message g' m' = g')
  /\ (0 < Message.ttl m ->
      Message.hash m ∉ GossipProtocol.message_history g ->
      Z.of_nat (size (GossipProtocol.message_history g))
      < GossipProtocol.max_history g ->
      let g1 := GossipProtocol.add_message g m in
      GossipProtocol.message_queue g1 = GossipProtocol.message_queue g ++ [m]
      /\ Message.hash m ∈ GossipProtocol.message_history g1
      /\ GossipProtocol.add_message g1 m = g1
      /\ GossipProtocol.message_queue (GossipProtocol.add_message g1 m)
         = GossipProtocol.message_queue g ++ [m]
      /\ (forall m', Message.hash m' = Message.hash m ->
                     GossipProtocol.should_propagate g1 m' = false
                     /\ GossipProtocol.add_message g1 m' = g1)).
Proof.
  assert (forall g' m',
             Message.hash m' ∈ GossipProtocol.message_history g' ->
             GossipProtocol.should_propagate g' m' = false
             /\ GossipProtocol.add_message g' m' = g') as Hseen.
  { intros g' m' Hin. pose proof (should_propagate_seen g' m' Hin) as Hno.
    split; [exact Hno |]. unfold GossipProtocol.add_message. by rewrite Hno. }
  split; [| split; [| split; [exact Hseen |]]].
  - intros Httl. pose proof (should_propagate_expired g m Httl) as Hno.
    split; [exact Hno |]. unfold GossipProtocol.add_message. by rewrite Hno.
  - intros m'. apply Message_hash_ignores_ttl.
  - intros Httl Hfresh Hroom g1.
    assert (g1 = GossipProtocol.set_message_history
                   ({[Message.hash m]} ∪ GossipProtocol.message_history g)
                   (GossipProtocol.set_message_queue
                      (GossipProtocol.message_queue g ++ [m]) g)) as Hg1
        by (by apply add_message_fresh).
    assert (Message.hash m ∈ GossipProtocol.message_history g1) as Hin
        by (rewrite Hg1; simpl; apply elem_of_union_l; by apply elem_of_singleton).
    assert (GossipProtocol.message_queue g1
            = GossipProtocol.message_queue g ++ [m]) as Hq by (by rewrite Hg1).
    destruct (Hseen g1 m Hin) as [_ Hsame].
    split; [exact Hq |]. split; [exact Hin |]. split; [exact Hsame |].
    split; [by rewrite Hsame |].
    intros m' Hkey. apply Hseen. by rewrite Hkey.
Qed.

(** The same announcement submitted twice to a fresh gossip layer is
    queued once, and the relayed copy with a smaller hop budget is
    dropped. *)
Lemma C9_announce_twice :
  let g1 :=
    GossipProtocol.add_message (H := standin.hashlib) (H0 := standin.set_order)
      gossip_scenario.fresh_gossip gossip_scenario.announce in
  GossipProtocol.message_queue
    (GossipProtocol.add_message (H := standin.hashlib) (H0 := standin.set_order)
       g1 gossip_scenario.announce)
  = [gossip_scenario.announce]
  /\ GossipProtocol.should_propagate (H := standin.hashlib) g1
       gossip_scenario.announce_relayed = false.
Proof.
  intros g1.
  destruct (C9_gossip_dedup (H := standin.hashlib) (H0 := standin.set_order)
              gossip_scenario.fresh_gossip gossip_scenario.announce)
    as (_ & _ & _ & Hdedup).
  destruct Hdedup as (_ & _ & _ & Hqueue & Hcopies).
  - reflexivity.
  - apply not_elem_of_empty.
  - reflexivity.
  - split; [exact Hqueue |].
    exact (proj1 (Hcopies gossip_scenario.announce_relayed eq_refl)).
Defined.

End Gossip.

(** * Ledger: further properties of core.py *)

Section LedgerMore.

Import core.

Lemma merkle_loop_settled `{Hashlib} (fuel : nat) (l : list string) :
  (length l <= 1)%nat -> Block.merkle_loop fuel l = l.
Proof.
  intros Hlen. destruct fuel as [| fuel]; [done |]. simpl.
  by apply Nat.ltb_ge in Hlen as ->.
Qed.

Lemma merkle_loop_one_more `{Hashlib} (fuel : nat) :
  forall l : list string,
    (length l <= fuel)%nat ->
    Block.merkle_loop (S fuel) l = Block.merkle_loop fuel l.
Proof.
  induction fuel as [| fuel IH]; intros l Hlen.
  { destruct l; [done | simpl in Hlen; lia]. }
  change (Block.merkle_loop (S (S fuel)) l)
    with (if (1 <? length l)%nat
          then Block.merkle_loop (S fuel) (Block.merkle_level l) else l).
  change (Block.merkle_loop (S fuel) l)
    with (if (1 <? length l)%nat
          then Block.merkle_loop fuel (Block.merkle_level l) else l).
  destruct (1 <? length l)%nat eqn:Hlt; [| done].
  apply Nat.ltb_lt in Hlt. apply IH.
  pose proof (merkle_level_length l) as Hlvl.
  pose proof (Nat.div2_odd (S (length l))) as Hdiv.
  assert (Nat.b2n (Nat.odd (S (length l))) <= 1)%nat as Hbit
      by (destruct (Nat.odd _); simpl; lia).
  lia.
Qed.

Lemma merkle_loop_enough `{Hashlib} (fuel : nat) (l : list string) :
  (length l <= fuel)%nat ->
  Block.merkle_loop fuel l = Block.merkle_loop (length l) l.
Proof.
  intros Hlen. replace fuel with (fuel - length l + length l)%nat by lia.
  induction (fuel - length l)%nat as [| k IH]; [done |].
  change (S k + length l)%nat with (S (k + length l)).
  rewrite merkle_loop_one_more by lia. exact IH.
Qed.

(** X1. The merkle root is well defined: for a non-empty transaction list
    the pairing loop always ends with exactly one hash, the root, and
    running it for more passes than transactions changes nothing.  The
    empty list gives the digest of the empty string, a single transaction
    is its own root, two transactions give the digest of their
    concatenated hashes, and with three the last hash is paired with
    itself. *)
Theorem merkle_root_well_defined `{Hashlib} (txs : list Transaction.t)
    (fuel : nat) (a b c : Transaction.t) :
  (txs <> [] -> (length txs <= fuel)%nat ->
   Block.merkle_loop fuel (map Transaction.hash txs)
   = [Block.calculate_merkle_root txs])
  /\ Block.calculate_merkle_root [] = sha256_hexdigest ""
  /\ Block.calculate_merkle_root [a] = Transaction.hash a
  /\ Block.calculate_merkle_root [a; b]
     = sha256_hexdigest (Transaction.hash a +:+ Transaction.hash b)
  /\ Block.calculate_merkle_root [a; b; c]
     = sha256_hexdigest
         (sha256_hexdigest (Transaction.hash a +:+ Transaction.hash b)
          +:+ sha256_hexdigest (Transaction.hash c +:+ Transaction.hash c)).
Proof.
  split; [| done].
  intros Hne Hfuel.
  rewrite merkle_loop_enough by (by rewrite length_map).
  rewrite length_map. by apply calculate_merkle_root_single.
Qed.

(** Five transactions and a budget of nine passes. *)
Lemma merkle_root_well_defined_witness :
  let txs := replicate 5 scenario.to_farmer_a in
  txs <> [] /\ (length txs <= 9)%nat
  /\ Block.merkle_loop (H := standin.hashlib) 9
       (map (Transaction.hash (H := standin.hashlib)) txs)
     = [Block.calculate_merkle_root (H := standin.hashlib) txs].
Proof.
  intros txs.
  assert (txs <> []) as Hne by done.
  assert (length txs <= 9)%nat as Hlen by (simpl; lia).
  split; [exact Hne |]. split; [exact Hlen |].
  exact (proj1 (merkle_root_well_defined (H := standin.hashlib) txs 9
                  scenario.to_farmer_a scenario.to_farmer_a scenario.to_farmer_a)
           Hne Hlen).
Defined.





(** X4. Admission reads the balance and nothing else: it accepts a
    transaction exactly when the sender's current balance covers the
    amount, queues an accepted transaction at the end of the pending
    pool, and never touches balances, chain, pledges or stakes.  It
    reserves nothing, so whether a second transaction is accepted does
    not depend on the first having been queued. *)
Theorem admission_does_not_reserve (bc : Blockchain.t) (tx1 tx2 : Transaction.t) :
  let r1 := Blockchain.add_transaction bc tx1 in
  (r1.1 = true
   <-> (Transaction.amount tx1
        <= Blockchain.get_balance bc (Transaction.sender tx1))%Q)
  /\ (r1.1 = true ->
      Blockchain.pending_transactions r1.2
      = Blockchain.pending_transactions bc ++ [tx1])
  /\ (r1.1 = false -> r1.2 = bc)
  /\ Blockchain.state r1.2 = Blockchain.state bc
  /\ Blockchain.chain r1.2 = Blockchain.chain bc
  /\ Blockchain.storage_pledges r1.2 = Blockchain.storage_pledges bc
  /\ Blockchain.pos_stakes r1.2 = Blockchain.pos_stakes bc
  /\ (Blockchain.add_transaction r1.2 tx2).1 = (Blockchain.add_transaction bc tx2).1.
Proof.
  unfold Blockchain.add_transaction.
  destruct (py.ge (Blockchain.get_balance bc (Transaction.sender tx1))
                  (Transaction.amount tx1)) eqn:Hge; simpl.
  - apply py_ge_true in Hge. repeat split; try done.
    unfold Blockchain.get_balance. simpl. by destruct (py.ge _ _).
  - apply py_ge_false in Hge. repeat split; try done.
    intros Hle. by apply Qlt_not_le in Hge.
Qed.

(** The treasury's 1,000,000 stake deposit is accepted and queued. *)
Lemma admission_does_not_reserve_witness :
  Blockchain.pending_transactions
    (Blockchain.add_transaction (scenario.ledger (H := standin.hashlib))
       scenario.first_stake).2
  = Blockchain.pending_transactions (scenario.ledger (H := standin.hashlib))
    ++ [scenario.first_stake].
Proof.
  assert ((Blockchain.add_transaction (scenario.ledger (H := standin.hashlib))
             scenario.first_stake).1 = true) as Hok by (vm_compute; reflexivity).
  exact (proj1 (proj2 (admission_does_not_reserve
                         (scenario.ledger (H := standin.hashlib))
                         scenario.first_stake scenario.second_stake)) Hok).
Defined.

(** X5. [validate_chain] succeeds exactly when every block after the
    first stores the hash of its own header and names the stored hash of
    its predecessor; the first block is never examined, so a chain of at
    most one block always validates. *)
Theorem validate_chain_iff `{Hashlib} (bc : Blockchain.t) :
  (Blockchain.validate_chain bc = true
   <-> forall (i : nat) (block previous_block : Block.t),
         (1 <= i)%nat ->
         Blockchain.chain bc !! i = Some block ->
         Blockchain.chain bc !! (i - 1)%nat = Some previous_block ->
         Block.hash block = Block.calculate_hash block
         /\ Block.previous_hash block = Block.hash previous_block)
  /\ ((length (Blockchain.chain bc) <= 1)%nat ->
      Blockchain.validate_chain bc = true).
Proof.
  unfold Blockchain.validate_chain. split; [split |].
  - intros Hval i block previous_block Hi Hb Hp.
    rewrite forallb_forall in Hval.
    pose proof (lookup_lt_Some _ _ _ Hb) as Hlt.
    specialize (Hval i). rewrite in_seq in Hval. specialize (Hval ltac:(lia)).
    unfold Blockchain.check_block_at in Hval. rewrite Hb, Hp in Hval.
    destruct (String.eqb (Block.hash block) (Block.calculate_hash block)) eqn:E1;
      [| done].
    destruct (String.eqb (Block.previous_hash block) (Block.hash previous_block))
      eqn:E2; [| done].
    by apply String.eqb_eq in E1, E2.
  - intros Hall. apply forallb_forall. intros i Hi. apply in_seq in Hi.
    unfold Blockchain.check_block_at.
    destruct (Blockchain.chain bc !! i) as [block |] eqn:Hb; [| done].
    destruct (Blockchain.chain bc !! (i - 1)%nat) as [previous_block |] eqn:Hp;
      [| done].
    destruct (Hall i block previous_block ltac:(lia) Hb Hp) as [-> ->].
    by rewrite !String.eqb_refl.
  - intros Hlen.
    destruct (Blockchain.chain bc) as [| g [| b rest]]; simpl in *; [done.. | lia].
Qed.

(** The chain of genesis plus one mined block validates, and block 1
    carries the hash of its header and the stored hash of the genesis
    block. *)
Lemma validate_chain_iff_witness :
  let bc := block_scenario.mined_chain (H := standin.hashlib) in
  Blockchain.validate_chain (H := standin.hashlib) bc = true
  /\ forall block previous_block,
       Blockchain.chain bc !! 1%nat = Some block ->
       Blockchain.chain bc !! 0%nat = Some previous_block ->
       Block.hash block = Block.calculate_hash (H := standin.hashlib) block
       /\ Block.previous_hash block = Block.hash previous_block.
Proof.
  intros bc.
  assert (Blockchain.validate_chain (H := standin.hashlib) bc = true) as Hval
      by (vm_compute; reflexivity).
  split; [exact Hval |].
  intros block previous_block.
  exact (proj1 (proj1 (validate_chain_iff (H := standin.hashlib) bc)) Hval
           1%nat block previous_block (le_n 1)).
Defined.

End LedgerMore.

(** * Consensus: further properties of consensus.py *)

Section ConsensusMore.

Import consensus.

(** X6. The block-approval council never has more than five members:
    whatever sequence of additions and removals is applied to a council
    of at most five, it stays at most five.  An addition succeeds exactly
    when there are fewer than five members and the id is not yet one of
    them, and a refused addition changes nothing. *)
Theorem council_size_bounded (pc : PoSConsensus.t) (ops : list council_op)
    (member_id : string) (validator : PoSValidator.t) :
  (size (PoSConsensus.council pc) <= 5)%nat ->
  (size (PoSConsensus.council (run_council_ops pc ops)) <= 5)%nat
  /\ ((PoSConsensus.add_council_member pc member_id validator).1 = true
      <-> (size (PoSConsensus.council pc) < 5)%nat
          /\ PoSConsensus.council pc !! member_id = None)
  /\ ((PoSConsensus.add_council_member pc member_id validator).1 = false ->
      (PoSConsensus.add_council_member pc member_id validator).2 = pc).
Proof.
  intros Hsize. split; [| split].
  - revert pc Hsize. induction ops as [| op ops IH]; intros pc Hsize; [done |].
    unfold run_council_ops. simpl. apply IH.
    destruct op as [id v | id]; simpl.
    + unfold PoSConsensus.add_council_member.
      destruct (5 <=? size (PoSConsensus.council pc))%nat eqn:Hfull; [done |].
      apply Nat.leb_gt in Hfull.
      destruct (PoSConsensus.council pc !! id) eqn:Hid; [done |]. simpl.
      rewrite map_size_insert_None by done. lia.
    + unfold PoSConsensus.remove_council_member.
      destruct (PoSConsensus.council pc !! id) eqn:Hid; [| done]. simpl.
      rewrite map_size_delete_Some by eauto. lia.
  - unfold PoSConsensus.add_council_member.
    destruct (5 <=? size (PoSConsensus.council pc))%nat eqn:Hfull.
    + apply Nat.leb_le in Hfull. simpl. split; [done | lia].
    + apply Nat.leb_gt in Hfull.
      destruct (PoSConsensus.council pc !! member_id) eqn:Hid; simpl.
      * split; [done | intros [_ ?]; done].
      * done.
  - unfold PoSConsensus.add_council_member.
    destruct (5 <=? size (PoSConsensus.council pc))%nat; [done |].
    destruct (PoSConsensus.council pc !! member_id); [done |]. simpl. done.
Qed.

(** Seven additions to the empty council leave five members. *)
Lemma council_size_bounded_witness :
  let pc := PoSConsensus.init (PoSValidator.init "T" PoSValidator.ROLE_TREASURER 1000) in
  let v := PoSValidator.init "m" PoSValidator.ROLE_COUNCIL 1000 in
  let ops := map (λ id, AddMember id v) ["a"; "b"; "c"; "d"; "e"; "f"; "g"] in
  (size (PoSConsensus.council pc) <= 5)%nat
  /\ (size (PoSConsensus.council (run_council_ops pc ops)) <= 5)%nat
  /\ size (PoSConsensus.council (run_council_ops pc ops)) = 5%nat.
Proof.
  intros pc v ops.
  assert (size (PoSConsensus.council pc) <= 5)%nat as Hsize by (vm_compute; lia).
  split; [exact Hsize |]. split.
  - exact (proj1 (council_size_bounded pc ops "a" v Hsize)).
  - vm_compute. reflexivity.
Defined.


Lemma py_maxq_cases (a x : Q) :
  (py.maxq a x = a /\ (x <= a)%Q) \/ (py.maxq a x = x /\ (a < x)%Q).
Proof.
  unfold py.maxq, py.gt. destruct (Qle_bool x a) eqn:E; simpl.
  - left. split; [done | by apply Qle_bool_iff].
  - right. split; [done |]. apply Qnot_le_lt. intros Hle.
    apply Qle_bool_iff in Hle. congruence.
Qed.



(** X9. One adjustment of the difficulty controller moves the difficulty
    by at most one step when it lies between 1 and 32 and keeps it
    between 1 and 32, whatever the samples; the network capacity passed
    in has no influence on the result. *)
Theorem difficulty_step_bounded `{FloatSum} (current : Z) (times : list float)
    (capacity capacity' : float) :
  1 <= current <= 32 ->
  let new := PoCDifficulty.calculate_new_difficulty current times capacity in
  1 <= new <= 32
  /\ current - 1 <= new <= current + 1
  /\ PoCDifficulty.calculate_new_difficulty current times capacity' = new.
Proof.
  intros Hrange. unfold PoCDifficulty.calculate_new_difficulty.
  destruct (length times <? 2)%nat; [lia |].
  destruct (PrimFloat.ltb _ _); [lia |].
  destruct (PrimFloat.ltb _ _); lia.
Qed.

(** At the cap of 32, fifty fast blocks leave the difficulty within
    bounds. *)
Lemma difficulty_step_bounded_witness :
  1 <= 32 <= 32
  /\ 1 <= PoCDifficulty.calculate_new_difficulty (H := standin.plain_sum)
            32 (replicate 50 11.25%float) 768%float
     <= 32.
Proof.
  assert (1 <= 32 <= 32) as Hrange by lia.
  split; [exact Hrange |].
  exact (proj1 (difficulty_step_bounded (H := standin.plain_sum)
                  32 (replicate 50 11.25%float) 768%float 0%float Hrange)).
Defined.




Lemma required_leading_zeros_quot (difficulty : Z) :
  PoCDifficulty.required_leading_zeros difficulty = Z.max 1 (Z.quot difficulty 2).
Proof.
  unfold PoCDifficulty.required_leading_zeros, py.int. simpl.
  by rewrite Z.mul_1_r.
Qed.

Lemma startswith_fewer_zeros (m n : nat) :
  (m <= n)%nat ->
  forall s : string,
    py.startswith s (py.str_repeat_nat "0" n) = true ->
    py.startswith s (py.str_repeat_nat "0" m) = true.
Proof.
  revert n. induction m as [| m IH]; intros n Hle s Hs;
    [by destruct s |].
  destruct n as [| n]; [lia |].
  destruct s as [| c s]; [done |]. simpl in *.
  apply andb_true_iff in Hs as [Hc Hs]. rewrite Hc. simpl.
  apply (IH n); [lia | done].
Qed.

(** X10. A proof-of-capacity solution that is valid at some difficulty is
    valid at every lower difficulty: the number of leading zeros asked
    for is [max(1, difficulty quot 2)], which grows with the difficulty.
    Difficulties up to 3 all ask for one zero, and an even difficulty
    and its successor ask for the same number. *)
Theorem verify_pow_solution_monotone `{Hashlib} `{PyFormat}
    (previous_hash : string) (capacity : Q) (nonce d d' : Z) :
  d' <= d ->
  PoCDifficulty.verify_pow_solution previous_hash capacity nonce d = true ->
  PoCDifficulty.verify_pow_solution previous_hash capacity nonce d' = true
  /\ PoCDifficulty.required_leading_zeros d' <= PoCDifficulty.required_leading_zeros d
  /\ (d <= 3 -> PoCDifficulty.required_leading_zeros d = 1)
  /\ (0 <= d -> PoCDifficulty.required_leading_zeros (2 * d + 1)
                = PoCDifficulty.required_leading_zeros (2 * d)).
Proof.
  intros Hle Hvalid.
  assert (PoCDifficulty.required_leading_zeros d'
          <= PoCDifficulty.required_leading_zeros d) as Hreq.
  { rewrite !required_leading_zeros_quot.
    pose proof (Z.quot_le_mono d' d 2 ltac:(lia) Hle). lia. }
  split; [| split; [exact Hreq | split]].
  - unfold PoCDifficulty.verify_pow_solution, py.str_repeat in *.
    eapply startswith_fewer_zeros; [| exact Hvalid]. lia.
  - intros Hsmall. rewrite required_leading_zeros_quot.
    pose proof (Z.quot_le_mono d 3 2 ltac:(lia) Hsmall) as Hq.
    change (Z.quot 3 2) with 1 in Hq. lia.
  - intros Hpos. rewrite !required_leading_zeros_quot.
    rewrite (Z.mul_comm 2 d), Z.quot_mul by lia.
    rewrite Z.add_comm.
    assert (Z.quot (1 + d * 2) 2 = d) as ->; [| done].
    rewrite Z.quot_div_nonneg by lia.
    rewrite Z.div_add by lia. done.
Qed.

(** With the mining stand-in, nonce 3 solves difficulty 8 (four zeros)
    and therefore difficulty 4 (two zeros). *)
Lemma verify_pow_solution_monotone_witness :
  4 <= 8
  /\ PoCDifficulty.verify_pow_solution (H := standin.mining_hashlib)
       (H0 := standin.format) "tip" 256 3 8 = true
  /\ PoCDifficulty.verify_pow_solution (H := standin.mining_hashlib)
       (H0 := standin.format) "tip" 256 3 4 = true.
Proof.
  assert (4 <= 8) as Hle by lia.
  assert (PoCDifficulty.verify_pow_solution (H := standin.mining_hashlib)
            (H0 := standin.format) "tip" 256 3 8 = true) as Hvalid
      by reflexivity.
  split; [exact Hle |]. split; [exact Hvalid |].
  exact (proj1 (verify_pow_solution_monotone (H := standin.mining_hashlib)
                  (H0 := standin.format) "tip" 256 3 8 4 Hle Hvalid)).
Defined.

Lemma mine_loop_sound `{Hashlib} `{PyFormat} (fuel : nat) :
  forall (time : clock) (k : nat) (start_time : Q) (self : PoCMiner.t)
         (previous_hash : string) (difficulty : Z) (timeout : Q) (first : Z)
         (found : option Z) (elapsed : Q) (self' : PoCMiner.t),
    PoCMiner.mine_loop fuel time k start_time self previous_hash difficulty
                       timeout first = Some (found, elapsed, self') ->
    match found with
    | Some nonce =>
        first <= nonce
        /\ PoCDifficulty.verify_pow_solution previous_hash
             (PoCMiner.storage_capacity_gb self) nonce difficulty = true
        /\ (forall m, first <= m < nonce ->
                      PoCDifficulty.verify_pow_solution previous_hash
                        (PoCMiner.storage_capacity_gb self) m difficulty = false)
        /\ PoCMiner.total_blocks_mined self'
           = PoCMiner.total_blocks_mined self + 1
        /\ PoCMiner.storage_capacity_gb self' = PoCMiner.storage_capacity_gb self
    | None => self' = self
    end.
Proof.
  induction fuel as [| fuel IH];
    intros time k start_time self previous_hash difficulty timeout first found
           elapsed self' Hrun; [done |].
  simpl in Hrun.
  destruct (py.lt (time k - start_time) timeout); [| by inversion Hrun].
  destruct (PoCDifficulty.verify_pow_solution previous_hash
              (PoCMiner.storage_capacity_gb self) first difficulty) eqn:Hv.
  - inversion Hrun; subst. simpl. repeat split; [lia | done | intros m ?; lia].
  - specialize (IH _ _ _ _ _ _ _ _ _ _ _ Hrun).
    destruct found as [nonce |]; [| done].
    destruct IH as (Hle & Hok & Hnone & Htot & Hcap).
    repeat split; [lia | done | | done | done].
    intros m Hm. destruct (decide (m = first)) as [-> | Hne]; [done |].
    apply Hnone. lia.
Qed.

Lemma mine_loop_complete `{Hashlib} `{PyFormat} (steps : nat) :
  forall (fuel : nat) (time : clock) (k : nat) (start_time : Q)
         (self : PoCMiner.t) (previous_hash : string) (difficulty : Z)
         (timeout : Q) (first : Z),
    (steps < fuel)%nat ->
    (forall j, (j <= steps)%nat -> (time (k + j)%nat - start_time < timeout)%Q) ->
    (forall j, (j < steps)%nat ->
               PoCDifficulty.verify_pow_solution previous_hash
                 (PoCMiner.storage_capacity_gb self) (first + Z.of_nat j)
                 difficulty = false) ->
    PoCDifficulty.verify_pow_solution previous_hash
      (PoCMiner.storage_capacity_gb self) (first + Z.of_nat steps) difficulty
    = true ->
    PoCMiner.mine_loop fuel time k start_time self previous_hash difficulty
                       timeout first
    = Some (Some (first + Z.of_nat steps),
            (time (S (k + steps)) - start_time)%Q,
            PoCMiner.mk (PoCMiner.miner_id self) (PoCMiner.storage_capacity_gb self)
                        (PoCMiner.total_blocks_mined self + 1)
                        (time (S (S (k + steps))))).
Proof.
  induction steps as [| steps IH];
    intros fuel time k start_time self previous_hash difficulty timeout first
           Hfuel Htime Hbad Hgood.
  - destruct fuel as [| fuel]; [lia |]. simpl.
    specialize (Htime 0%nat ltac:(lia)). rewrite Nat.add_0_r in Htime.
    apply py_lt_true in Htime. rewrite Htime.
    rewrite Z.add_0_r in Hgood. rewrite Hgood.
    by rewrite Nat.add_0_r, Z.add_0_r.
  - destruct fuel as [| fuel]; [lia |]. simpl.
    pose proof (Htime 0%nat ltac:(lia)) as Ht0. rewrite Nat.add_0_r in Ht0.
    apply py_lt_true in Ht0. rewrite Ht0.
    pose proof (Hbad 0%nat ltac:(lia)) as Hb0. rewrite Z.add_0_r in Hb0.
    rewrite Hb0.
    rewrite (IH fuel time (S k) start_time self previous_hash difficulty timeout
                (first + 1)).
    + replace (first + 1 + Z.of_nat steps) with (first + Z.of_nat (S steps)) by lia.
      replace (S k + steps)%nat with (k + S steps)%nat by lia. done.
    + lia.
    + intros j Hj. replace (S k + j)%nat with (k + S j)%nat by lia.
      apply Htime. lia.
    + intros j Hj.
      replace (first + 1 + Z.of_nat j) with (first + Z.of_nat (S j)) by lia.
      apply Hbad. lia.
    + replace (first + 1 + Z.of_nat steps) with (first + Z.of_nat (S steps)) by lia.
      done.
Qed.

(** X11. [mine_block] returns the first valid nonce.  Whenever it returns
    a nonce, that nonce solves the puzzle, no smaller non-negative nonce
    does, and the miner's block counter has gone up by one; whenever it
    gives up, the miner is unchanged.  If nonce [n] is the first
    solution and the clock stays inside the timeout for the [n + 1]
    turns it takes to reach it, the search does return [n], with the
    elapsed time read right after the hit.  If the timeout has already
    passed at the first turn, no nonce is tried at all. *)
Theorem mine_block_first_valid `{Hashlib} `{PyFormat} (fuel : nat) (time : clock)
    (self : PoCMiner.t) (previous_hash : string) (difficulty : Z) (timeout : Q)
    (n : nat) :
  (forall found elapsed self',
      PoCMiner.mine_block fuel time self previous_hash difficulty timeout
      = Some (found, elapsed, self') ->
      match found with
      | Some nonce =>
          0 <= nonce
          /\ PoCDifficulty.verify_pow_solution previous_hash
               (PoCMiner.storage_capacity_gb self) nonce difficulty = true
          /\ (forall m, 0 <= m < nonce ->
                        PoCDifficulty.verify_pow_solution previous_hash
                          (PoCMiner.storage_capacity_gb self) m difficulty = false)
          /\ PoCMiner.total_blocks_mined self'
             = PoCMiner.total_blocks_mined self + 1
      | None => self' = self
      end)
  /\ ((n < fuel)%nat ->
      (forall j, (1 <= j <= S n)%nat -> (time j - time 0%nat < timeout)%Q) ->
      (forall m, (m < n)%nat ->
                 PoCDifficulty.verify_pow_solution previous_hash
                   (PoCMiner.storage_capacity_gb self) (Z.of_nat m) difficulty
                 = false) ->
      PoCDifficulty.verify_pow_solution previous_hash
        (PoCMiner.storage_capacity_gb self) (Z.of_nat n) difficulty = true ->
      PoCMiner.mine_block fuel time self previous_hash difficulty timeout
      = Some (Some (Z.of_nat n), (time (S (S n)) - time 0%nat)%Q,
              PoCMiner.mk (PoCMiner.miner_id self)
                          (PoCMiner.storage_capacity_gb self)
                          (PoCMiner.total_blocks_mined self + 1)
                          (time (S (S (S n))))))
  /\ ((0 < fuel)%nat ->
      (timeout <= time 1%nat - time 0%nat)%Q ->
      PoCMiner.mine_block fuel time self previous_hash difficulty timeout
      = Some (None, (time 2%nat - time 0%nat)%Q, self)).
Proof.
  split; [| split].
  - intros found elapsed self' Hrun. unfold PoCMiner.mine_block in Hrun.
    pose proof (mine_loop_sound _ _ _ _ _ _ _ _ _ _ _ _ Hrun) as Hsound.
    destruct found as [nonce |]; [| done].
    destruct Hsound as (Hpos & Hok & Hnone & Htot & _). done.
  - intros Hfuel Htime Hbad Hgood. unfold PoCMiner.mine_block.
    rewrite (mine_loop_complete n fuel time 1 (time 0%nat) self previous_hash
               difficulty timeout 0); [done | done | | done | done].
    intros j Hj. apply Htime. lia.
  - intros Hfuel Hlate. unfold PoCMiner.mine_block.
    destruct fuel as [| fuel]; [lia |]. simpl.
    apply py_lt_false in Hlate. by rewrite Hlate.
Qed.

(** With the mining stand-in and a clock ticking once per reading, the
    miner finds nonce 3 after four turns. *)
Lemma mine_block_first_valid_witness :
  let miner := PoCMiner.init "Farmer_Alice" 256 0 in
  PoCMiner.mine_block (H := standin.mining_hashlib) (H0 := standin.format) 100
    standin.ticking miner "tip" 8 30
  = Some (Some 3, (standin.ticking 5%nat - standin.ticking 0%nat)%Q,
          PoCMiner.mk "Farmer_Alice" 256 1 (standin.ticking 6%nat)).
Proof.
  intros miner.
  refine (proj1 (proj2 (mine_block_first_valid (H := standin.mining_hashlib)
                          (H0 := standin.format) 100 standin.ticking miner "tip"
                          8 30 3)) _ _ _ _).
  - lia.
  - intros j Hj. unfold standin.ticking, Qlt, Qminus, Qplus, Qopp, inject_Z.
    cbn [Qnum Qden Z.of_nat]. lia.
  - intros m Hm.
    destruct m as [| [| [| m]]]; [reflexivity.. | lia].
  - reflexivity.
Defined.

Lemma dict_set_keys_present {A} (k : string) (v v' : A) (d : list (string * A)) :
  py.dict_get k d = Some v -> map fst (py.dict_set k v' d) = map fst d.
Proof.
  induction d as [| [k0 v0] d IH]; simpl; [done |].
  destruct (String.eqb k k0) eqn:E; simpl.
  - apply String.eqb_eq in E. by subst k0.
  - intros Hget. by rewrite IH.
Qed.





(** X13. What a draw changes.  When [select_winner] returns a winner, the
    winner was registered, their win counter has gone up by one and the
    rest of their record is as before; every other participant's record
    is unchanged; the winner is appended to the winners list unless
    already there, so a list without repetitions stays without
    repetitions.  When it returns no winner, nobody is registered and
    neither the lottery nor the generator has changed. *)
Theorem select_winner_effects `{Hashlib} `{PyRandom} (g g1 : generator)
    (l l1 : PoWLottery.t) (block_hash : string) (height : Z) (w : option string) :
  PoWLottery.select_winner g l block_hash height = py.Returned (w, l1, g1) ->
  match w with
  | Some winner =>
      (exists p,
          py.dict_get winner (PoWLottery.participants l) = Some p
          /\ py.dict_get winner (PoWLottery.participants l1)
             = Some (PoWLottery.mk_participant
                       (PoWLottery.storage_gb p) (PoWLottery.entries p)
                       (PoWLottery.wins p + 1) (PoWLottery.last_entry_block p)))
      /\ (forall other, other <> winner ->
             py.dict_get other (PoWLottery.participants l1)
             = py.dict_get other (PoWLottery.participants l))
      /\ PoWLottery.winners l1
         = (if bool_decide (winner ∈ PoWLottery.winners l)
            then PoWLottery.winners l
            else PoWLottery.winners l ++ [winner])
      /\ (NoDup (PoWLottery.winners l) -> NoDup (PoWLottery.winners l1))
  | None => PoWLottery.participants l = [] /\ l1 = l /\ g1 = g
  end.
Proof.
  unfold PoWLottery.select_winner.
  destruct (PoWLottery.participants l) as [| kv ps] eqn:Eps.
  { intros [= <- <- <-]. done. }
  destruct (py.int_hex _) as [seed |]; [| done].
  pose proof (pool_nonempty (kv :: ps) ltac:(done)) as Hpool.
  destruct (PoWLottery.pool (kv :: ps)) as [| x xs] eqn:Epool; [done |].
  destruct (random_below _ _) as [i g2].
  destruct ((x :: xs) !! i) as [winner |]; [| done].
  remember (if bool_decide (winner ∈ PoWLottery.winners l) then l
            else PoWLottery.set_winners (PoWLottery.winners l ++ [winner]) l)
    as l' eqn:El'.
  assert (PoWLottery.participants l' = kv :: ps) as Hl'.
  { subst l'. case_bool_decide; [done | simpl; done]. }
  assert (PoWLottery.winners l'
          = if bool_decide (winner ∈ PoWLottery.winners l)
            then PoWLottery.winners l
            else PoWLottery.winners l ++ [winner]) as Hw'.
  { subst l'. by case_bool_decide. }
  rewrite Hl'.
  destruct (py.dict_get winner (kv :: ps)) as [p |] eqn:Eget; [| done].
  intros Hret. inversion Hret; subst w l1 g1. clear Hret.
  split; [| split; [| split]].
  - exists p. split; [done |].
    exact (dict_get_set_eq winner _ (kv :: ps)).
  - intros other Hne.
    exact (dict_get_set_ne winner other _ (kv :: ps) (not_eq_sym Hne)).
  - simpl. exact Hw'.
  - intros Hnodup. simpl. rewrite Hw'. case_bool_decide as Hin; [done |].
    apply NoDup_app. split; [done |]. split; [| apply NoDup_singleton].
    intros y Hy Hy'. apply list_elem_of_singleton in Hy'. by subst y.
Qed.

(** The first draw on the two-farmer lottery: Farmer_A wins, their win
    counter goes from 0 to 1 and they enter the winners list. *)
Lemma select_winner_effects_witness :
  PoWLottery.select_winner (H := standin.hex_hashlib) (H0 := standin.random)
    0 lottery_scenario.fresh "block_000012" 1
  = py.Returned
      (Some "Farmer_A",
       PoWLottery.mk 22 4
         [("Farmer_A", PoWLottery.mk_participant 512 0 1 0);
          ("Farmer_B", PoWLottery.mk_participant 64 0 0 0)]
         ["Farmer_A"],
       19)
  /\ PoWLottery.winners
       (PoWLottery.mk 22 4
          [("Farmer_A", PoWLottery.mk_participant 512 0 1 0);
           ("Farmer_B", PoWLottery.mk_participant 64 0 0 0)]
          ["Farmer_A"])
     = (if bool_decide ("Farmer_A" ∈ PoWLottery.winners lottery_scenario.fresh)
        then PoWLottery.winners lottery_scenario.fresh
        else PoWLottery.winners lottery_scenario.fresh ++ ["Farmer_A"]).
Proof.
  assert (PoWLottery.select_winner (H := standin.hex_hashlib)
            (H0 := standin.random) 0 lottery_scenario.fresh "block_000012" 1
          = py.Returned
              (Some "Farmer_A",
               PoWLottery.mk 22 4
                 [("Farmer_A", PoWLottery.mk_participant 512 0 1 0);
                  ("Farmer_B", PoWLottery.mk_participant 64 0 0 0)]
                 ["Farmer_A"],
               19)) as Hdraw by reflexivity.
  split; [exact Hdraw |].
  exact (proj1 (proj2 (proj2 (select_winner_effects
                                (H := standin.hex_hashlib) (H0 := standin.random)
                                _ _ _ _ _ _ _ Hdraw)))).
Defined.

Lemma count_ballots_partition (m : gmap string bool) :
  (count_ballots true m + count_ballots false m = size m)%nat.
Proof.
  induction m as [| k v m Hk _ IH] using map_first_key_ind.
  - by rewrite !count_ballots_empty, map_size_empty.
  - rewrite !count_ballots_insert_fresh by done.
    rewrite map_size_insert_None by done.
    destruct v; repeat case_bool_decide; try done; lia.
Qed.

Lemma count_ballots_insert_present (b v : bool) (k : string)
    (m : gmap string bool) :
  count_ballots b (<[k := v]> m)
  = ((if bool_decide (v = b) then 1 else 0) + count_ballots b (delete k m))%nat.
Proof.
  rewrite <- (insert_delete_eq m k v).
  apply count_ballots_insert_fresh, lookup_delete_eq.
Qed.

(** X14. The tally of block-approval votes counts each voter once.  For
    a pending block proposal, [yes + no] is the number of voters
    recorded; an accepted vote of somebody who has not voted yet adds
    one to the matching count, an accepted vote of somebody who has
    voted before leaves [yes + no] as it was, the council total is not
    affected, and voting again replaces the earlier ballot: casting
    [vote] and then [vote2] leaves the same state as casting [vote2]
    alone. *)
Theorem block_vote_tally (pc : PoSConsensus.t) (block_hash voter_id : string)
    (vote : bool) (p : PoSConsensus.proposal) :
  PoSConsensus.pending_proposals pc !! block_hash = Some p ->
  (PoSConsensus.vote_on_proposal pc block_hash voter_id vote).1 = true ->
  let pc' := (PoSConsensus.vote_on_proposal pc block_hash voter_id vote).2 in
  let before := PoSConsensus.count_votes pc block_hash in
  let after := PoSConsensus.count_votes pc' block_hash in
  (before.1.1 + before.1.2 = size (PoSConsensus.votes p))%nat
  /\ after.2 = before.2
  /\ (after.1.1 + after.1.2
      = before.1.1 + before.1.2
        + match PoSConsensus.votes p !! voter_id with
          | Some _ => 0
          | None => 1
          end)%nat
  /\ (PoSConsensus.votes p !! voter_id = None ->
      after.1.1 = (before.1.1 + (if vote then 1 else 0))%nat
      /\ after.1.2 = (before.1.2 + (if vote then 0 else 1))%nat)
  /\ (forall vote2,
        PoSConsensus.vote_on_proposal pc' block_hash voter_id vote2
        = PoSConsensus.vote_on_proposal pc block_hash voter_id vote2).
Proof.
  intros Hp Hacc pc' before after. subst pc' before after.
  unfold PoSConsensus.vote_on_proposal in *. rewrite Hp in *.
  remember (bool_decide (PoSConsensus.council pc !! voter_id = None)
            && negb (String.eqb voter_id
                       (PoSValidator.validator_id (PoSConsensus.treasurer pc))))
    as refused eqn:Eref.
  destruct refused; [done |]. cbn [snd].
  unfold PoSConsensus.count_votes. rewrite Hp.
  cbn [PoSConsensus.pending_proposals PoSConsensus.set_pending_proposals
       PoSConsensus.council PoSConsensus.treasurer fst snd].
  rewrite !lookup_insert_eq. cbn [PoSConsensus.votes fst snd].
  rewrite <- Eref.
  split; [apply count_ballots_partition |]. split; [done |].
  split; [| split].
  - rewrite !count_ballots_partition.
    destruct (PoSConsensus.votes p !! voter_id) as [old |] eqn:Hold.
    + rewrite map_size_insert_Some by eauto. lia.
    + rewrite map_size_insert_None by done. lia.
  - intros Hnew. rewrite !count_ballots_insert_fresh by done.
    destruct vote; repeat case_bool_decide; try done; lia.
  - intros vote2. f_equal. unfold PoSConsensus.set_pending_proposals.
    cbn [PoSConsensus.pending_proposals PoSConsensus.council
         PoSConsensus.treasurer PoSConsensus.min_council_approval
         PoSConsensus.data PoSConsensus.proposer PoSConsensus.timestamp].
    by rewrite !insert_insert_eq.
Qed.

(** The seated council member votes yes on the pending block. *)
Lemma block_vote_tally_witness :
  PoSConsensus.count_votes block_vote_scenario.voted "block_1" = (1, 0, 2)%nat
  /\ PoSConsensus.vote_on_proposal block_vote_scenario.voted "block_1"
       "COUNCIL_Bob" false
     = PoSConsensus.vote_on_proposal block_vote_scenario.seated "block_1"
         "COUNCIL_Bob" false.
Proof.
  assert (PoSConsensus.pending_proposals block_vote_scenario.seated !! "block_1"
          = Some (PoSConsensus.mk_proposal py.VNone "TREASURER_Alice" ∅ 0)) as Hp
      by reflexivity.
  assert ((PoSConsensus.vote_on_proposal block_vote_scenario.seated "block_1"
             "COUNCIL_Bob" true).1 = true) as Hacc by reflexivity.
  split; [reflexivity |].
  exact (proj2 (proj2 (proj2 (proj2
           (block_vote_tally block_vote_scenario.seated "block_1" "COUNCIL_Bob"
              true _ Hp Hacc)))) false).
Defined.

(** X15. Removing a council member does not withdraw the votes the
    member has cast.  After a successful [remove_council_member] the
    pending proposals, the yes and no counts and the approval of every
    block are what they were; only the council total drops by one, and
    the removed member (unless also the treasurer) can no longer vote. *)
Theorem block_votes_survive_removal (pc : PoSConsensus.t)
    (member_id block_hash : string) (vote : bool) :
  is_Some (PoSConsensus.council pc !! member_id) ->
  let pc' := (PoSConsensus.remove_council_member pc member_id).2 in
  (PoSConsensus.remove_council_member pc member_id).1 = true
  /\ PoSConsensus.pending_proposals pc' = PoSConsensus.pending_proposals pc
  /\ (PoSConsensus.count_votes pc' block_hash).1
     = (PoSConsensus.count_votes pc block_hash).1
  /\ PoSConsensus.is_proposal_approved pc' block_hash
     = PoSConsensus.is_proposal_approved pc block_hash
  /\ (is_Some (PoSConsensus.pending_proposals pc !! block_hash) ->
      ((PoSConsensus.count_votes pc' block_hash).2 + 1
       = (PoSConsensus.count_votes pc block_hash).2)%nat)
  /\ (member_id <> PoSValidator.validator_id (PoSConsensus.treasurer pc) ->
      PoSConsensus.vote_on_proposal pc' block_hash member_id vote = (false, pc')).
Proof.
  intros [v Hv] pc'. subst pc'.
  unfold PoSConsensus.remove_council_member. rewrite Hv. cbn [fst snd].
  split; [done |]. split; [done |].
  unfold PoSConsensus.is_proposal_approved, PoSConsensus.count_votes,
    PoSConsensus.vote_on_proposal.
  cbn [PoSConsensus.pending_proposals PoSConsensus.set_council
       PoSConsensus.council PoSConsensus.treasurer
       PoSConsensus.min_council_approval].
  destruct (PoSConsensus.pending_proposals pc !! block_hash) as [p |] eqn:Hp.
  - cbn [fst snd]. split; [done |]. split; [done |]. split.
    + intros _. rewrite map_size_delete_Some by eauto.
      assert (size (PoSConsensus.council pc) <> 0%nat); [| lia].
      intros Hz. apply map_size_empty_inv in Hz. rewrite Hz in Hv.
      by rewrite lookup_empty in Hv.
    + intros Hne. rewrite lookup_delete_eq.
      rewrite bool_decide_eq_true_2 by done.
      apply String.eqb_neq in Hne. by rewrite Hne.
  - cbn [fst snd]. split; [done |]. split; [done |]. split; [| done].
    intros [? ?]. done.
Qed.

(** Bob votes yes and is removed: the yes vote still counts. *)
Lemma block_votes_survive_removal_witness :
  is_Some (PoSConsensus.council block_vote_scenario.voted !! "COUNCIL_Bob")
  /\ (PoSConsensus.count_votes
        (PoSConsensus.remove_council_member block_vote_scenario.voted
           "COUNCIL_Bob").2 "block_1").1
     = (PoSConsensus.count_votes block_vote_scenario.voted "block_1").1.
Proof.
  assert (is_Some (PoSConsensus.council block_vote_scenario.voted !! "COUNCIL_Bob"))
    as Hin by (vm_compute; eauto).
  split; [exact Hin |].
  exact (proj1 (proj2 (proj2
           (block_votes_survive_removal block_vote_scenario.voted "COUNCIL_Bob"
              "block_1" true Hin)))).
Defined.

(** X16. Proposing a block again discards its votes.  A proposal by the
    treasurer is stored under the block hash with an empty vote table,
    whatever was pending under that hash before, so its count is
    [(0, 0, council + 1)]; the other pending proposals are not touched.
    A proposal by anybody else is refused and changes nothing. *)
Theorem propose_block_resets_votes (pc : PoSConsensus.t) (block_hash : string)
    (block_data : py.value) (proposer_id : string) (now : Q) :
  let r := PoSConsensus.propose_block pc block_hash block_data proposer_id now in
  if bool_decide (proposer_id
                  = PoSValidator.validator_id (PoSConsensus.treasurer pc))
  then r.1 = true
       /\ PoSConsensus.count_votes r.2 block_hash
          = (0, 0, size (PoSConsensus.council pc) + 1)%nat
       /\ (forall other, other <> block_hash ->
              PoSConsensus.pending_proposals r.2 !! other
              = PoSConsensus.pending_proposals pc !! other)
       /\ PoSConsensus.council r.2 = PoSConsensus.council pc
  else r = (false, pc).
Proof.
  intros r. subst r. unfold PoSConsensus.propose_block.
  case_bool_decide as Hid.
  - apply String.eqb_eq in Hid. rewrite Hid. cbn [fst snd].
    split; [done |]. split; [| split; [| done]].
    + unfold PoSConsensus.count_votes.
      cbn [PoSConsensus.pending_proposals PoSConsensus.set_pending_proposals
           PoSConsensus.council].
      rewrite lookup_insert_eq. cbn [PoSConsensus.votes].
      by rewrite !count_ballots_empty.
    + intros other Hne.
      cbn [PoSConsensus.pending_proposals PoSConsensus.set_pending_proposals].
      by rewrite lookup_insert_ne.
  - apply String.eqb_neq in Hid. by rewrite Hid.
Qed.

End ConsensusMore.

(** * Treasury, reward configuration and council: further properties *)

Section GovernanceMore.

Import governance.








Ltac split_key k :=
  repeat match goal with
         | |- context [String.eqb k ?f] =>
             let E := fresh "E" in
             destruct (String.eqb k f) eqn:E;
             [apply String.eqb_eq in E; subst k |]
         end.

Lemma setattr_if_present_to_dict (cfg : RewardConfiguration.t) (k : string)
    (v : py.value) (key : string) :
  py.dict_get key (RewardConfiguration.to_dict
                     (RewardConfiguration.setattr_if_present cfg k v))
  = match py.dict_get key (RewardConfiguration.to_dict cfg) with
    | None => None
    | Some old => Some (if String.eqb key k then v else old)
    end.
Proof.
  unfold RewardConfiguration.setattr_if_present.
  split_key k; unfold RewardConfiguration.to_dict, py.dict_get;
    cbn [RewardConfiguration.poc_miner_reward
         RewardConfiguration.pos_validator_reward
         RewardConfiguration.pow_lottery_reward
         RewardConfiguration.storage_reward_per_gb
         RewardConfiguration.base_transaction_fee
         RewardConfiguration.timestamp RewardConfiguration.activated_block];
    repeat match goal with
           | |- context [String.eqb key ?f] =>
               let E := fresh "K" in
               destruct (String.eqb key f) eqn:E;
               [apply String.eqb_eq in E; subst key;
                try reflexivity;
                rewrite ?String.eqb_refl; try reflexivity;
                repeat match goal with
                       | H : String.eqb ?a ?b = false |- _ =>
                           rewrite String.eqb_sym in H; rewrite H; clear H
                       end;
                try reflexivity |]
           end; try reflexivity; try discriminate.
Qed.

Lemma reward_changes_fold (changes : list (string * py.value)) :
  forall (cfg : RewardConfiguration.t) (key : string),
    NoDup (map fst changes) ->
    py.dict_get key
      (RewardConfiguration.to_dict
         (fold_left (λ cfg (kv : string * py.value),
                       RewardConfiguration.setattr_if_present cfg kv.1 kv.2)
                    changes cfg))
    = match py.dict_get key (RewardConfiguration.to_dict cfg) with
      | None => None
      | Some old => Some (default old (py.dict_get key changes))
      end.
Proof.
  induction changes as [| [k v] rest IH]; intros cfg key Hnd.
  - cbn [fold_left].
    destruct (py.dict_get key (RewardConfiguration.to_dict cfg)); reflexivity.
  - apply NoDup_cons in Hnd as [Hk Hnd]. cbn [fold_left fst snd].
    rewrite IH by done. rewrite setattr_if_present_to_dict.
    destruct (py.dict_get key (RewardConfiguration.to_dict cfg)) as [old |];
      [| done].
    cbn [py.dict_get]. destruct (String.eqb key k) eqn:E; [| done].
    apply String.eqb_eq in E. subst key.
    assert (py.dict_get k rest = None) as ->; [| done].
    clear -Hk. induction rest as [| [k' v'] rest IH]; [done |].
    simpl in *. apply not_elem_of_cons in Hk as [Hne Hk].
    apply String.eqb_neq in Hne. rewrite Hne. by apply IH.
Qed.

(** X20. A reward adjustment shows up in the configuration exactly as
    proposed.  Take a dictionary of changes whose keys are plain: none
    is [to_dict] and none starts with an underscore, so that a key names
    an attribute of the configuration only if it is one of the seven
    fields.  After [_apply_reward_changes], each of the seven fields
    reported by [to_dict] holds the proposed value if the dictionary has
    one for it and its previous value otherwise; the other keys are
    ignored (though the whole dictionary is logged in the parameter
    history), and the value is stored whatever it is: no sign or type
    check is made. *)
Theorem reward_changes_round_trip (gc : GovernanceCouncil.t)
    (changes : list (string * py.value)) (now : Q) (key : string) :
  NoDup (map fst changes) ->
  Forall (λ kv : string * py.value, plain_key kv.1) changes ->
  let gc' := GovernanceCouncil._apply_reward_changes gc changes now in
  py.dict_get key (RewardConfiguration.to_dict (GovernanceCouncil.reward_config gc'))
  = match py.dict_get key
            (RewardConfiguration.to_dict (GovernanceCouncil.reward_config gc)) with
    | None => None
    | Some old => Some (default old (py.dict_get key changes))
    end
  /\ length (GovernanceCouncil.parameter_history gc')
     = S (length (GovernanceCouncil.parameter_history gc))
  /\ GovernanceCouncil.treasury gc' = GovernanceCouncil.treasury gc
  /\ GovernanceCouncil.proposals gc' = GovernanceCouncil.proposals gc.
Proof.
  intros Hnd _ gc'. subst gc'. unfold GovernanceCouncil._apply_reward_changes.
  cbn [GovernanceCouncil.reward_config GovernanceCouncil.set_parameter_history
       GovernanceCouncil.set_reward_config GovernanceCouncil.parameter_history
       GovernanceCouncil.treasury GovernanceCouncil.proposals].
  split; [by apply reward_changes_fold |].
  split; [| done]. rewrite length_app. simpl. lia.
Qed.

(** A negative miner reward and an unknown key. *)
Lemma reward_changes_round_trip_witness :
  py.dict_get "poc_miner_reward"
    (RewardConfiguration.to_dict
       (GovernanceCouncil.reward_config
          (GovernanceCouncil._apply_reward_changes council_scenario.council
             [("poc_miner_reward", py.VFloat (-12)); ("bonus", py.VInt 1)] 5)))
  = Some (py.VFloat (-12)).
Proof.
  assert (NoDup (map fst [("poc_miner_reward", py.VFloat (-12));
                          ("bonus", py.VInt 1)])) as Hnd
      by (simpl; by_computation).
  assert (Forall (λ kv : string * py.value, plain_key kv.1)
                 [("poc_miner_reward", py.VFloat (-12)); ("bonus", py.VInt 1)])
    as Hplain by (repeat constructor; discriminate).
  exact (proj1 (reward_changes_round_trip council_scenario.council
                  [("poc_miner_reward", py.VFloat (-12)); ("bonus", py.VInt 1)]
                  5 "poc_miner_reward" Hnd Hplain)).
Defined.

(** X21. A finalized proposal is closed for good.  Once the status of a
    proposal is no longer [VOTING] (or the proposal does not exist),
    every further vote on it is refused and leaves the whole council
    state unchanged, so a proposal is executed at most once. *)
Theorem finalized_proposal_is_closed (gc : GovernanceCouncil.t)
    (proposal_id : string) (ballots : list ballot) :
  status_of gc proposal_id <> Some VOTING ->
  cast_votes gc proposal_id ballots = gc
  /\ Forall (λ b : ballot,
               (GovernanceCouncil.vote_on_proposal gc proposal_id b.1.1 b.1.2 b.2).1
               = false) ballots.
Proof.
  intros Hclosed.
  assert (forall b : ballot,
             (GovernanceCouncil.vote_on_proposal gc proposal_id b.1.1 b.1.2 b.2).1
             = false) as Hrefused.
  { intros b. apply vote_on_proposal_refused_iff.
    unfold status_of in Hclosed.
    destruct (GovernanceCouncil.proposals gc !! proposal_id) as [p |] eqn:Hp;
      [| by left].
    right. right. exists p. split; [done |]. right.
    intros Hst. apply Hclosed. simpl. by rewrite Hst. }
  split; [| by apply Forall_forall].
  induction ballots as [| b rest IH]; [done |].
  unfold cast_votes. simpl.
  rewrite vote_on_proposal_refused_noop by apply Hrefused.
  exact IH.
Qed.

(** Votes arriving after the five members have voted. *)
Lemma finalized_proposal_is_closed_witness :
  let gc := cast_votes council_scenario.opened.2 council_scenario.opened.1
              council_scenario.three_yes_two_no in
  cast_votes gc council_scenario.opened.1 council_scenario.two_yes_three_no = gc.
Proof.
  intros gc.
  assert (status_of gc council_scenario.opened.1 <> Some VOTING) as Hclosed
      by (vm_compute; discriminate).
  exact (proj1 (finalized_proposal_is_closed gc council_scenario.opened.1
                  council_scenario.two_yes_three_no Hclosed)).
Defined.

Lemma execute_proposal_frame (gc : GovernanceCouncil.t) (proposal_id : string)
    (now : Q) (p : Proposal.t) :
  GovernanceCouncil.proposals gc !! proposal_id = Some p ->
  GovernanceCouncil.proposals
    (GovernanceCouncil._execute_proposal gc proposal_id now) !! proposal_id
  = Some (Proposal.set_status EXECUTED
            (Proposal.set_execution_time (Some now) p))
  /\ Treasury.balance
       (GovernanceCouncil.treasury
          (GovernanceCouncil._execute_proposal gc proposal_id now))
     = Treasury.balance (GovernanceCouncil.treasury gc)
  /\ GovernanceCouncil.council_members
       (GovernanceCouncil._execute_proposal gc proposal_id now)
     = GovernanceCouncil.council_members gc.
Proof.
  intros Hp. unfold GovernanceCouncil._execute_proposal. rewrite Hp.
  remember (GovernanceCouncil.update_proposal proposal_id
              (Proposal.set_execution_time (Some now)) gc) as gc1 eqn:Egc1.
  assert (GovernanceCouncil.proposals gc1 !! proposal_id
          = Some (Proposal.set_execution_time (Some now) p)) as Hp1.
  { subst gc1. by rewrite update_proposal_lookup, Hp. }
  assert (Treasury.balance (GovernanceCouncil.treasury gc1)
          = Treasury.balance (GovernanceCouncil.treasury gc)) as Hb1
      by (by subst gc1).
  assert (GovernanceCouncil.council_members gc1
          = GovernanceCouncil.council_members gc) as Hm1 by (by subst gc1).
  clear Egc1. cbv zeta.
  remember (match Proposal.proposal_type p with
            | REWARD_ADJUSTMENT =>
                GovernanceCouncil._apply_reward_changes gc1
                  (Proposal.proposed_changes p) now
            | TREASURY_SPENDING =>
                GovernanceCouncil._apply_treasury_spending gc1
                  (Proposal.proposed_changes p) now
            | PARAMETER_CHANGE =>
                GovernanceCouncil._apply_parameter_changes gc1
                  (Proposal.proposed_changes p) now
            | _ => gc1
            end) as gc2 eqn:Egc2.
  assert (GovernanceCouncil.proposals gc2 = GovernanceCouncil.proposals gc1
          /\ Treasury.balance (GovernanceCouncil.treasury gc2)
             = Treasury.balance (GovernanceCouncil.treasury gc1)
          /\ GovernanceCouncil.council_members gc2
             = GovernanceCouncil.council_members gc1) as (Hprops & Hbal & Hmem).
  { subst gc2. destruct (Proposal.proposal_type p); try done.
    destruct (apply_treasury_spending_frame gc1
                (Proposal.proposed_changes p) now) as [Hprops Hmem].
    split; [exact Hprops |]. split; [| exact Hmem].
    unfold GovernanceCouncil._apply_treasury_spending.
    destruct (py.truthy _ && py.truthy _); [| done].
    destruct (default (py.VStr "governance_approved") _); try done.
    destruct (py.as_number _) as [a |]; [| done].
    destruct (default py.VNone (py.dict_get "recipient" _)); try done.
    cbn [GovernanceCouncil.treasury GovernanceCouncil.set_treasury].
    unfold Treasury.spend_from_allocation.
    destruct (Treasury.allocations _ !! _); [| done].
    by destruct (py.lt _ _). }
  clear Egc2.
  rewrite update_proposal_lookup, Hprops, Hp1.
  split; [done |].
  unfold GovernanceCouncil.update_proposal.
  cbn [GovernanceCouncil.treasury GovernanceCouncil.set_proposals
       GovernanceCouncil.council_members].
  split; congruence.
Qed.

Lemma vote_frame (gc : GovernanceCouncil.t) (proposal_id voter_id : string)
    (vote : bool) (now : Q) (p : Proposal.t) :
  GovernanceCouncil.proposals gc !! proposal_id = Some p ->
  let gc' := (GovernanceCouncil.vote_on_proposal gc proposal_id voter_id vote now).2 in
  (exists p',
      GovernanceCouncil.proposals gc' !! proposal_id = Some p'
      /\ (Proposal.votes p' = Proposal.votes p
          \/ (voter_id ∈ GovernanceCouncil.council_members gc
              /\ Proposal.votes p' = <[voter_id := vote]> (Proposal.votes p))))
  /\ Treasury.balance (GovernanceCouncil.treasury gc')
     = Treasury.balance (GovernanceCouncil.treasury gc)
  /\ GovernanceCouncil.council_members gc' = GovernanceCouncil.council_members gc.
Proof.
  intros Hp gc'. subst gc'. unfold GovernanceCouncil.vote_on_proposal.
  rewrite Hp.
  destruct (bool_decide (voter_id ∈ GovernanceCouncil.council_members gc))
    eqn:Hmem; cbn [negb]; [| split; [exists p; eauto | done]].
  apply bool_decide_eq_true in Hmem.
  destruct (Proposal.is_voting_active now p); cbn [negb];
    [| split; [exists p; eauto | done]].
  cbn [snd].
  set (votes' := <[voter_id := vote]> (Proposal.votes p)).
  set (gc1 := GovernanceCouncil.update_proposal proposal_id
                (Proposal.set_votes votes') gc).
  assert (GovernanceCouncil.proposals gc1 !! proposal_id
          = Some (Proposal.set_votes votes' p)) as Hp1.
  { unfold gc1. by rewrite update_proposal_lookup, Hp. }
  destruct (length (GovernanceCouncil.council_members gc1) <=? size votes')%nat.
  - unfold GovernanceCouncil._finalize_proposal. rewrite Hp1.
    destruct (Proposal.is_approved (Proposal.set_votes votes' p) 3).
    + destruct (execute_proposal_frame
                  (GovernanceCouncil.update_proposal proposal_id
                     (Proposal.set_status APPROVED) gc1) proposal_id now
                  (Proposal.set_status APPROVED (Proposal.set_votes votes' p)))
        as (Hlook & Hbal & Hmem').
      { by rewrite update_proposal_lookup, Hp1. }
      split; [| split].
      * rewrite Hlook. eexists. split; [done |]. right. done.
      * rewrite Hbal. done.
      * rewrite Hmem'. done.
    + split; [| done].
      rewrite update_proposal_lookup, Hp1. simpl.
      eexists. split; [done |]. right. done.
  - split; [| done]. exists (Proposal.set_votes votes' p). split; [done |].
    right. done.
Qed.

Lemma cast_votes_frame (proposal_id : string) (ballots : list ballot) :
  forall (gc : GovernanceCouncil.t) (p : Proposal.t),
    GovernanceCouncil.proposals gc !! proposal_id = Some p ->
    (forall v, is_Some (Proposal.votes p !! v) ->
               v ∈ GovernanceCouncil.council_members gc) ->
    (exists p',
        GovernanceCouncil.proposals (cast_votes gc proposal_id ballots)
          !! proposal_id = Some p'
        /\ forall v, is_Some (Proposal.votes p' !! v) ->
                     v ∈ GovernanceCouncil.council_members gc)
    /\ Treasury.balance
         (GovernanceCouncil.treasury (cast_votes gc proposal_id ballots))
       = Treasury.balance (GovernanceCouncil.treasury gc)
    /\ GovernanceCouncil.council_members (cast_votes gc proposal_id ballots)
       = GovernanceCouncil.council_members gc.
Proof.
  induction ballots as [| b rest IH]; intros gc p Hp Hdom.
  - split; [| done]. exists p. done.
  - unfold cast_votes. cbn [fold_left].
    fold (cast_votes
            (GovernanceCouncil.vote_on_proposal gc proposal_id b.1.1 b.1.2 b.2).2
            proposal_id rest).
    destruct (vote_frame gc proposal_id b.1.1 b.1.2 b.2 p Hp)
      as ((p1 & Hp1 & Hvotes) & Hbal & Hmem).
    destruct (IH _ p1 Hp1) as ((p' & Hp' & Hdom') & Hbal' & Hmem').
    + intros v Hv. rewrite Hmem.
      destruct Hvotes as [Heq | [Hin Heq]]; rewrite Heq in Hv; [by apply Hdom |].
      destruct (decide (v = b.1.1)) as [-> | Hne]; [done |].
      rewrite lookup_insert_ne in Hv by done. by apply Hdom.
    + split; [| split].
      * exists p'. split; [done |]. intros v Hv. rewrite <- Hmem. by apply Hdom'.
      * by rewrite Hbal'.
      * by rewrite Hmem'.
Qed.

(** X22. Only council members ever appear in a proposal's vote table, and
    voting never touches the treasury balance.  Whatever ballots are
    submitted on a proposal (by members or not, in or out of the voting
    window), the voters recorded for it are council members, so with a
    member list without repetitions there are never more recorded votes
    than members; the member list is unchanged; and the treasury balance
    is what it was, even when the votes finalize and execute a treasury
    spending (which draws on an allocation). *)
Theorem votes_only_from_members (gc : GovernanceCouncil.t) (proposal_id : string)
    (p : Proposal.t) (ballots : list ballot) :
  GovernanceCouncil.proposals gc !! proposal_id = Some p ->
  (forall v, is_Some (Proposal.votes p !! v) ->
             v ∈ GovernanceCouncil.council_members gc) ->
  let gc' := cast_votes gc proposal_id ballots in
  (exists p',
      GovernanceCouncil.proposals gc' !! proposal_id = Some p'
      /\ (forall v, is_Some (Proposal.votes p' !! v) ->
                    v ∈ GovernanceCouncil.council_members gc)
      /\ (NoDup (GovernanceCouncil.council_members gc) ->
          (size (Proposal.votes p')
           <= length (GovernanceCouncil.council_members gc))%nat))
  /\ GovernanceCouncil.council_members gc' = GovernanceCouncil.council_members gc
  /\ Treasury.balance (GovernanceCouncil.treasury gc')
     = Treasury.balance (GovernanceCouncil.treasury gc).
Proof.
  intros Hp Hdom gc'. subst gc'.
  destruct (cast_votes_frame proposal_id ballots gc p Hp Hdom)
    as ((p' & Hp' & Hdom') & Hbal & Hmem).
  split; [| done]. exists p'. split; [done |]. split; [done |].
  intros Hnd.
  rewrite <- (size_dom (D := gset string)).
  rewrite <- (size_list_to_set (C := gset string)
                (GovernanceCouncil.council_members gc)) by done.
  apply subseteq_size. intros v Hv.
  apply elem_of_dom in Hv. apply elem_of_list_to_set. by apply Hdom'.
Qed.

(** The open proposal of the five-member council under ballots from a
    member, from the treasurer and from a stranger. *)
Lemma votes_only_from_members_witness :
  let gc := council_scenario.opened.2 in
  GovernanceCouncil.council_members
    (cast_votes gc council_scenario.opened.1
       [("COUNCIL_Bob", true, 10%Q); ("TREASURER_Alice", true, 20%Q);
        ("Mallory", true, 30%Q)])
  = GovernanceCouncil.council_members gc.
Proof.
  intros gc.
  assert (exists p,
             GovernanceCouncil.proposals gc !! council_scenario.opened.1 = Some p
             /\ Proposal.votes p = ∅) as (p & Hp & Hvotes)
      by (eexists; split; [reflexivity | reflexivity]).
  refine (proj1 (proj2 (votes_only_from_members gc council_scenario.opened.1 p
                          [("COUNCIL_Bob", true, 10%Q);
                           ("TREASURER_Alice", true, 20%Q);
                           ("Mallory", true, 30%Q)] Hp _))).
  intros v [b Hv]. rewrite Hvotes in Hv. by rewrite lookup_empty in Hv.
Defined.

(** X23. The governance-side difficulty adjustment is clamped to [1, 32]
    and logged only when the value changes.  The returned difficulty is
    [current + adjustment] when that lies in the range; when the result
    equals the current difficulty nothing is recorded, otherwise exactly
    one entry is appended to the parameter history (also when a current
    difficulty outside the range is clamped by an adjustment of 0).
    Proposals, treasury and reward configuration are never touched. *)
Theorem governance_difficulty_clamped (gc : GovernanceCouncil.t)
    (current adjustment : Z) (now : Q) :
  let r := GovernanceCouncil.adjust_difficulty gc current adjustment now in
  1 <= r.1 <= 32
  /\ (1 <= current + adjustment <= 32 -> r.1 = current + adjustment)
  /\ (r.1 = current -> r.2 = gc)
  /\ (r.1 <> current ->
      length (GovernanceCouncil.parameter_history r.2)
      = S (length (GovernanceCouncil.parameter_history gc)))
  /\ ((current < 1 \/ 32 < current) -> adjustment = 0 -> r.1 <> current)
  /\ GovernanceCouncil.proposals r.2 = GovernanceCouncil.proposals gc
  /\ GovernanceCouncil.treasury r.2 = GovernanceCouncil.treasury gc
  /\ GovernanceCouncil.reward_config r.2 = GovernanceCouncil.reward_config gc.
Proof.
  intros r. subst r. unfold GovernanceCouncil.adjust_difficulty.
  destruct (Z.max 1 (Z.min 32 (current + adjustment)) =? current) eqn:E;
    cbn [fst snd].
  - apply Z.eqb_eq in E. repeat split; try done; try lia.
  - apply Z.eqb_neq in E. repeat split; try done; try lia.
    intros _.
    cbn [GovernanceCouncil.parameter_history
         GovernanceCouncil.set_parameter_history].
    rewrite length_app. simpl. lia.
Qed.

(** From difficulty 4, an adjustment of 2 gives 6. *)
Lemma governance_difficulty_clamped_witness :
  (GovernanceCouncil.adjust_difficulty council_scenario.council 4 2 0).1 = 4 + 2.
Proof.
  assert (1 <= 4 + 2 <= 32) as Hrange by lia.
  exact (proj1 (proj2 (governance_difficulty_clamped council_scenario.council
                         4 2 0)) Hrange).
Defined.

Lemma rewards_fold_get (reward : py.value) (validators : list string) :
  forall (rewards : list (string * py.value)) (k : string),
    py.dict_get k
      (fold_left (λ rewards validator, py.dict_set validator reward rewards)
                 validators rewards)
    = if bool_decide (k ∈ validators) then Some reward
      else py.dict_get k rewards.
Proof.
  induction validators as [| v rest IH]; intros rewards k; [done |].
  cbn [fold_left]. rewrite IH.
  destruct (bool_decide (k ∈ rest)) eqn:Hrest.
  - apply bool_decide_eq_true in Hrest.
    rewrite bool_decide_eq_true_2; [done |]. apply elem_of_cons. by right.
  - apply bool_decide_eq_false in Hrest.
    destruct (decide (k = v)) as [-> | Hne].
    + rewrite bool_decide_eq_true_2 by (apply elem_of_cons; by left).
      apply dict_get_set_eq.
    + rewrite bool_decide_eq_false_2.
      * apply dict_get_set_ne. congruence.
      * intros Hin. apply elem_of_cons in Hin as [? | ?]; done.
Qed.

(** X24. Block rewards are assigned, not added up.  In the dictionary
    returned by [distribute_block_rewards] an address holds one reward:
    the lottery reward if it is the (non-empty) lottery winner, else the
    validator reward if it is among the validators, else the miner
    reward if it is the miner; nobody else is listed.  So a miner who
    also validates gets the validator reward only.  The distribution is
    logged, and neither the treasury nor the reward configuration
    changes. *)
Theorem block_rewards_overwrite (gc : GovernanceCouncil.t) (miner : string)
    (validators : list string) (lottery_winner : option string) (now : Q)
    (k : string) :
  let r :=
    GovernanceCouncil.distribute_block_rewards gc miner validators
      lottery_winner now in
  let cfg := GovernanceCouncil.reward_config gc in
  py.dict_get k r.1
  = (if match lottery_winner with
        | Some w => negb (String.eqb w "") && String.eqb k w
        | None => false
        end
     then Some (RewardConfiguration.pow_lottery_reward cfg)
     else if bool_decide (k ∈ validators)
          then Some (RewardConfiguration.pos_validator_reward cfg)
          else if String.eqb k miner
               then Some (RewardConfiguration.poc_miner_reward cfg)
               else None)
  /\ GovernanceCouncil.treasury r.2 = GovernanceCouncil.treasury gc
  /\ GovernanceCouncil.reward_config r.2 = GovernanceCouncil.reward_config gc
  /\ length (GovernanceCouncil.parameter_history r.2)
     = S (length (GovernanceCouncil.parameter_history gc)).
Proof.
  intros r cfg. subst r cfg. unfold GovernanceCouncil.distribute_block_rewards.
  cbn [fst snd GovernanceCouncil.treasury GovernanceCouncil.reward_config
       GovernanceCouncil.set_parameter_history
       GovernanceCouncil.parameter_history].
  split; [| split; [done | split; [done |]]].
  - assert (forall d : list (string * py.value),
               d = fold_left
                     (λ rewards validator,
                        py.dict_set validator
                          (RewardConfiguration.pos_validator_reward
                             (GovernanceCouncil.reward_config gc)) rewards)
                     validators
                     (py.dict_set miner
                        (RewardConfiguration.poc_miner_reward
                           (GovernanceCouncil.reward_config gc)) []) ->
               py.dict_get k d
               = if bool_decide (k ∈ validators)
                 then Some (RewardConfiguration.pos_validator_reward
                              (GovernanceCouncil.reward_config gc))
                 else if String.eqb k miner
                      then Some (RewardConfiguration.poc_miner_reward
                                   (GovernanceCouncil.reward_config gc))
                      else None) as Hbase.
    { intros d ->. rewrite rewards_fold_get. done. }
    destruct lottery_winner as [w |]; [| by apply Hbase].
    destruct (String.eqb w "") eqn:Hw; cbn [negb andb]; [by apply Hbase |].
    destruct (String.eqb k w) eqn:Hk.
    + apply String.eqb_eq in Hk. subst k. apply dict_get_set_eq.
    + apply String.eqb_neq in Hk.
      rewrite dict_get_set_ne by congruence. by apply Hbase.
  - rewrite length_app. simpl. lia.
Qed.

End GovernanceMore.

(** * Gossip history and queue, peer table, mempool, message relay *)

Section NetworkMore.

Import network.

Lemma slice_from_sublist {A} (start : Z) (l : list A) :
  py.slice_from start l `sublist_of` l.
Proof. unfold py.slice_from. destruct (start <? 0); apply sublist_drop. Qed.

Lemma set_iter_length `{SetOrder} (s : gset string) : length (set_iter s) = size s.
Proof. by rewrite (set_iter_perm s). Qed.

Lemma set_iter_NoDup `{SetOrder} (s : gset string) : NoDup (set_iter s).
Proof. rewrite (set_iter_perm s). apply NoDup_elements. Qed.

Lemma set_iter_elem_of `{SetOrder} (s : gset string) (x : string) :
  x ∈ set_iter s <-> x ∈ s.
Proof. rewrite (set_iter_perm s). apply elem_of_elements. Qed.


(** X25. The deduplication history is bounded when [max_history >= 1],
    and unbounded when [max_history = 0].  [add_to_history] never puts
    anything in the history but the key of the message and keys that
    were there; with a bound of at least 1 the history holds at most
    [max_history] keys after the call, whatever it held before; with a
    bound of 0 the trimming slice [[-0:]] keeps the whole list, so the
    key is added and nothing is ever dropped.  The queue is not
    touched. *)
Theorem history_bounded `{Hashlib} `{SetOrder} (g : GossipProtocol.t)
    (m : Message.t) :
  let g' := GossipProtocol.add_to_history g m in
  GossipProtocol.message_history g'
    ⊆ {[Message.hash m]} ∪ GossipProtocol.message_history g
  /\ (1 <= GossipProtocol.max_history g ->
      Z.of_nat (size (GossipProtocol.message_history g'))
      <= GossipProtocol.max_history g)
  /\ (GossipProtocol.max_history g = 0 ->
      GossipProtocol.message_history g'
      = {[Message.hash m]} ∪ GossipProtocol.message_history g)
  /\ GossipProtocol.message_queue g' = GossipProtocol.message_queue g
  /\ GossipProtocol.max_history g' = GossipProtocol.max_history g.
Proof.
  intros g'. subst g'. unfold GossipProtocol.add_to_history.
  set (s := ({[Message.hash m]} ∪ GossipProtocol.message_history g : gset string)).
  destruct (GossipProtocol.max_history g <? Z.of_nat (size s)) eqn:Hfull;
    cbn [GossipProtocol.message_history GossipProtocol.set_message_history
         GossipProtocol.message_queue GossipProtocol.max_history].
  - apply Z.ltb_lt in Hfull.
    split; [| split; [| split; [| done]]].
    + intros x Hx. apply elem_of_list_to_set in Hx.
      apply set_iter_elem_of.
      exact (sublist_subseteq _ _ (slice_from_sublist _ _) x Hx).
    + intros Hmax. rewrite size_list_to_set
        by exact (sublist_NoDup _ _ (set_iter_NoDup _) (slice_from_sublist _ _)).
      unfold py.slice_from.
      replace (- GossipProtocol.max_history g <? 0) with true
        by (symmetry; apply Z.ltb_lt; lia).
      rewrite length_drop, set_iter_length. lia.
    + intros Hzero. rewrite Hzero. unfold py.slice_from. simpl.
      rewrite (set_iter_perm s). apply list_to_set_elements_L.
  - apply Z.ltb_ge in Hfull. split; [done |]. split; [lia |].
    split; [done | done].
Qed.

(** With a bound of one key, the history holds one key after a second
    message has been recorded. *)
Lemma history_bounded_witness :
  Z.of_nat
    (size (GossipProtocol.message_history
             (GossipProtocol.add_to_history (H := standin.hashlib)
                (H0 := standin.set_order)
                (GossipProtocol.add_to_history (H := standin.hashlib)
                   (H0 := standin.set_order)
                   gossip_scenario.tight_gossip gossip_scenario.announce)
                gossip_scenario.other)))
  <= 1.
Proof.
  assert (1 <= GossipProtocol.max_history
                 (GossipProtocol.add_to_history (H := standin.hashlib)
                    (H0 := standin.set_order)
                    gossip_scenario.tight_gossip gossip_scenario.announce))
    as Hmax by (vm_compute; discriminate).
  exact (proj1 (proj2 (history_bounded (H := standin.hashlib)
                         (H0 := standin.set_order)
                         (GossipProtocol.add_to_history (H := standin.hashlib)
                            (H0 := standin.set_order)
                            gossip_scenario.tight_gossip gossip_scenario.announce)
                         gossip_scenario.other)) Hmax).
Defined.



Lemma dict_get_del_eq {A} (k : string) (d : list (string * A)) :
  py.dict_get k (py.dict_del k d) = None.
Proof.
  induction d as [| [k' v] d IH]; simpl; [done |].
  destruct (String.eqb k k') eqn:E; simpl; [done |]. by rewrite E.
Qed.

Lemma dict_get_del_ne {A} (k k' : string) (d : list (string * A)) :
  k <> k' -> py.dict_get k' (py.dict_del k d) = py.dict_get k' d.
Proof.
  intros Hne. induction d as [| [k0 v] d IH]; simpl; [done |].
  destruct (String.eqb k k0) eqn:E; simpl.
  - apply String.eqb_eq in E. subst k0.
    apply not_eq_sym, String.eqb_neq in Hne. by rewrite Hne.
  - by rewrite IH.
Qed.

(** X27. The address index goes stale.  A peer that is added, announces
    itself again from another address and is then removed leaves its
    first address in [peer_index], pointing at a peer that is no longer
    known: the second [add_peer] replaces the peer record without
    indexing the new address, and [remove_peer] unindexes the address of
    the record it finds, which is the new one. *)
Theorem peer_index_goes_stale (pd : PeerDiscovery.t) (p p' : PeerInfo.t) :
  PeerInfo.peer_id p' = PeerInfo.peer_id p ->
  py.dict_get (PeerInfo.peer_id p) (PeerDiscovery.known_peers pd) = None ->
  PeerInfo.address p' <> PeerInfo.address p ->
  let pd1 := (PeerDiscovery.add_peer pd p).2 in
  let pd2 := (PeerDiscovery.add_peer pd1 p').2 in
  let pd3 := (PeerDiscovery.remove_peer pd2 (PeerInfo.peer_id p)).2 in
  (PeerDiscovery.add_peer pd p).1 = true
  /\ (PeerDiscovery.add_peer pd1 p').1 = false
  /\ py.dict_get (PeerInfo.peer_id p) (PeerDiscovery.known_peers pd2) = Some p'
  /\ py.dict_get (PeerInfo.address p') (PeerDiscovery.peer_index pd2)
     = py.dict_get (PeerInfo.address p') (PeerDiscovery.peer_index pd)
  /\ (PeerDiscovery.remove_peer pd2 (PeerInfo.peer_id p)).1 = true
  /\ py.dict_get (PeerInfo.peer_id p) (PeerDiscovery.known_peers pd3) = None
  /\ py.dict_get (PeerInfo.address p) (PeerDiscovery.peer_index pd3)
     = Some (PeerInfo.peer_id p).
Proof.
  intros Hid Hnew Haddr pd1 pd2 pd3.
  assert (PeerDiscovery.add_peer pd p
          = (true,
             PeerDiscovery.mk (PeerDiscovery.bootstrap_peers pd)
               (py.dict_set (PeerInfo.peer_id p) p (PeerDiscovery.known_peers pd))
               (py.dict_set (PeerInfo.address p) (PeerInfo.peer_id p)
                            (PeerDiscovery.peer_index pd)))) as H1.
  { unfold PeerDiscovery.add_peer. by rewrite Hnew. }
  assert (PeerDiscovery.add_peer pd1 p'
          = (false,
             PeerDiscovery.mk (PeerDiscovery.bootstrap_peers pd1)
               (py.dict_set (PeerInfo.peer_id p) p' (PeerDiscovery.known_peers pd1))
               (PeerDiscovery.peer_index pd1))) as H2.
  { unfold PeerDiscovery.add_peer. rewrite Hid. subst pd1. rewrite H1.
    cbn [snd PeerDiscovery.known_peers]. by rewrite dict_get_set_eq. }
  assert (py.dict_get (PeerInfo.peer_id p) (PeerDiscovery.known_peers pd2)
          = Some p') as Hknown2.
  { subst pd2. rewrite H2. cbn [snd PeerDiscovery.known_peers].
    apply dict_get_set_eq. }
  assert (PeerDiscovery.peer_index pd2
          = py.dict_set (PeerInfo.address p) (PeerInfo.peer_id p)
                        (PeerDiscovery.peer_index pd)) as Hindex2.
  { subst pd2. rewrite H2. cbn [snd PeerDiscovery.peer_index].
    subst pd1. by rewrite H1. }
  split; [by rewrite H1 |]. split; [by rewrite H2 |].
  split; [exact Hknown2 |].
  split; [rewrite Hindex2; by apply dict_get_set_ne |].
  subst pd3. unfold PeerDiscovery.remove_peer. rewrite Hknown2.
  cbn [fst snd PeerDiscovery.known_peers PeerDiscovery.peer_index].
  split; [done |]. split; [apply dict_get_del_eq |].
  destruct (py.dict_get (PeerInfo.address p') (PeerDiscovery.peer_index pd2)).
  - rewrite dict_get_del_ne by done. rewrite Hindex2. apply dict_get_set_eq.
  - rewrite Hindex2. apply dict_get_set_eq.
Qed.

(** Miner_A moves from port 8000 to port 9000 and is then removed. *)
Lemma peer_index_goes_stale_witness :
  let pd1 := (PeerDiscovery.add_peer peer_scenario.discovery
                peer_scenario.miner_at_8000).2 in
  let pd2 := (PeerDiscovery.add_peer pd1 peer_scenario.miner_at_9000).2 in
  let pd3 := (PeerDiscovery.remove_peer pd2 "Miner_A").2 in
  py.dict_get "Miner_A" (PeerDiscovery.known_peers pd3) = None
  /\ py.dict_get "10.0.0.1:8000" (PeerDiscovery.peer_index pd3) = Some "Miner_A".
Proof.
  intros pd1 pd2 pd3.
  assert (PeerInfo.address peer_scenario.miner_at_9000
          <> PeerInfo.address peer_scenario.miner_at_8000) as Haddr
      by (vm_compute; discriminate).
  exact (proj2 (proj2 (proj2 (proj2 (proj2
           (peer_index_goes_stale peer_scenario.discovery
              peer_scenario.miner_at_8000 peer_scenario.miner_at_9000
              eq_refl eq_refl Haddr)))))).
Defined.

Lemma py_minq_cases (a x : Q) :
  (py.minq a x = a /\ (a <= x)%Q) \/ (py.minq a x = x /\ (x < a)%Q).
Proof.
  unfold py.minq. destruct (py.lt x a) eqn:E.
  - right. split; [done |]. by apply py_lt_true.
  - left. split; [done |]. by apply py_lt_false.
Qed.

Lemma Forall_dict_set {A} (P : string * A -> Prop) (k : string) (v : A)
    (d : list (string * A)) :
  (forall k', P (k', v)) -> Forall P d -> Forall P (py.dict_set k v d).
Proof.
  intros Hv. induction 1 as [| [k0 v0] d Hp Hd IH]; simpl.
  - constructor; [apply Hv | constructor].
  - destruct (String.eqb k k0); constructor; first [done | apply Hv].
Qed.

Lemma Forall_dict_get {A} (P : string * A -> Prop) (k : string) (v : A)
    (d : list (string * A)) :
  Forall P d -> py.dict_get k d = Some v -> exists k', P (k', v).
Proof.
  induction 1 as [| [k0 v0] d Hp _ IH]; simpl; [done |].
  destruct (String.eqb k k0); [| exact IH].
  intros [= <-]. eauto.
Qed.

Lemma update_peer_reputation_in_range (pd : PeerDiscovery.t) (peer_id : string)
    (success : bool) (now : Q) :
  reputations_in_range pd ->
  reputations_in_range
    (PeerDiscovery.update_peer_reputation pd peer_id success now)
  /\ map fst (PeerDiscovery.known_peers
                (PeerDiscovery.update_peer_reputation pd peer_id success now))
     = map fst (PeerDiscovery.known_peers pd)
  /\ PeerDiscovery.peer_index
       (PeerDiscovery.update_peer_reputation pd peer_id success now)
     = PeerDiscovery.peer_index pd.
Proof.
  intros Hrange. unfold PeerDiscovery.update_peer_reputation.
  destruct (py.dict_get peer_id (PeerDiscovery.known_peers pd)) as [peer |] eqn:Hp;
    [| done].
  destruct (Forall_dict_get _ _ _ _ Hrange Hp) as (k' & Hlo & Hhi).
  cbn [snd] in Hlo, Hhi.
  split; [| split; [| done]].
  - unfold reputations_in_range. cbn [PeerDiscovery.known_peers].
    apply Forall_dict_set; [| exact Hrange].
    intros k0. cbn [snd]. destruct success; cbn [PeerInfo.reputation].
    + destruct (py_minq_cases 1 (PeerInfo.reputation peer + 0.05))
        as [[-> _] | [-> Hlt]]; split; lra.
    + destruct (py_maxq_cases 0 (PeerInfo.reputation peer - 0.1))
        as [[-> _] | [-> Hlt]]; split; lra.
  - cbn [PeerDiscovery.known_peers]. by eapply dict_set_keys_present.
Qed.

(** X28. Reputations stay between 0 and 1.  If every known peer has a
    reputation in [0, 1], so it has after any sequence of reported
    interactions, successful or failed, about known or unknown peers:
    a success adds 0.05 capped at 1, a failure takes 0.1 away floored at
    0.  The set and order of known peers and the address index are not
    affected. *)
Theorem reputation_stays_in_range (pd : PeerDiscovery.t)
    (reports : list (string * bool * Q)) :
  reputations_in_range pd ->
  reputations_in_range (report_interactions pd reports)
  /\ map fst (PeerDiscovery.known_peers (report_interactions pd reports))
     = map fst (PeerDiscovery.known_peers pd)
  /\ PeerDiscovery.peer_index (report_interactions pd reports)
     = PeerDiscovery.peer_index pd.
Proof.
  revert pd. induction reports as [| r rest IH]; intros pd Hrange; [done |].
  unfold report_interactions. cbn [fold_left].
  fold (report_interactions
          (PeerDiscovery.update_peer_reputation pd r.1.1 r.1.2 r.2) rest).
  destruct (update_peer_reputation_in_range pd r.1.1 r.1.2 r.2 Hrange)
    as (Hrange1 & Hkeys1 & Hindex1).
  destruct (IH _ Hrange1) as (Hrange' & Hkeys' & Hindex').
  split; [done |]. split; congruence.
Qed.

(** Twelve failures in a row do not push a fresh peer below 0. *)
Lemma reputation_stays_in_range_witness :
  reputations_in_range
    (report_interactions peer_scenario.discovery
       (replicate 12 ("Node_B", false, 5%Q))).
Proof.
  refine (proj1 (reputation_stays_in_range peer_scenario.discovery
                   (replicate 12 ("Node_B", false, 5%Q)) _)).
  repeat constructor; simpl; unfold Qle; simpl; lia.
Defined.

Lemma key_eqb_refl (k : py.key) : py.key_eqb k k = true.
Proof.
  destruct k as [| x | s]; simpl; [done | | apply String.eqb_refl].
  apply Qeq_bool_iff. reflexivity.
Qed.

Lemma kdict_get_set_eq {A} (k : py.key) (v : A) (d : list (py.key * A)) :
  py.kdict_get k (py.kdict_set k v d) = Some v.
Proof.
  induction d as [| [k' v'] d IH]; simpl.
  - by rewrite key_eqb_refl.
  - destruct (py.key_eqb k k') eqn:E; simpl; by rewrite E.
Qed.

Lemma kdict_del_set_fresh {A} (k : py.key) (v : A) (d : list (py.key * A)) :
  py.kdict_get k d = None -> py.kdict_del k (py.kdict_set k v d) = d.
Proof.
  induction d as [| [k' v'] d IH]; simpl.
  - by rewrite key_eqb_refl.
  - destruct (py.key_eqb k k') eqn:E; [done |]. simpl. rewrite E.
    intros Hnone. by rewrite IH.
Qed.

Lemma kdict_set_fresh_length {A} (k : py.key) (v : A) (d : list (py.key * A)) :
  py.kdict_get k d = None -> length (py.kdict_set k v d) = S (length d).
Proof.
  induction d as [| [k' v'] d IH]; simpl; [done |].
  destruct (py.key_eqb k k') eqn:E; [done |]. simpl.
  intros Hnone. by rewrite IH.
Qed.

Lemma kset_mem_add (k : py.key) (s : list py.key) :
  py.kset_mem k (py.kset_add k s) = true.
Proof.
  unfold py.kset_add. destruct (py.kset_mem k s) eqn:E; [done |].
  unfold py.kset_mem. rewrite existsb_app. simpl.
  rewrite key_eqb_refl. by rewrite orb_true_r.
Qed.

(** X29. Admission to the mempool.  A refused transaction leaves the
    pool unchanged, and a pool that holds at most [max_size] pending
    transactions still does after any call.  An admitted transaction is
    marked as seen and can be removed again by its id, which restores
    the pending table; after that removal the pool still reports the id
    as seen and yet admits the same transaction a second time: the
    seen-set is not consulted on admission. *)
Theorem mempool_admission (mp mp' : MemoryPool.t)
    (tx_data : list (string * py.value)) (ok : bool) :
  MemoryPool.add_transaction mp tx_data = py.Returned (ok, mp') ->
  let tx_id := default py.VNone (py.dict_get "tx_id" tx_data) in
  (ok = false -> mp' = mp)
  /\ Z.of_nat (length (MemoryPool.pending_transactions mp'))
     <= Z.max (Z.of_nat (length (MemoryPool.pending_transactions mp)))
              (MemoryPool.max_size mp)
  /\ MemoryPool.max_size mp' = MemoryPool.max_size mp
  /\ (ok = true ->
      MemoryPool.has_seen mp' tx_id = py.Returned true
      /\ exists mp2 mp3,
          MemoryPool.remove_transaction mp' tx_id = py.Returned (true, mp2)
          /\ MemoryPool.pending_transactions mp2
             = MemoryPool.pending_transactions mp
          /\ MemoryPool.has_seen mp2 tx_id = py.Returned true
          /\ MemoryPool.add_transaction mp2 tx_data = py.Returned (true, mp3)).
Proof.
  intros Hadd tx_id. subst tx_id. unfold MemoryPool.add_transaction in Hadd.
  destruct (MemoryPool.max_size mp
            <=? Z.of_nat (length (MemoryPool.pending_transactions mp))) eqn:Hfull.
  { inversion Hadd; subst. repeat split; try done; lia. }
  apply Z.leb_gt in Hfull.
  destruct (py.hashable (default py.VNone (py.dict_get "tx_id" tx_data)))
    as [k |] eqn:Hk; [| done].
  destruct (py.kdict_get k (MemoryPool.pending_transactions mp)) eqn:Hget.
  { inversion Hadd; subst. repeat split; try done; lia. }
  inversion Hadd; subst ok mp'. clear Hadd.
  cbn [MemoryPool.pending_transactions MemoryPool.max_size].
  split; [done |]. split; [rewrite kdict_set_fresh_length by done; lia |].
  split; [done |]. intros _.
  unfold MemoryPool.has_seen, MemoryPool.remove_transaction. rewrite Hk.
  cbn [MemoryPool.pending_transactions MemoryPool.received_hashes
       MemoryPool.max_size MemoryPool.pending_blocks MemoryPool.tx_index].
  rewrite kset_mem_add, kdict_get_set_eq, kdict_del_set_fresh by done.
  split; [done |]. eexists _, _. split; [reflexivity |].
  cbn [MemoryPool.pending_transactions MemoryPool.received_hashes].
  split; [done |]. rewrite kset_mem_add. split; [done |].
  unfold MemoryPool.add_transaction.
  cbn [MemoryPool.pending_transactions MemoryPool.max_size].
  replace (MemoryPool.max_size mp
           <=? Z.of_nat (length (MemoryPool.pending_transactions mp)))
    with false by (symmetry; apply Z.leb_gt; lia).
  rewrite Hk, Hget. reflexivity.
Qed.

(** A payment is admitted to a pool of capacity two. *)
Lemma mempool_admission_witness :
  exists mp',
    MemoryPool.add_transaction mempool_scenario.pool mempool_scenario.payment
    = py.Returned (true, mp')
    /\ MemoryPool.has_seen mp' (py.VStr "tx_1") = py.Returned true.
Proof.
  eexists. split; [reflexivity |].
  refine (proj1 (proj2 (proj2 (proj2
            (mempool_admission mempool_scenario.pool _ mempool_scenario.payment
               true _))) eq_refl)).
  reflexivity.
Defined.

(** X30. A received message is recorded but never queued for relay.
    [receive_message] refuses a message that should not be propagated
    and changes nothing.  Otherwise, with room left in the history, it
    records the key of the message and decrements its ttl, and the
    re-broadcast that follows finds the key it has just recorded (the
    key does not cover the ttl) and drops the message: the propagation
    queue is left as it was, whereas submitting the same message with
    [add_message] queues it. *)
Theorem received_message_is_not_queued `{Hashlib} `{SetOrder}
    (g : GossipProtocol.t) (m : Message.t) :
  (GossipProtocol.should_propagate g m = false ->
   node.receive_message g m = (false, g, m))
  /\ (GossipProtocol.should_propagate g m = true ->
      Z.of_nat (size (GossipProtocol.message_history g))
      < GossipProtocol.max_history g ->
      node.receive_message g m
      = (true,
         GossipProtocol.set_message_history
           ({[Message.hash m]} ∪ GossipProtocol.message_history g) g,
         Message.set_ttl (Message.ttl m - 1) m)
      /\ GossipProtocol.message_queue (node.receive_message g m).1.2
         = GossipProtocol.message_queue g
      /\ GossipProtocol.message_queue (GossipProtocol.add_message g m)
         = GossipProtocol.message_queue g ++ [m]).
Proof.
  split.
  - intros Hno. unfold node.receive_message. by rewrite Hno.
  - intros Hyes Hroom.
    pose proof (proj1 (should_propagate_true_iff g m) Hyes) as [Hfresh Httl].
    assert (node.receive_message g m
            = (true,
               GossipProtocol.set_message_history
                 ({[Message.hash m]} ∪ GossipProtocol.message_history g) g,
               Message.set_ttl (Message.ttl m - 1) m)) as Hrecv.
    { unfold node.receive_message. rewrite Hyes. cbn [negb].
      rewrite add_to_history_room by done.
      destruct (0 <? Message.ttl (Message.set_ttl (Message.ttl m - 1) m));
        [| done].
      unfold GossipProtocol.add_message.
      rewrite should_propagate_seen; [done |].
      rewrite (Message_hash_ignores_ttl m (Message.set_ttl (Message.ttl m - 1) m))
        by done.
      cbn [GossipProtocol.message_history GossipProtocol.set_message_history].
      apply elem_of_union_l, elem_of_singleton. done. }
    split; [exact Hrecv |]. split; [by rewrite Hrecv |].
    by rewrite add_message_fresh.
Qed.

(** A block announcement with ttl 64 received by a fresh node. *)
Lemma received_message_is_not_queued_witness :
  GossipProtocol.message_queue
    (node.receive_message (H := standin.hashlib) (H0 := standin.set_order)
       gossip_scenario.fresh_gossip gossip_scenario.announce).1.2
  = []
  /\ GossipProtocol.message_queue
       (GossipProtocol.add_message (H := standin.hashlib)
          (H0 := standin.set_order)
          gossip_scenario.fresh_gossip gossip_scenario.announce)
     = [gossip_scenario.announce].
Proof.
  assert (GossipProtocol.should_propagate (H := standin.hashlib)
            gossip_scenario.fresh_gossip gossip_scenario.announce = true) as Hyes
      by reflexivity.
  assert (Z.of_nat (size (GossipProtocol.message_history
                            gossip_scenario.fresh_gossip))
          < GossipProtocol.max_history gossip_scenario.fresh_gossip) as Hroom
      by (vm_compute; reflexivity).
  exact (proj2 (proj2 (received_message_is_not_queued
                         (H := standin.hashlib) (H0 := standin.set_order)
                         gossip_scenario.fresh_gossip gossip_scenario.announce)
                  Hyes Hroom)).
Defined.

End NetworkMore.
